(** * Booking conflict-resolution engine of the meeting-booking backend

    A shallow embedding of [services/bookingService.ts] (class
    [BookingService]), of the booking routes ([routes/bookings.ts]), of the
    room routes that read or write stored rooms ([routes/rooms.ts]), of the
    auth routes ([routes/auth.ts]), of the date check of the booking form and
    of the list of bookings on the page of a room.

    - A [Date] is its number of milliseconds since the epoch; comparing two
      dates compares these numbers.  Invalid dates are not modelled.
    - The database is a [Store]: the three tables as lists of rows, in
      insertion order, and the sequence behind [bookings.id].
    - A Prisma call that reads is a function of the store; a call that writes
      returns the new store next to its result; [throw] is the [Throw]
      constructor of [result], carrying the message of the error (every
      value thrown here is an [Error], which is all the routes ask of it
      besides its message).
    - Ids are keys the database issues from sequences that start at 1: a
      stored booking is found by its id alone, and no user has id 0
      ([wf_store] states this for table [bookings]).
    - The columns [id] and [userId] are of type [Int]: the client raises,
      before any row is read, when asked to look up a number outside the
      32-bit signed range ([int4]); the cancel route and the route that reads
      one booking carry that error to their [catch] block.
    - In [handle], [reachable] and [produced] requests run one after the
      other, each on the store the previous one left, and the transaction of
      [createBookingSafe] is one step.  Two creations whose queries both run
      before either insert are modelled apart, by
      [createBookingSafe_interleaved]: the row locks of the query ([FOR
      UPDATE]) exclude nothing when the query selects no row.
    - The [include] clauses (the room and the public fields of the user joined
      to a returned booking) do not take part in any decision and are left
      out of the returned values. *)

From Stdlib Require Import ZArith List Bool String Lia.
From Stdlib Require Import Sorting.Sorted Sorting.Permutation.
Import ListNotations.

Open Scope string_scope.
Open Scope list_scope.
Open Scope Z_scope.

(** ** Data model *)

Definition Date := Z.

Module User.
(** [req.user], the payload of the token: only [id] and [role] are read by
    the booking routes. *)
Record t := mk { id : Z; role : string }.
End User.

Module Room.
Record t := mk {
  id : Z;
  name : string;
  capacity : Z;
  description : option string;
  ownerId : Z
}.
End Room.

(** A row of table [bookings]; [deletedAt = None] is SQL [NULL]: the booking
    is active. *)
Record Booking := mkBooking {
  id : Z;
  userId : Z;
  roomId : Z;
  startTime : Date;
  endTime : Date;
  description : option string;
  deletedAt : option Date;
  createdAt : Date
}.

Record Store := mkStore {
  users : list User.t;
  rooms : list Room.t;
  bookings : list Booking;
  booking_seq : Z
}.

(** The argument of [createBookingSafe]. *)
Module NewBooking.
Record t := mk {
  userId : Z;
  roomId : Z;
  startTime : Date;
  endTime : Date;
  description : option string
}.
End NewBooking.

Inductive result (A : Type) : Type :=
| Ok (a : A)
| Throw (message : string).
Arguments Ok {A} a.
Arguments Throw {A} message.

(** The errors the Prisma client raises by itself, by their code. *)
Inductive PrismaError :=
| P2002   (* unique constraint failed *)
| P2003   (* foreign key constraint failed *)
| P2025   (* record to update not found *)
| ValueOutOfRange.  (* a number that an Int column cannot hold *)

(** ** JavaScript helpers *)

(** [s.includes(sub)] *)
Definition includes (s sub : string) : bool :=
  match index 0 sub s with
  | Some _ => true
  | None => false
  end.

(** Truthiness of an optional number: [undefined] and [0] are falsy. *)
Definition truthy (v : option Z) : bool :=
  match v with
  | Some n => negb (n =? 0)
  | None => false
  end.

(** The numbers a column of type [Int] (a 32-bit signed integer of
    PostgreSQL) can hold.  The Prisma client raises an error, without
    running the query, when a number given for such a column is not one of
    them. *)
Definition int4 (n : Z) : bool := (-2147483648 <=? n) && (n <=? 2147483647).

Definition is_null {A : Type} (v : option A) : bool :=
  match v with
  | Some _ => false
  | None => true
  end.

Definition is_Ok {A : Type} (r : result A) : bool :=
  match r with
  | Ok _ => true
  | Throw _ => false
  end.

Definition is_admin (u : User.t) : bool := String.eqb (User.role u) "admin".

(** ** The overlap clauses *)

(** The [WHERE] clause of the raw query of [createBookingSafe], for a row
    [b] and the candidate [s], [e]. *)
Definition overlap_sql (b : Booking) (s e : Date) : bool :=
  ((startTime b <=? s) && (endTime b >? s))
  || ((startTime b <? e) && (endTime b >=? e))
  || ((startTime b >=? s) && (endTime b <=? e)).

(** The [OR] of the [where] object of [checkRoomAvailability]. *)
Definition overlap_where (b : Booking) (s e : Date) : bool :=
  ((startTime b <=? s) && (endTime b >? s))
  || ((startTime b <? e) && (endTime b >=? e))
  || ((startTime b >=? s) && (endTime b <=? e)).

(** The [OR] of [GET /rooms/available]: every comparison is inclusive. *)
Definition overlap_available (b : Booking) (s e : Date) : bool :=
  ((startTime b >=? s) && (startTime b <=? e))
  || ((endTime b >=? s) && (endTime b <=? e))
  || ((startTime b <=? s) && (endTime b >=? e)).

(** Half-open intervals [[start, end)] meet. *)
Definition half_open_conflict (b : Booking) (s e : Date) : Prop :=
  startTime b < e /\ s < endTime b.

(** ** Responses of the routes *)

Inductive Payload :=
| Message (m : string)
| BookingJson (b : Booking)
| BookingsJson (l : list Booking)
| CancelledJson (m : string) (b : Booking)
| AvailableJson (available : bool)
| RoomsJson (l : list Room.t).

Record Response := mkResponse { status : Z; payload : Payload }.

(** The body of [POST /bookings].  A field is [None] when it is absent;
    [Some t] for [start_time] and [end_time] is a non-empty date string that
    [new Date] reads as the instant [t]. *)
Module Body.
Record t := mk {
  room_id : option Z;
  user_id : option Z;
  start_time : option Date;
  end_time : option Date;
  description : option string
}.
End Body.

(** What the booking form ends with: an error shown without any request, or
    the response to the request it sent. *)
Inductive FormOutcome :=
| FormError (m : string)
| Submitted (r : Response).

(** ** Queries shared by the service *)

Definition set_deletedAt (b : Booking) (d : option Date) : Booking :=
  mkBooking (id b) (userId b) (roomId b) (startTime b) (endTime b)
            (description b) d (createdAt b).

(** One row under [UPDATE bookings SET deleted_at = d WHERE id = bookingId]. *)
Definition mark_deleted (bookingId : Z) (d : Date) (c : Booking) : Booking :=
  if id c =? bookingId then set_deletedAt c (Some d) else c.

Definition set_bookings (st : Store) (rows : list Booking) : Store :=
  mkStore (users st) (rooms st) rows (booking_seq st).

Definition set_booking_seq (st : Store) (n : Z) : Store :=
  mkStore (users st) (rooms st) (bookings st) n.

(** [ORDER BY start_time ASC]: an insertion sort that keeps rows of equal
    [startTime] in table order. *)
Fixpoint insert_by_startTime (b : Booking) (l : list Booking) : list Booking :=
  match l with
  | [] => [b]
  | c :: l' =>
      if startTime b <=? startTime c then b :: l
      else c :: insert_by_startTime b l'
  end.

Definition order_by_startTime (l : list Booking) : list Booking :=
  fold_right insert_by_startTime [] l.

(** Modelled from the spec: prisma/schema.prisma and its migrations are not
    among the sources, except for the migration that creates the unique index
    on [(user_id, room_id, start_time, end_time)]; the README's schema lists
    that index and the foreign keys [userId] and [roomId].  This is the test
    of the unique index against a candidate row. *)
Definition unique_booking_violated (rows : list Booking) (data : NewBooking.t) : bool :=
  existsb (fun b =>
             (userId b =? NewBooking.userId data)
             && (roomId b =? NewBooking.roomId data)
             && (startTime b =? NewBooking.startTime data)
             && (endTime b =? NewBooking.endTime data)) rows.

(** Modelled from the spec: the two foreign keys of table [bookings], as the
    README's schema lists them. *)
Definition foreign_keys_hold (st : Store) (data : NewBooking.t) : bool :=
  existsb (fun u => User.id u =? NewBooking.userId data) (users st)
  && existsb (fun r => Room.id r =? NewBooking.roomId data) (rooms st).

(** The rows the raw query of [createBookingSafe] selects. *)
Definition overlappingBookings (st : Store) (data : NewBooking.t) : list Booking :=
  filter (fun b =>
            (roomId b =? NewBooking.roomId data)
            && is_null (deletedAt b)
            && overlap_sql b (NewBooking.startTime data) (NewBooking.endTime data))
         (bookings st).

(** The [where] object of [checkRoomAvailability]. *)
Definition availability_where (room : Z) (s e : Date) (excludeBookingId : option Z)
           (b : Booking) : bool :=
  (roomId b =? room)
  && is_null (deletedAt b)
  && overlap_where b s e
  && match excludeBookingId with
     | Some x => if truthy excludeBookingId then negb (id b =? x) else true
     | None => true
     end.

(** The invariant the database keeps on table [bookings]: [id] is a primary
    key drawn from a sequence that starts at 1. *)
Definition wf_store (st : Store) : Prop :=
  NoDup (map id (bookings st))
  /\ 0 < booking_seq st
  /\ Forall (fun b => id b < booking_seq st) (bookings st).

Definition remove_cancelled (st : Store) : Store :=
  set_bookings st (filter (fun b => is_null (deletedAt b)) (bookings st)).

Definition empty_store : Store := mkStore [] [] [] 1.

(** ** The other routes: bodies and responses *)

(** The body of [POST /bookings/check-availability]; the fields are JSON
    numbers, dates as for [Body.t]. *)
Module AvailabilityBody.
Record t := mk {
  roomId : option Z;
  startTime : option Date;
  endTime : option Date;
  excludeBookingId : option Z
}.
End AvailabilityBody.

(** The body of [PUT /rooms/:id]: a field that is absent ([undefined]) leaves
    its column as it is; [description] may also be given as [null]. *)
Module RoomBody.
Record t := mk {
  name : option string;
  capacity : option Z;
  description : option (option string)
}.
End RoomBody.

(** What the room routes answer.  The two texts built around a count carry
    the count itself. *)
Inductive RoomPayload :=
| RoomMessage (m : string)
| RoomJson (r : Room.t)
| RoomDeletedWithBookings (deletedBookings : nat)
| RoomHasActiveBookings (activeBookings : nat).

Record RoomResponse := mkRoomResponse { room_status : Z; room_payload : RoomPayload }.

(** What the database does with the bookings of a room that is deleted: the
    referential action of the foreign key [bookings.roomId]. *)
Inductive ReferentialAction := Cascade | Restrict.

Definition set_rooms (st : Store) (rs : list Room.t) : Store :=
  mkStore (users st) rs (bookings st) (booking_seq st).

(** [data: { name, capacity, description }] applied to a row. *)
Definition room_update (r : Room.t) (body : RoomBody.t) : Room.t :=
  Room.mk (Room.id r)
          (match RoomBody.name body with Some n => n | None => Room.name r end)
          (match RoomBody.capacity body with Some c => c | None => Room.capacity r end)
          (match RoomBody.description body with Some d => d | None => Room.description r end)
          (Room.ownerId r).

(** ** routes/auth.ts: table [users] in full, bodies and responses *)

(** A row of table [users] with the columns the auth routes read and write.
    ([Store.users] keeps of such a row what the booking routes need: its id
    and its role.) *)
Module Account.
Record t := mk {
  id : Z;
  username : string;
  email : string;
  password : string;
  role : string;
  createdAt : Date
}.
End Account.

Record Accounts := mkAccounts { accounts : list Account.t; account_seq : Z }.

(** The fields of a user that a token carries and a response shows. *)
Module Profile.
Record t := mk { id : Z; username : string; email : string; role : string }.
End Profile.

Definition profile_of (a : Account.t) : Profile.t :=
  Profile.mk (Account.id a) (Account.username a) (Account.email a) (Account.role a).

(** The body of [POST /auth/register] and of [POST /auth/login]. *)
Module Credentials.
Record t := mk {
  username : option string;
  email : option string;
  password : option string
}.
End Credentials.

(** A signed token stands for its payload; its expiry is not modelled. *)
Inductive Cookie :=
| NoCookie
| SetToken (payload : Profile.t)
| ClearToken.

Inductive AuthPayload :=
| AuthMessage (m : string)
| AuthServerError (m : string) (error : string)
| AuthUser (m : string) (user : Profile.t)
| MeUser (user : Profile.t)
| PromotedUser (m : string) (username : string).

Record AuthResponse := mkAuthResponse {
  auth_status : Z;
  auth_cookie : Cookie;
  auth_payload : AuthPayload
}.

(** Truthiness of an optional string: [undefined] and the empty string are
    falsy. *)
Definition truthy_string (v : option string) : bool :=
  match v with
  | Some s => negb (String.eqb s "")
  | None => false
  end.

Definition set_role (a : Account.t) (r : string) : Account.t :=
  Account.mk (Account.id a) (Account.username a) (Account.email a)
             (Account.password a) r (Account.createdAt a).

(** ** Sample data for the concrete runs *)

(** A message text for each Prisma error. *)
Definition sample_message (e : PrismaError) : string :=
  match e with
  | P2002 => "Unique constraint failed on the fields: (user_id,room_id,start_time,end_time)"
  | P2003 => "Foreign key constraint violated"
  | P2025 => "Record to update not found"
  | ValueOutOfRange => "Unable to fit integer value into an INT4 (32-bit signed integer)"
  end.

Definition alice : User.t := User.mk 1 "admin".
Definition bob : User.t := User.mk 2 "user".
Definition carol : User.t := User.mk 3 "user".
Definition room_a : Room.t := Room.mk 1 "A" 4 None 1.

(** Bob's booking of room A over [[10, 20)], active and cancelled at 5. *)
Definition bob_10_20 : Booking := mkBooking 1 2 1 10 20 None None 0.
Definition bob_10_20_cancelled : Booking := mkBooking 1 2 1 10 20 None (Some 5) 0.
Definition carol_30_40 : Booking := mkBooking 2 3 1 30 40 None None 0.
Definition carol_0_5 : Booking := mkBooking 3 3 1 0 5 None None 0.

Definition st_free : Store := mkStore [alice; bob; carol] [room_a] [] 1.
Definition st_active : Store := mkStore [alice; bob; carol] [room_a] [bob_10_20] 2.
Definition st_cancelled : Store :=
  mkStore [alice; bob; carol] [room_a] [bob_10_20_cancelled] 2.
Definition st_three : Store :=
  mkStore [alice; bob; carol] [room_a] [carol_30_40; bob_10_20; carol_0_5] 4.

(** A store holding an active row whose id is 0. *)
Definition st_id_zero : Store :=
  mkStore [alice; bob; carol] [room_a] [mkBooking 0 2 1 10 20 None None 0] 1.

(** A second room, owned by Bob, in a store whose only booking is the
    cancelled one of room A. *)
Definition room_b : Room.t := Room.mk 2 "B" 6 None 2.
Definition st_rooms : Store :=
  mkStore [alice; bob; carol] [room_a; room_b] [bob_10_20_cancelled] 2.

Definition carol_20_30 : Booking := mkBooking 2 3 1 20 30 None None 0.
Definition body_bob_10_20 : Body.t := Body.mk (Some 1) None (Some 10) (Some 20) None.
Definition body_carol_20_30 : Body.t := Body.mk (Some 1) None (Some 20) (Some 30) None.

(** Stand-ins for bcrypt: the hash marks the password, the salt is dropped. *)
Definition sample_hash (password salt : string) : string := "$2b$" ++ password.
Definition sample_compare (password hash : string) : bool :=
  String.eqb hash ("$2b$" ++ password).

Definition ann : Credentials.t :=
  Credentials.mk (Some "ann") (Some "ann@example.com") (Some "secret").
Definition ben : Credentials.t :=
  Credentials.mk (Some "ben") (Some "ben@example.com") (Some "hunter2").
Definition no_accounts : Accounts := mkAccounts [] 1.
Definition ann_account : Account.t :=
  Account.mk 1 "ann" "ann@example.com" "$2b$secret" "admin" 0.
Definition ben_account : Account.t :=
  Account.mk 2 "ben" "ben@example.com" "$2b$hunter2" "user" 0.
Definition two_accounts : Accounts := mkAccounts [ann_account; ben_account] 3.

(** ** The service and the routes *)

Section BookingEngine.

(** The message text of the errors the Prisma client raises is not in the
    sources; the routes only search it for fixed words. *)
Variable prisma_message : PrismaError -> string.

(** [tx.booking.create]: the row takes the next value of the sequence, which
    PostgreSQL does not give back when the statement fails.  In a store that
    satisfies [wf_store] that value is the id of no stored row, so the primary
    key is not tested. *)
Definition booking_create (now : Date) (st : Store) (data : NewBooking.t)
  : result Booking * Store :=
  let st1 := set_booking_seq st (booking_seq st + 1) in
  if unique_booking_violated (bookings st) data then
    (Throw (prisma_message P2002), st1)
  else if negb (foreign_keys_hold st data) then
    (Throw (prisma_message P2003), st1)
  else
    let b := mkBooking (booking_seq st)
                       (NewBooking.userId data) (NewBooking.roomId data)
                       (NewBooking.startTime data) (NewBooking.endTime data)
                       (NewBooking.description data) None now in
    (Ok b, set_bookings st1 (bookings st ++ [b])).

(** [prisma.booking.update({ where: { id }, data: { deletedAt } })] *)
Definition booking_update (st : Store) (bookingId : Z) (d : Date)
  : result Booking * Store :=
  match find (fun b => id b =? bookingId) (bookings st) with
  | None => (Throw (prisma_message P2025), st)
  | Some b =>
      (Ok (set_deletedAt b (Some d)),
       set_bookings st (map (mark_deleted bookingId d) (bookings st)))
  end.

Definition createBookingSafe (now : Date) (st : Store) (data : NewBooking.t)
  : result Booking * Store :=
  if (0 <? List.length (overlappingBookings st data))%nat then
    (Throw "Room is already booked for this time period", st)
  else booking_create now st data.

Definition getActiveBookings (st : Store) (user : option Z) : list Booking :=
  order_by_startTime
    (filter (fun b =>
               is_null (deletedAt b)
               && match user with
                  | Some u => if truthy user then userId b =? u else true
                  | None => true
                  end)
            (bookings st)).

(** [findFirst] raises when [bookingId] or [userId] does not fit its
    column. *)
Definition softDeleteBooking (now : Date) (st : Store) (bookingId user : Z)
  : result Booking * Store :=
  if negb (int4 bookingId && int4 user) then
    (Throw (prisma_message ValueOutOfRange), st)
  else
    let booking :=
      if user =? 0 then
        find (fun b => (id b =? bookingId) && is_null (deletedAt b)) (bookings st)
      else
        find (fun b => (id b =? bookingId) && (userId b =? user)
                       && is_null (deletedAt b)) (bookings st) in
    match booking with
    | None => (Throw "Booking not found or already cancelled", st)
    | Some _ => booking_update st bookingId now
    end.

Definition checkRoomAvailability (st : Store) (room : Z) (s e : Date)
           (excludeBookingId : option Z) : bool :=
  let conflictingBookings :=
    List.length (filter (availability_where room s e excludeBookingId) (bookings st)) in
  (conflictingBookings =? 0)%nat.

(** What [getBookingById] resolves to for a [bookingId] that fits the
    column; for any other the call raises, which the routes that make the
    call account for. *)
Definition getBookingById (st : Store) (bookingId : Z) : option Booking :=
  find (fun b => (id b =? bookingId) && is_null (deletedAt b)) (bookings st).

(** *** routes/bookings.ts *)

(** [POST /bookings]: [const bookingUserId = user_id || currentUser.id] *)
Definition bookingUserId (body : Body.t) (currentUser : User.t) : Z :=
  match Body.user_id body with
  | Some u => if truthy (Body.user_id body) then u else User.id currentUser
  | None => User.id currentUser
  end.

(** [POST /bookings]: the [try] block's answer and the [catch] block's. *)
Definition post_bookings_reply (r : result Booking) : Response :=
  match r with
  | Ok booking => mkResponse 201 (BookingJson booking)
  | Throw m =>
      if includes m "already booked" || includes m "unique_booking" then
        mkResponse 409 (Message "Room is already booked for this time period")
      else
        mkResponse 500 (Message "Error creating booking")
  end.

(** [POST /bookings] *)
Definition post_bookings (now : Date) (st : Store) (currentUser : User.t)
           (body : Body.t) : Response * Store :=
  match Body.room_id body, Body.start_time body, Body.end_time body with
  | Some room, Some s, Some e =>
      if negb (truthy (Body.room_id body)) then
        (mkResponse 400 (Message "room_id, start_time, and end_time are required"), st)
      else if truthy (Body.user_id body)
              && match Body.user_id body with
                 | Some u => negb (u =? User.id currentUser)
                 | None => true
                 end
              && negb (is_admin currentUser)
      then
        (mkResponse 403 (Message "Only admin can create bookings for other users"), st)
      else
        let (r, st') :=
          createBookingSafe now st
            (NewBooking.mk (bookingUserId body currentUser) room s e
                           (Body.description body)) in
        (post_bookings_reply r, st')
  | _, _, _ =>
      (mkResponse 400 (Message "room_id, start_time, and end_time are required"), st)
  end.

(** [GET /bookings] *)
Definition get_bookings (st : Store) (user : User.t) : Response :=
  let bookings :=
    if is_admin user then getActiveBookings st None
    else getActiveBookings st (Some (User.id user)) in
  mkResponse 200 (BookingsJson bookings).

(** The second argument the cancel route gives [softDeleteBooking]. *)
Definition cancel_actor (user : User.t) : Z :=
  if is_admin user then 0 else User.id user.

(** [DELETE /bookings/:id]; [now] is the clock as the route reads it, [later]
    as [softDeleteBooking] reads it afterwards. *)
Definition delete_booking (now later : Date) (st : Store) (user : User.t)
           (bookingId : Z) : Response * Store :=
  let cancel :=
    match softDeleteBooking later st bookingId (cancel_actor user) with
    | (Ok cancelledBooking, st') =>
        (mkResponse 200 (CancelledJson "Booking cancelled successfully" cancelledBooking), st')
    | (Throw m, st') =>
        if includes m "not found" then
          (mkResponse 404 (Message "Booking not found or already cancelled"), st')
        else
          (mkResponse 500 (Message "Error cancelling booking"), st')
    end in
  if negb (is_admin user) then
    if negb (int4 bookingId) then
      if includes (prisma_message ValueOutOfRange) "not found" then
        (mkResponse 404 (Message "Booking not found or already cancelled"), st)
      else
        (mkResponse 500 (Message "Error cancelling booking"), st)
    else
      match getBookingById st bookingId with
      | None => (mkResponse 404 (Message "Booking not found"), st)
      | Some booking =>
          if negb (userId booking =? User.id user) then
            (mkResponse 403 (Message "Not authorized"), st)
          else if startTime booking <=? now then
            (mkResponse 400 (Message "Cannot cancel past or ongoing bookings"), st)
          else cancel
      end
  else cancel.

(** *** routes/rooms.ts: [GET /rooms/available]; a query parameter is [None]
    when it is absent or empty. *)
Definition get_rooms_available (st : Store) (start_time end_time : option Date)
  : Response :=
  match start_time, end_time with
  | Some s, Some e =>
      let allRooms := rooms st in
      let bookedRooms := filter (fun b => overlap_available b s e) (bookings st) in
      let bookedRoomIds := map roomId bookedRooms in
      let availableRooms :=
        filter (fun room => negb (existsb (Z.eqb (Room.id room)) bookedRoomIds))
               allRooms in
      mkResponse 200 (RoomsJson availableRooms)
  | _, _ => mkResponse 400 (Message "start_time and end_time are required")
  end.

(** *** The booking form: [handleSubmit] of rooms/[id]/book/page.tsx; [now] is
    the clock of the browser, [created] the one of the database when the
    request arrives. *)
Definition handleSubmit (now created : Date) (st : Store) (user : User.t) (room : Z)
           (formStart formEnd : Date) (note : option string)
  : FormOutcome * Store :=
  if formStart <=? now then
    (FormError "Start time must be in the future", st)
  else if formEnd <=? formStart then
    (FormError "End time must be after start time", st)
  else
    let (r, st') :=
      post_bookings created st user
        (Body.mk (Some room) None (Some formStart) (Some formEnd) note) in
    (Submitted r, st').

(** *** routes/bookings.ts: the two routes that only read *)

(** [GET /bookings/:id]; the [catch] block answers 500 whatever was
    raised. *)
Definition get_booking (st : Store) (user : User.t) (bookingId : Z) : Response :=
  if negb (int4 bookingId) then
    mkResponse 500 (Message "Error fetching booking")
  else
    match getBookingById st bookingId with
    | None => mkResponse 404 (Message "Booking not found")
    | Some booking =>
        if negb (is_admin user) && negb (userId booking =? User.id user) then
          mkResponse 403 (Message "Not authorized")
        else mkResponse 200 (BookingJson booking)
    end.


(** *** rooms/[id]/page.tsx: the bookings the page of a room shows, out of
    the answer of [GET /bookings] *)
Definition upcomingBookings (now : Date) (st : Store) (user : User.t) (room : Z)
  : list Booking :=
  match payload (get_bookings st user) with
  | BookingsJson data =>
      filter (fun booking => (roomId booking =? room) && (startTime booking >? now)) data
  | _ => []
  end.

(** *** routes/rooms.ts *)

(** The action of the foreign key [bookings.roomId] is set in the schema,
    which is not in the sources. *)
Variable room_onDelete : ReferentialAction.

(** [prisma.room.delete({ where: { id } })] *)
Definition room_delete (st : Store) (room : Z) : result Room.t * Store :=
  match find (fun r => Room.id r =? room) (rooms st) with
  | None => (Throw (prisma_message P2025), st)
  | Some r =>
      let others := filter (fun r' => negb (Room.id r' =? room)) (rooms st) in
      match room_onDelete with
      | Restrict =>
          if existsb (fun b => roomId b =? room) (bookings st) then
            (Throw (prisma_message P2003), st)
          else (Ok r, set_rooms st others)
      | Cascade =>
          (Ok r, set_rooms (set_bookings st
                              (filter (fun b => negb (roomId b =? room)) (bookings st)))
                           others)
      end
  end.

(** [tx.booking.deleteMany({ where: { roomId } })] *)
Definition booking_deleteMany (st : Store) (room : Z) : Store :=
  set_bookings st (filter (fun b => negb (roomId b =? room)) (bookings st)).

(** [GET /rooms/:id] *)
Definition get_room (st : Store) (room : Z) : RoomResponse :=
  match find (fun r => Room.id r =? room) (rooms st) with
  | None => mkRoomResponse 404 (RoomMessage "Room not found")
  | Some r => mkRoomResponse 200 (RoomJson r)
  end.

(** [PUT /rooms/:id] *)
Definition put_room (st : Store) (user : User.t) (room : Z) (body : RoomBody.t)
  : RoomResponse * Store :=
  match find (fun r => Room.id r =? room) (rooms st) with
  | None => (mkRoomResponse 404 (RoomMessage "Room not found! "), st)
  | Some r =>
      if negb (Room.ownerId r =? User.id user) && negb (is_admin user) then
        (mkRoomResponse 403 (RoomMessage "Forbidden"), st)
      else
        (mkRoomResponse 200 (RoomJson (room_update r body)),
         set_rooms st
           (map (fun r' => if Room.id r' =? room then room_update r' body else r')
                (rooms st)))
  end.

(** [DELETE /rooms/:id] *)
Definition delete_room (st : Store) (user : User.t) (room : Z)
  : RoomResponse * Store :=
  match find (fun r => Room.id r =? room) (rooms st) with
  | None => (mkRoomResponse 404 (RoomMessage "Room not found"), st)
  | Some r =>
      if negb (Room.ownerId r =? User.id user) && negb (is_admin user) then
        (mkRoomResponse 403 (RoomMessage "Forbidden"), st)
      else
        let roomBookings := filter (fun b => roomId b =? room) (bookings st) in
        let activeBookings := filter (fun b => is_null (deletedAt b)) roomBookings in
        if is_admin user then
          match room_delete (booking_deleteMany st room) room with
          | (Ok _, st') =>
              (mkRoomResponse 200 (RoomDeletedWithBookings (List.length roomBookings)), st')
          | (Throw _, _) =>
              (mkRoomResponse 500 (RoomMessage "Error deleting room"), st)
          end
        else if (0 <? List.length activeBookings)%nat then
          (mkRoomResponse 400 (RoomHasActiveBookings (List.length activeBookings)), st)
        else
          match room_delete st room with
          | (Ok _, st') => (mkRoomResponse 200 (RoomMessage "Room deleted successfully"), st')
          | (Throw _, _) => (mkRoomResponse 500 (RoomMessage "Error deleting room"), st)
          end
  end.

(** *** routes/auth.ts *)

(** [bcrypt.hash(password, 10)] draws a salt; [salt] stands for the draw. *)
Variable bcrypt_hash : string -> string -> string.
Variable bcrypt_compare : string -> string -> bool.

(** [prisma.user.create]: [email] and [username] are unique columns (the
    routes look rows up with [findUnique] on each). *)
Definition user_create (now : Date) (t : Accounts)
           (username email password role : string) : result Account.t * Accounts :=
  let t1 := mkAccounts (accounts t) (account_seq t + 1) in
  if existsb (fun a => String.eqb (Account.email a) email
                       || String.eqb (Account.username a) username) (accounts t)
  then (Throw (prisma_message P2002), t1)
  else
    let user := Account.mk (account_seq t) username email password role now in
    (Ok user, mkAccounts (accounts t ++ [user]) (account_seq t + 1)).

(** [POST /auth/register].  No error raised here is named
    [SequelizeValidationError], so the [catch] block answers 500. *)
Definition register (now : Date) (salt : string) (t : Accounts) (body : Credentials.t)
  : AuthResponse * Accounts :=
  match Credentials.username body, Credentials.email body, Credentials.password body with
  | Some username, Some email, Some password =>
      if negb (truthy_string (Some username)) || negb (truthy_string (Some email))
         || negb (truthy_string (Some password)) then
        (mkAuthResponse 400 NoCookie (AuthMessage "All fields required"), t)
      else
        match find (fun a => String.eqb (Account.email a) email) (accounts t) with
        | Some existUser =>
            (mkAuthResponse 400 NoCookie (AuthMessage "Email already exists"), t)
        | None =>
            let totalUsers := List.length (accounts t) in
            let role := if (totalUsers =? 0)%nat then "admin" else "user" in
            let hashedPassword := bcrypt_hash password salt in
            match user_create now t username email hashedPassword role with
            | (Ok user, t') =>
                (mkAuthResponse 201 (SetToken (profile_of user))
                   (AuthUser "User registered and logged in successfully"
                             (profile_of user)), t')
            | (Throw m, t') =>
                (mkAuthResponse 500 NoCookie (AuthServerError "Server error" m), t')
            end
        end
  | _, _, _ => (mkAuthResponse 400 NoCookie (AuthMessage "All fields required"), t)
  end.

(** [POST /auth/login] *)
Definition login (t : Accounts) (body : Credentials.t) : AuthResponse :=
  match Credentials.username body, Credentials.email body, Credentials.password body with
  | Some username, Some email, Some password =>
      if negb (truthy_string (Some username)) || negb (truthy_string (Some email))
         || negb (truthy_string (Some password)) then
        mkAuthResponse 400 NoCookie
          (AuthMessage "Username, email and password are required")
      else
        match find (fun a => String.eqb (Account.username a) username
                             && String.eqb (Account.email a) email) (accounts t) with
        | None => mkAuthResponse 400 NoCookie (AuthMessage "Invalid credentials")
        | Some user =>
            if negb (bcrypt_compare password (Account.password user)) then
              mkAuthResponse 400 NoCookie (AuthMessage "Invalid credentials")
            else
              mkAuthResponse 200 (SetToken (profile_of user))
                             (AuthUser "Logged in" (profile_of user))
        end
  | _, _, _ =>
      mkAuthResponse 400 NoCookie (AuthMessage "Username, email and password are required")
  end.

(** [POST /auth/logout] *)
Definition logout : AuthResponse :=
  mkAuthResponse 200 ClearToken (AuthMessage "Logged out").

(** [GET /auth/me]; [userId] is [req.user.id]. *)
Definition me (t : Accounts) (userId : Z) : AuthResponse :=
  match find (fun a => Account.id a =? userId) (accounts t) with
  | None => mkAuthResponse 404 NoCookie (AuthMessage "User not found")
  | Some user => mkAuthResponse 200 NoCookie (MeUser (profile_of user))
  end.

(** [POST /auth/promote]; [requester] is [req.user], the payload of the
    caller's token. *)
Definition promote (t : Accounts) (requester : User.t) (username : option string)
  : AuthResponse * Accounts :=
  if negb (is_admin requester) then
    (mkAuthResponse 403 NoCookie (AuthMessage "Forbidden"), t)
  else
    match username with
    | Some name =>
        if negb (truthy_string username) then
          (mkAuthResponse 400 NoCookie (AuthMessage "Username required"), t)
        else
          match find (fun a => String.eqb (Account.username a) name) (accounts t) with
          | None => (mkAuthResponse 404 NoCookie (AuthMessage "User not found"), t)
          | Some target =>
              if String.eqb (Account.role target) "admin" then
                (mkAuthResponse 200 NoCookie (AuthMessage "Already admin"), t)
              else
                (mkAuthResponse 200 NoCookie (PromotedUser "Promoted" name),
                 mkAccounts
                   (map (fun a => if String.eqb (Account.username a) name
                                  then set_role a "admin" else a) (accounts t))
                   (account_seq t))
          end
    | None => (mkAuthResponse 400 NoCookie (AuthMessage "Username required"), t)
    end.

(** The requests that write to table [users], and the tables they produce
    from an empty one. *)
Inductive AuthRequest :=
| Register (now : Date) (salt : string) (body : Credentials.t)
| Promote (requester : User.t) (username : option string).

Definition auth_handle (t : Accounts) (rq : AuthRequest) : AuthResponse * Accounts :=
  match rq with
  | Register now salt body => register now salt t body
  | Promote requester username => promote t requester username
  end.

Inductive registered : Accounts -> Prop :=
| registered_init : registered (mkAccounts [] 1)
| registered_step (t : Accounts) (rq : AuthRequest) :
    registered t -> registered (snd (auth_handle t rq)).

(** *** The requests that write to table [bookings] *)

Inductive Request :=
| PostBooking (now : Date) (currentUser : User.t) (body : Body.t)
| DeleteBooking (now later : Date) (user : User.t) (bookingId : Z).

Definition handle (st : Store) (rq : Request) : Response * Store :=
  match rq with
  | PostBooking now currentUser body => post_bookings now st currentUser body
  | DeleteBooking now later user bookingId => delete_booking now later st user bookingId
  end.

(** The stores the routes can produce from an empty table [bookings]. *)
Inductive reachable : Store -> Prop :=
| reachable_init (us : list User.t) (rs : list Room.t) :
    reachable (mkStore us rs [] 1)
| reachable_step (st : Store) (rq : Request) :
    reachable st -> reachable (snd (handle st rq)).

(** *** Every modelled request that writes to the store *)

(** [OtherTables] stands for the requests that write to tables [users] and
    [rooms] only (registration, promotion, creation of a room): whatever
    they leave in these two tables, they leave [bookings] alone. *)
Inductive Operation :=
| OnBookings (rq : Request)
| PutRoom (user : User.t) (room : Z) (body : RoomBody.t)
| DeleteRoom (user : User.t) (room : Z)
| OtherTables (us : list User.t) (rs : list Room.t).

Definition perform (st : Store) (op : Operation) : Store :=
  match op with
  | OnBookings rq => snd (handle st rq)
  | PutRoom user room body => snd (put_room st user room body)
  | DeleteRoom user room => snd (delete_room st user room)
  | OtherTables us rs => mkStore us rs (bookings st) (booking_seq st)
  end.

(** The stores these requests produce from an empty table [bookings] when
    the server handles them one at a time, each request's transaction
    complete before the next one starts.  Requests that overlap in time are
    not runs of this relation; [createBookingSafe_interleaved] below is
    one. *)
Inductive produced : Store -> Prop :=
| produced_init (us : list User.t) (rs : list Room.t) :
    produced (mkStore us rs [] 1)
| produced_step (st : Store) (op : Operation) :
    produced st -> produced (perform st op).

(** ** Two creations at once

    [prisma.$transaction] runs the callback of [createBookingSafe] in a
    transaction of the database's default level, read committed.  [FOR
    UPDATE] locks the rows the query selects; when it selects none it locks
    nothing, and the query of a second call can run before the first call
    inserts. *)

(** The callback of [createBookingSafe] from the point where its query has
    answered [selected]. *)
Definition createBookingSafe_after_query (now : Date) (st : Store) (data : NewBooking.t)
           (selected : list Booking) : result Booking * Store :=
  if (0 <? List.length selected)%nat then
    (Throw "Room is already booked for this time period", st)
  else booking_create now st data.

(** Two calls of [createBookingSafe] whose queries both run on [st], before
    either insert; the inserts then run one after the other, the second on
    the table the first has left. *)
Definition createBookingSafe_interleaved (now1 now2 : Date) (st : Store)
           (data1 data2 : NewBooking.t) : result Booking * result Booking * Store :=
  let selected1 := overlappingBookings st data1 in
  let selected2 := overlappingBookings st data2 in
  let (r1, st1) := createBookingSafe_after_query now1 st data1 selected1 in
  let (r2, st2) := createBookingSafe_after_query now2 st1 data2 selected2 in
  (r1, r2, st2).

(** ** Vocabulary of the statements *)

(** [b] is an active booking of the store, on the room of [data], that the
    creation query selects. *)
Definition active_conflict (st : Store) (data : NewBooking.t) (b : Booking) : Prop :=
  In b (bookings st)
  /\ roomId b = NewBooking.roomId data
  /\ deletedAt b = None
  /\ overlap_sql b (NewBooking.startTime data) (NewBooking.endTime data) = true.

(** [b] has the owner, room, start and end of [data]. *)
Definition duplicate_of (data : NewBooking.t) (b : Booking) : Prop :=
  userId b = NewBooking.userId data
  /\ roomId b = NewBooking.roomId data
  /\ startTime b = NewBooking.startTime data
  /\ endTime b = NewBooking.endTime data.

(** The booking [createBookingSafe] builds from [data]. *)
Definition created_from (data : NewBooking.t) (b : Booking) : Prop :=
  userId b = NewBooking.userId data
  /\ roomId b = NewBooking.roomId data
  /\ startTime b = NewBooking.startTime data
  /\ endTime b = NewBooking.endTime data
  /\ description b = NewBooking.description data
  /\ deletedAt b = None.

(** [r'] is the row [r] cancelled at [d]: every column as in [r], except
    [deletedAt], which is [d]. *)
Definition cancelled_copy (r r' : Booking) (d : Date) : Prop :=
  id r' = id r
  /\ userId r' = userId r
  /\ roomId r' = roomId r
  /\ startTime r' = startTime r
  /\ endTime r' = endTime r
  /\ description r' = description r
  /\ createdAt r' = createdAt r
  /\ deletedAt r' = Some d.

(** The order of a listing: ascending [startTime]. *)
Definition start_le (a b : Booking) : Prop := startTime a <= startTime b.

(** Two bookings that are both active and on one room are clear of each
    other when the creation query, run for the second, does not select the
    first. *)
Definition clear_of (b c : Booking) : Prop :=
  roomId b = roomId c ->
  deletedAt b = None ->
  deletedAt c = None ->
  overlap_sql b (startTime c) (endTime c) = false.

(** Every row is clear of the rows stored after it. *)
Definition conflict_free (rows : list Booking) : Prop :=
  ForallOrdPairs clear_of rows.

Definition id_lt (b c : Booking) : Prop := id b < id c.

(** How a row may differ after a request: not at all, or by its
    [deletedAt], set from null. *)
Definition row_evolves (b b' : Booking) : Prop :=
  b' = b \/ (deletedAt b = None /\ exists d, b' = set_deletedAt b (Some d)).

(** What holds of table [bookings] and its sequence in every store the
    requests produce. *)
Definition table_inv (st : Store) : Prop :=
  0 < booking_seq st
  /\ Forall (fun b => 0 < id b < booking_seq st) (bookings st)
  /\ StronglySorted id_lt (bookings st)
  /\ conflict_free (bookings st).

(** How an account may differ after a request: not at all, or by its role,
    now ["admin"]. *)
Definition account_evolves (a a' : Account.t) : Prop :=
  a' = a \/ a' = set_role a "admin".

Definition account_id_lt (a b : Account.t) : Prop := Account.id a < Account.id b.

(** What holds of table [users] in every table the auth routes produce. *)
Definition accounts_inv (t : Accounts) : Prop :=
  0 < account_seq t
  /\ Forall (fun a => 0 < Account.id a < account_seq t) (accounts t)
  /\ StronglySorted account_id_lt (accounts t)
  /\ NoDup (map Account.email (accounts t))
  /\ NoDup (map Account.username (accounts t))
  /\ Forall (fun a => Account.role a = "admin" \/ Account.role a = "user") (accounts t)
  /\ match accounts t with
     | [] => True
     | first :: _ => Account.role first = "admin"
     end.

(** Only table [bookings] is compared. *)
Definition same_tables_but_bookings (st st' : Store) : Prop :=
  users st' = users st /\ rooms st' = rooms st.

(** ** Properties *)

(** *** The overlap clauses *)

Lemma overlap_where_sql (b : Booking) (s e : Date) :
  overlap_where b s e = overlap_sql b s e.
Proof. reflexivity. Qed.

Lemma overlap_sql_spec (b : Booking) (s e : Date) :
  overlap_sql b s e = true <->
  (startTime b <= s /\ s < endTime b)
  \/ (startTime b < e /\ e <= endTime b)
  \/ (s <= startTime b /\ endTime b <= e).
Proof.
  unfold overlap_sql.
  rewrite !orb_true_iff, !andb_true_iff.
  rewrite !Z.leb_le, !Z.ltb_lt, !Z.gtb_lt, !Z.geb_le.
  tauto.
Qed.

(** C1: on intervals with [start < end], the three clauses of the creation
    query and of the availability query hold exactly when the half-open
    intervals meet ([a.start < b.end] and [b.start < a.end]); back-to-back
    intervals do not conflict, identical and nested intervals do. *)
Theorem overlap_clauses_half_open (b : Booking) (s e : Date) :
  startTime b < endTime b ->
  s < e ->
  (overlap_sql b s e = true <-> half_open_conflict b s e)
  /\ (overlap_where b s e = true <-> half_open_conflict b s e)
  /\ (endTime b = s \/ e = startTime b ->
      overlap_sql b s e = false /\ overlap_where b s e = false)
  /\ (startTime b = s /\ endTime b = e ->
      overlap_sql b s e = true /\ overlap_where b s e = true)
  /\ ((s <= startTime b /\ endTime b <= e) \/ (startTime b <= s /\ e <= endTime b) ->
      overlap_sql b s e = true /\ overlap_where b s e = true).
Proof.
  intros Hb Hse.
  assert (Hiff : overlap_sql b s e = true <-> half_open_conflict b s e).
  { rewrite overlap_sql_spec. unfold half_open_conflict. lia. }
  change (overlap_where b s e) with (overlap_sql b s e).
  split; [exact Hiff|]. split; [exact Hiff|].
  split; [|split].
  - intros Htouch.
    assert (Hno : overlap_sql b s e = false).
    { apply not_true_is_false. intros Hov.
      apply Hiff in Hov. unfold half_open_conflict in Hov. lia. }
    now rewrite Hno.
  - intros [Hs He].
    assert (Hyes : overlap_sql b s e = true).
    { apply Hiff. unfold half_open_conflict. lia. }
    now rewrite Hyes.
  - intros Hnest.
    assert (Hyes : overlap_sql b s e = true).
    { apply Hiff. unfold half_open_conflict. lia. }
    now rewrite Hyes.
Qed.

(** *** Creation *)

Lemma overlappingBookings_In (st : Store) (data : NewBooking.t) (b : Booking) :
  In b (overlappingBookings st data) <-> active_conflict st data b.
Proof.
  unfold overlappingBookings, active_conflict.
  rewrite filter_In, !andb_true_iff, Z.eqb_eq.
  destruct (deletedAt b); simpl; intuition congruence.
Qed.

Lemma overlappingBookings_nil (st : Store) (data : NewBooking.t) :
  overlappingBookings st data = [] <-> forall b, ~ active_conflict st data b.
Proof.
  split.
  - intros Hnil b Hb. apply overlappingBookings_In in Hb.
    rewrite Hnil in Hb. exact Hb.
  - intros Hnone. destruct (overlappingBookings st data) as [|b l] eqn:Hq.
    + reflexivity.
    + exfalso. apply (Hnone b). apply overlappingBookings_In.
      rewrite Hq. now left.
Qed.

Lemma unique_booking_violated_spec (rows : list Booking) (data : NewBooking.t) :
  unique_booking_violated rows data = true <->
  exists b, In b rows /\ duplicate_of data b.
Proof.
  unfold unique_booking_violated, duplicate_of.
  rewrite existsb_exists.
  split; intros [b [Hin Hb]]; exists b; split; trivial.
  - rewrite !andb_true_iff, !Z.eqb_eq in Hb. tauto.
  - rewrite !andb_true_iff, !Z.eqb_eq. tauto.
Qed.

Lemma createBookingSafe_conflict (now : Date) (st : Store) (data : NewBooking.t) :
  (exists b, active_conflict st data b) ->
  createBookingSafe now st data
  = (Throw "Room is already booked for this time period", st).
Proof.
  intros [b Hb]. apply overlappingBookings_In in Hb.
  unfold createBookingSafe.
  destruct (overlappingBookings st data); [destruct Hb | reflexivity].
Qed.

Lemma createBookingSafe_free (now : Date) (st : Store) (data : NewBooking.t) :
  (forall b, ~ active_conflict st data b) ->
  createBookingSafe now st data = booking_create now st data.
Proof.
  intros Hfree. apply overlappingBookings_nil in Hfree.
  unfold createBookingSafe. now rewrite Hfree.
Qed.

Lemma booking_create_Throw (now : Date) (st st' : Store) (data : NewBooking.t)
      (m : string) :
  booking_create now st data = (Throw m, st') ->
  bookings st' = bookings st /\ same_tables_but_bookings st st'.
Proof.
  unfold booking_create, same_tables_but_bookings.
  destruct (unique_booking_violated (bookings st) data);
    [|destruct (foreign_keys_hold st data)]; simpl;
    intros Heq; inversion Heq; subst; simpl; auto.
Qed.

Lemma booking_create_Ok (now : Date) (st st' : Store) (data : NewBooking.t)
      (b : Booking) :
  booking_create now st data = (Ok b, st') ->
  bookings st' = bookings st ++ [b]
  /\ same_tables_but_bookings st st'
  /\ created_from data b
  /\ id b = booking_seq st
  /\ booking_seq st' = booking_seq st + 1.
Proof.
  unfold booking_create, same_tables_but_bookings, created_from.
  destruct (unique_booking_violated (bookings st) data);
    [|destruct (foreign_keys_hold st data)]; simpl;
    intros Heq; inversion Heq; subst; simpl; repeat split; reflexivity.
Qed.

Lemma createBookingSafe_duplicate (now : Date) (st : Store) (data : NewBooking.t) :
  (forall b, ~ active_conflict st data b) ->
  (exists b, In b (bookings st) /\ duplicate_of data b) ->
  exists st',
    createBookingSafe now st data = (Throw (prisma_message P2002), st')
    /\ bookings st' = bookings st
    /\ same_tables_but_bookings st st'.
Proof.
  intros Hfree Hdup. rewrite (createBookingSafe_free now st data Hfree).
  apply unique_booking_violated_spec in Hdup.
  unfold booking_create. rewrite Hdup.
  eexists. split; [reflexivity|]. simpl. repeat split.
Qed.

(** A stored duplicate that the creation query does not select is a
    cancelled booking: an active one meets the third clause. *)
Lemma duplicate_is_cancelled (st : Store) (data : NewBooking.t) (b : Booking) :
  (forall c, ~ active_conflict st data c) ->
  In b (bookings st) ->
  duplicate_of data b ->
  deletedAt b <> None.
Proof.
  intros Hfree Hin (_ & Hroom & Hs & He) Hact.
  apply (Hfree b). unfold active_conflict. repeat split; trivial.
  apply overlap_sql_spec. right; right. lia.
Qed.

Lemma createBookingSafe_inserts (now : Date) (st : Store) (data : NewBooking.t) :
  (forall b, ~ active_conflict st data b) ->
  (forall b, In b (bookings st) -> ~ duplicate_of data b) ->
  foreign_keys_hold st data = true ->
  exists b st',
    createBookingSafe now st data = (Ok b, st')
    /\ bookings st' = bookings st ++ [b]
    /\ same_tables_but_bookings st st'
    /\ created_from data b.
Proof.
  intros Hfree Hnodup Hfk. rewrite (createBookingSafe_free now st data Hfree).
  assert (Hu : unique_booking_violated (bookings st) data = false).
  { apply not_true_is_false. intros Hu.
    apply unique_booking_violated_spec in Hu.
    destruct Hu as [b [Hin Hb]]. exact (Hnodup b Hin Hb). }
  unfold booking_create. rewrite Hu, Hfk. simpl.
  eexists. eexists. split; [reflexivity|].
  simpl. unfold created_from. simpl. repeat split.
Qed.

Lemma post_bookings_missing (now : Date) (st : Store) (currentUser : User.t)
      (body : Body.t) :
  truthy (Body.room_id body) = false
  \/ Body.start_time body = None
  \/ Body.end_time body = None ->
  post_bookings now st currentUser body
  = (mkResponse 400 (Message "room_id, start_time, and end_time are required"), st).
Proof.
  unfold post_bookings.
  destruct (Body.room_id body) as [room|], (Body.start_time body) as [s|],
           (Body.end_time body) as [e|]; try reflexivity.
  intros [Hroom | [Habs | Habs]]; try discriminate.
  now rewrite Hroom.
Qed.

Lemma post_bookings_own (now : Date) (st : Store) (currentUser : User.t)
      (room : Z) (s e : Date) (note : option string) :
  room <> 0 ->
  post_bookings now st currentUser (Body.mk (Some room) None (Some s) (Some e) note)
  = (post_bookings_reply
       (fst (createBookingSafe now st (NewBooking.mk (User.id currentUser) room s e note))),
     snd (createBookingSafe now st (NewBooking.mk (User.id currentUser) room s e note))).
Proof.
  intros Hroom. unfold post_bookings, bookingUserId, truthy. simpl.
  apply Z.eqb_neq in Hroom. rewrite Hroom. simpl.
  now destruct (createBookingSafe _ _ _).
Qed.

(** C2, as the code has it: an active conflicting booking on the room makes
    [createBookingSafe] throw the error the route answers with 409, and the
    store stays as it was; with no such booking, exactly one active booking
    with the given owner, room and interval is appended and nothing else
    changes, unless a booking with the same owner, room, start and end
    is already stored (a cancelled one), in which case the unique index
    refuses the row and no booking is added.  No failure adds a row. *)
Theorem createBookingSafe_outcomes (now : Date) (st : Store) (data : NewBooking.t) :
  ((exists b, active_conflict st data b) ->
   createBookingSafe now st data
   = (Throw "Room is already booked for this time period", st)
   /\ (forall currentUser,
          User.id currentUser = NewBooking.userId data ->
          NewBooking.roomId data <> 0 ->
          post_bookings now st currentUser
                        (Body.mk (Some (NewBooking.roomId data)) None
                                 (Some (NewBooking.startTime data))
                                 (Some (NewBooking.endTime data))
                                 (NewBooking.description data))
          = (mkResponse 409 (Message "Room is already booked for this time period"), st)))
  /\ ((forall b, ~ active_conflict st data b) ->
      ((exists b, In b (bookings st) /\ duplicate_of data b) ->
       exists st',
         createBookingSafe now st data = (Throw (prisma_message P2002), st')
         /\ bookings st' = bookings st
         /\ same_tables_but_bookings st st')
      /\ ((forall b, In b (bookings st) -> ~ duplicate_of data b) ->
          foreign_keys_hold st data = true ->
          exists b st',
            createBookingSafe now st data = (Ok b, st')
            /\ bookings st' = bookings st ++ [b]
            /\ same_tables_but_bookings st st'
            /\ created_from data b))
  /\ (forall m st',
         createBookingSafe now st data = (Throw m, st') ->
         bookings st' = bookings st /\ same_tables_but_bookings st st').
Proof.
  split; [|split].
  - intros Hconf. split; [now apply createBookingSafe_conflict|].
    intros currentUser Hid Hroom.
    rewrite (post_bookings_own now st currentUser _ _ _ _ Hroom).
    rewrite Hid. destruct data as [u room s e note]. simpl.
    now rewrite (createBookingSafe_conflict now st _ Hconf).
  - intros Hfree. split.
    + now apply createBookingSafe_duplicate.
    + now apply createBookingSafe_inserts.
  - intros m st' Hrun. unfold createBookingSafe in Hrun.
    destruct (0 <? List.length (overlappingBookings st data))%nat.
    + inversion Hrun; subst. repeat split.
    + now apply booking_create_Throw in Hrun.
Qed.

(** *** The invariant of the store *)

Lemma empty_store_wf : wf_store empty_store.
Proof.
  unfold wf_store, empty_store. simpl.
  split; [constructor | split; [lia | constructor]].
Qed.

Lemma booking_create_wf (now : Date) (st st' : Store) (data : NewBooking.t)
      (r : result Booking) :
  wf_store st -> booking_create now st data = (r, st') -> wf_store st'.
Proof.
  intros (Hnd & Hpos & Hlt). unfold booking_create.
  assert (Hweak : Forall (fun b => id b < booking_seq st + 1) (bookings st)).
  { eapply Forall_impl; [|exact Hlt]. simpl. intros; lia. }
  destruct (unique_booking_violated (bookings st) data);
    [|destruct (foreign_keys_hold st data)]; simpl;
    intros Heq; inversion Heq; subst; clear Heq; unfold wf_store; simpl.
  - repeat split; trivial; lia.
  - repeat split; trivial; try lia.
    + rewrite map_app. simpl.
      apply NoDup_app_remove_l with (l := []).
      simpl. apply Permutation_NoDup with (l := booking_seq st :: map id (bookings st)).
      * apply Permutation_cons_append.
      * constructor; trivial.
        intros Hin. apply in_map_iff in Hin. destruct Hin as [b [Hid Hb]].
        rewrite Forall_forall in Hlt. specialize (Hlt b Hb). lia.
    + apply Forall_app. split; trivial.
      constructor; [simpl; lia | constructor].
  - repeat split; trivial; lia.
Qed.

Lemma createBookingSafe_wf (now : Date) (st st' : Store) (data : NewBooking.t)
      (r : result Booking) :
  wf_store st -> createBookingSafe now st data = (r, st') -> wf_store st'.
Proof.
  intros Hwf. unfold createBookingSafe.
  destruct (0 <? List.length (overlappingBookings st data))%nat.
  - intros Heq. inversion Heq; subst. exact Hwf.
  - now apply booking_create_wf.
Qed.

Lemma mark_deleted_id (bookingId : Z) (d : Date) (c : Booking) :
  id (mark_deleted bookingId d c) = id c.
Proof. unfold mark_deleted. now destruct (id c =? bookingId). Qed.

Lemma map_id_mark_deleted (bookingId : Z) (d : Date) (rows : list Booking) :
  map id (map (mark_deleted bookingId d) rows) = map id rows.
Proof.
  rewrite map_map. apply map_ext. intros c. apply mark_deleted_id.
Qed.

Lemma softDeleteBooking_in_range (now : Date) (st : Store) (bookingId user : Z) :
  int4 bookingId = true ->
  int4 user = true ->
  softDeleteBooking now st bookingId user
  = match (if user =? 0 then
             find (fun b => (id b =? bookingId) && is_null (deletedAt b)) (bookings st)
           else
             find (fun b => (id b =? bookingId) && (userId b =? user)
                            && is_null (deletedAt b)) (bookings st)) with
    | None => (Throw "Booking not found or already cancelled", st)
    | Some _ => booking_update st bookingId now
    end.
Proof.
  intros Hk Hu. unfold softDeleteBooking. now rewrite Hk, Hu.
Qed.

Lemma softDeleteBooking_out_of_range (now : Date) (st : Store) (bookingId user : Z) :
  int4 bookingId && int4 user = false ->
  softDeleteBooking now st bookingId user = (Throw (prisma_message ValueOutOfRange), st).
Proof.
  intros Hrange. unfold softDeleteBooking. now rewrite Hrange.
Qed.

Ltac soft_range k u :=
  let Hrange := fresh "Hrange" in
  let Hk := fresh "Hk" in
  let Hu := fresh "Hu" in
  destruct (int4 k && int4 u) eqn:Hrange;
  [ apply andb_true_iff in Hrange; destruct Hrange as [Hk Hu];
    rewrite (softDeleteBooking_in_range _ _ k u Hk Hu)
  | rewrite (softDeleteBooking_out_of_range _ _ k u Hrange) ].

Lemma softDeleteBooking_wf (now : Date) (st st' : Store) (bookingId user : Z)
      (r : result Booking) :
  wf_store st -> softDeleteBooking now st bookingId user = (r, st') -> wf_store st'.
Proof.
  intros Hwf. soft_range bookingId user;
    [|intros Heq; inversion Heq; now subst].
  destruct Hwf as (Hnd & Hpos & Hlt). unfold booking_update.
  set (found := if user =? 0 then _ else _). clearbody found.
  destruct found as [b|]; [destruct (find _ (bookings st)) as [b'|]|];
    intros Heq; inversion Heq; subst; clear Heq; unfold wf_store; simpl;
    repeat split; trivial.
  - now rewrite map_id_mark_deleted.
  - rewrite Forall_forall in *. intros c Hc.
    apply in_map_iff in Hc. destruct Hc as [c' [Hc' Hin]].
    subst c. rewrite mark_deleted_id. now apply Hlt.
Qed.

Lemma post_bookings_wf (now : Date) (st : Store) (currentUser : User.t)
      (body : Body.t) :
  wf_store st -> wf_store (snd (post_bookings now st currentUser body)).
Proof.
  intros Hwf. unfold post_bookings.
  destruct (Body.room_id body) as [room|]; [|exact Hwf].
  destruct (Body.start_time body) as [s|]; [|exact Hwf].
  destruct (Body.end_time body) as [e|]; [|exact Hwf].
  destruct (negb (truthy (Some room))); [exact Hwf|].
  destruct (truthy (Body.user_id body) && _ && negb (is_admin currentUser));
    [exact Hwf|].
  destruct (createBookingSafe now st _) as [r st'] eqn:Hrun.
  exact (createBookingSafe_wf now st st' _ r Hwf Hrun).
Qed.

Lemma delete_booking_wf (now later : Date) (st : Store) (user : User.t)
      (bookingId : Z) :
  wf_store st -> wf_store (snd (delete_booking now later st user bookingId)).
Proof.
  intros Hwf. unfold delete_booking.
  destruct (softDeleteBooking later st bookingId (cancel_actor user))
    as [r st'] eqn:Hsoft.
  apply (softDeleteBooking_wf later st st' bookingId _ r Hwf) in Hsoft.
  assert (Hcancel : wf_store
                      (snd (match r with
                            | Ok cancelledBooking =>
                                (mkResponse 200
                                   (CancelledJson "Booking cancelled successfully"
                                                  cancelledBooking), st')
                            | Throw m =>
                                if includes m "not found" then
                                  (mkResponse 404
                                     (Message "Booking not found or already cancelled"), st')
                                else
                                  (mkResponse 500 (Message "Error cancelling booking"), st')
                            end))).
  { destruct r as [b|m]; [exact Hsoft|]. now destruct (includes m "not found"). }
  destruct (negb (is_admin user)); [|exact Hcancel].
  destruct (negb (int4 bookingId));
    [now destruct (includes (prisma_message ValueOutOfRange) "not found")|].
  destruct (getBookingById st bookingId) as [booking|]; [|exact Hwf].
  destruct (negb (userId booking =? User.id user)); [exact Hwf|].
  destruct (startTime booking <=? now); [exact Hwf | exact Hcancel].
Qed.

(** Every store the routes produce from an empty table satisfies the
    invariant. *)
Lemma reachable_wf (st : Store) : reachable st -> wf_store st.
Proof.
  induction 1 as [us rs | st rq Hreach IH].
  - unfold wf_store. simpl. split; [constructor | split; [lia | constructor]].
  - destruct rq as [now currentUser body | now later user bookingId]; simpl.
    + now apply post_bookings_wf.
    + now apply delete_booking_wf.
Qed.

(** *** Availability *)

Lemma filter_nil {A : Type} (f : A -> bool) (l : list A) :
  (forall x, In x l -> f x = false) -> filter f l = [].
Proof.
  induction l as [|x l IH]; simpl; intros Hall; [reflexivity|].
  rewrite (Hall x (or_introl eq_refl)). apply IH.
  intros y Hy. apply Hall. now right.
Qed.

Lemma availability_where_conflict (st : Store) (data : NewBooking.t)
      (x : option Z) (b : Booking) :
  In b (bookings st) ->
  availability_where (NewBooking.roomId data)
                     (NewBooking.startTime data) (NewBooking.endTime data) x b = true ->
  active_conflict st data b.
Proof.
  unfold availability_where, active_conflict.
  rewrite !andb_true_iff, Z.eqb_eq. intros Hin [[[Hroom Hnull] Hov] _].
  repeat split; trivial.
  now destruct (deletedAt b).
Qed.

(** C7: when [createBookingSafe] returns a booking [X], the new store is not
    available for the same room and interval, and is available for them once
    [X.id] is excluded. *)
Theorem create_then_checkRoomAvailability
        (now : Date) (st st' : Store) (data : NewBooking.t) (X : Booking) :
  wf_store st ->
  createBookingSafe now st data = (Ok X, st') ->
  checkRoomAvailability st' (NewBooking.roomId data)
                        (NewBooking.startTime data) (NewBooking.endTime data) None
  = false
  /\ checkRoomAvailability st' (NewBooking.roomId data)
                           (NewBooking.startTime data) (NewBooking.endTime data)
                           (Some (id X))
     = true.
Proof.
  intros (_ & Hpos & _) Hrun.
  assert (Hfree : forall b, ~ active_conflict st data b).
  { apply overlappingBookings_nil. unfold createBookingSafe in Hrun.
    destruct (overlappingBookings st data); [reflexivity | discriminate]. }
  rewrite (createBookingSafe_free now st data Hfree) in Hrun.
  apply booking_create_Ok in Hrun.
  destruct Hrun as (Hrows & _ & (_ & Hroom & Hs & He & _ & Hdel) & Hid & _).
  assert (Hself : overlap_where X (NewBooking.startTime data) (NewBooking.endTime data)
                  = true).
  { rewrite overlap_where_sql. apply overlap_sql_spec. right; right. lia. }
  unfold checkRoomAvailability. rewrite Hrows, !filter_app. simpl.
  split.
  - unfold availability_where at 2.
    rewrite Hroom, Z.eqb_refl, Hdel, Hself. simpl.
    rewrite length_app. simpl. apply Nat.eqb_neq. lia.
  - rewrite filter_nil.
    + unfold availability_where, truthy.
      rewrite Z.eqb_refl, Hid.
      replace (booking_seq st =? 0) with false by (symmetry; apply Z.eqb_neq; lia).
      simpl. now rewrite !andb_false_r.
    + intros b Hb.
      apply not_true_is_false. intros Hw.
      exact (Hfree b (availability_where_conflict st data _ b Hb Hw)).
Qed.

(** C10: an [excludeBookingId] of 0 excludes nothing: the answer is the one
    without exclusion, so an active conflicting booking whose id is 0 still
    makes the room unavailable. *)
Theorem checkRoomAvailability_exclude_zero (st : Store) (room : Z) (s e : Date) :
  checkRoomAvailability st room s e (Some 0) = checkRoomAvailability st room s e None
  /\ (forall b,
         In b (bookings st) ->
         id b = 0 -> roomId b = room -> deletedAt b = None ->
         overlap_where b s e = true ->
         checkRoomAvailability st room s e (Some 0) = false).
Proof.
  assert (Hsame : forall b, availability_where room s e (Some 0) b
                            = availability_where room s e None b) by reflexivity.
  split.
  - unfold checkRoomAvailability.
    now rewrite (filter_ext _ _ Hsame).
  - intros b Hin _ Hroom Hdel Hov.
    unfold checkRoomAvailability.
    assert (Hb : In b (filter (availability_where room s e (Some 0)) (bookings st))).
    { apply filter_In. split; [exact Hin|].
      unfold availability_where. rewrite Hroom, Z.eqb_refl, Hdel, Hov. reflexivity. }
    destruct (filter _ (bookings st)); [destruct Hb | reflexivity].
Qed.

(** *** Cancellation *)

Lemma find_all_false {A : Type} (f : A -> bool) (l : list A) :
  (forall x, In x l -> f x = false) -> find f l = None.
Proof.
  induction l as [|x l IH]; simpl; intros Hall; [reflexivity|].
  rewrite (Hall x (or_introl eq_refl)). apply IH.
  intros y Hy. apply Hall. now right.
Qed.

(** With [id] a key, a search that fixes the id can only find the row that
    carries it. *)
Lemma find_keyed (rows : list Booking) (r : Booking) (f : Booking -> bool) :
  NoDup (map id rows) ->
  In r rows ->
  (forall b, f b = true -> id b = id r) ->
  find f rows = if f r then Some r else None.
Proof.
  intros Hnd Hin Hkey.
  induction rows as [|c rows IH]; [destruct Hin|].
  simpl in Hnd. apply NoDup_cons_iff in Hnd. destruct Hnd as [Hfresh Hnd].
  simpl. destruct Hin as [Heq | Hin].
  - subst c. destruct (f r) eqn:Hfr; [reflexivity|].
    apply find_all_false. intros b Hb.
    apply not_true_is_false. intros Hfb.
    apply Hfresh. rewrite <- (Hkey b Hfb). now apply in_map.
  - destruct (f c) eqn:Hfc.
    + exfalso. apply Hfresh. rewrite (Hkey c Hfc). now apply in_map.
    + now apply IH.
Qed.

Lemma keyed_unique (rows : list Booking) (b c : Booking) :
  NoDup (map id rows) -> In b rows -> In c rows -> id b = id c -> b = c.
Proof.
  induction rows as [|a rows IH]; simpl; intros Hnd Hb Hc Hid; [destruct Hb|].
  apply NoDup_cons_iff in Hnd. destruct Hnd as [Hfresh Hnd].
  destruct Hb as [Hb | Hb], Hc as [Hc | Hc]; subst.
  - reflexivity.
  - exfalso. apply Hfresh. rewrite Hid. now apply in_map.
  - exfalso. apply Hfresh. rewrite <- Hid. now apply in_map.
  - now apply IH.
Qed.

Lemma softDeleteBooking_found (now : Date) (st : Store) (r : Booking) (u : Z) :
  wf_store st ->
  In r (bookings st) ->
  deletedAt r = None ->
  int4 (id r) = true ->
  int4 u = true ->
  softDeleteBooking now st (id r) u
  = if (u =? 0) || (userId r =? u) then
      (Ok (set_deletedAt r (Some now)),
       set_bookings st (map (mark_deleted (id r) now) (bookings st)))
    else (Throw "Booking not found or already cancelled", st).
Proof.
  intros (Hnd & _) Hin Hact Hidr Hur.
  assert (Hupd : booking_update st (id r) now
                 = (Ok (set_deletedAt r (Some now)),
                    set_bookings st (map (mark_deleted (id r) now) (bookings st)))).
  { unfold booking_update.
    rewrite (find_keyed (bookings st) r _ Hnd Hin).
    - now rewrite Z.eqb_refl.
    - intros b Hb. now apply Z.eqb_eq. }
  rewrite (softDeleteBooking_in_range now st (id r) u Hidr Hur).
  destruct (u =? 0) eqn:Hu; simpl.
  - rewrite (find_keyed (bookings st) r _ Hnd Hin).
    + rewrite Z.eqb_refl, Hact. exact Hupd.
    + intros b Hb. apply andb_true_iff in Hb. now apply Z.eqb_eq.
  - rewrite (find_keyed (bookings st) r _ Hnd Hin).
    + rewrite Z.eqb_refl, Hact. simpl.
      destruct (userId r =? u); simpl; [exact Hupd | reflexivity].
    + intros b Hb. rewrite !andb_true_iff in Hb. now apply Z.eqb_eq.
Qed.

Lemma softDeleteBooking_not_found (now : Date) (st : Store) (bookingId u : Z) :
  int4 bookingId = true ->
  int4 u = true ->
  (forall b, In b (bookings st) -> id b = bookingId -> deletedAt b <> None) ->
  softDeleteBooking now st bookingId u
  = (Throw "Booking not found or already cancelled", st).
Proof.
  intros Hk Hu Hgone.
  assert (Hoff : forall b, In b (bookings st) ->
                           (id b =? bookingId) && is_null (deletedAt b) = false).
  { intros b Hb. destruct (id b =? bookingId) eqn:Hid; [|reflexivity].
    apply Z.eqb_eq in Hid. specialize (Hgone b Hb Hid).
    now destruct (deletedAt b). }
  rewrite (softDeleteBooking_in_range now st bookingId u Hk Hu). destruct (u =? 0).
  - now rewrite (find_all_false _ _ Hoff).
  - rewrite find_all_false; [reflexivity|].
    intros b Hb. specialize (Hoff b Hb).
    destruct (id b =? bookingId); [|reflexivity].
    simpl in *. rewrite Hoff. apply andb_false_r.
Qed.

Lemma getBookingById_not_found (st : Store) (bookingId : Z) :
  (forall b, In b (bookings st) -> id b = bookingId -> deletedAt b <> None) ->
  getBookingById st bookingId = None.
Proof.
  intros Hgone. unfold getBookingById. apply find_all_false.
  intros b Hb. destruct (id b =? bookingId) eqn:Hid; [|reflexivity].
  apply Z.eqb_eq in Hid. specialize (Hgone b Hb Hid).
  now destruct (deletedAt b).
Qed.

Lemma delete_booking_not_found (now later : Date) (st : Store) (caller : User.t)
      (bookingId : Z) :
  int4 bookingId = true ->
  (forall b, In b (bookings st) -> id b = bookingId -> deletedAt b <> None) ->
  status (fst (delete_booking now later st caller bookingId)) = 404
  /\ snd (delete_booking now later st caller bookingId) = st.
Proof.
  intros Hk Hgone. unfold delete_booking, cancel_actor.
  rewrite Hk. simpl.
  rewrite (getBookingById_not_found st bookingId Hgone).
  destruct (is_admin caller); simpl; [|split; reflexivity].
  rewrite (softDeleteBooking_not_found later st bookingId 0 Hk eq_refl Hgone).
  split; reflexivity.
Qed.

(** The route raises before any row is read when the id does not fit the
    column. *)
Lemma delete_booking_out_of_range (now later : Date) (st : Store) (caller : User.t)
      (bookingId : Z) :
  int4 bookingId = false ->
  delete_booking now later st caller bookingId
  = (if includes (prisma_message ValueOutOfRange) "not found" then
       mkResponse 404 (Message "Booking not found or already cancelled")
     else mkResponse 500 (Message "Error cancelling booking"),
     st).
Proof.
  intros Hk. unfold delete_booking.
  rewrite softDeleteBooking_out_of_range by (now rewrite Hk).
  rewrite Hk. simpl.
  destruct (is_admin caller); simpl;
    now destruct (includes (prisma_message ValueOutOfRange) "not found").
Qed.

Lemma mark_deleted_gone (bookingId : Z) (d : Date) (rows : list Booking) (b : Booking) :
  In b (map (mark_deleted bookingId d) rows) ->
  id b = bookingId ->
  deletedAt b <> None.
Proof.
  intros Hin Hid. apply in_map_iff in Hin. destruct Hin as [c [Hc _]].
  subst b. rewrite mark_deleted_id in Hid.
  unfold mark_deleted. apply Z.eqb_eq in Hid. rewrite Hid. simpl. discriminate.
Qed.

Lemma softDeleteBooking_Ok (now : Date) (st st' : Store) (bookingId u : Z)
      (b : Booking) :
  softDeleteBooking now st bookingId u = (Ok b, st') ->
  bookings st' = map (mark_deleted bookingId now) (bookings st).
Proof.
  soft_range bookingId u; [|discriminate].
  unfold booking_update.
  set (found := if u =? 0 then _ else _). clearbody found.
  destruct found; [destruct (find _ (bookings st))|];
    intros Heq; inversion Heq; subst; reflexivity.
Qed.

Lemma delete_booking_200 (now later : Date) (st st' : Store) (caller : User.t)
      (bookingId : Z) (resp : Response) :
  delete_booking now later st caller bookingId = (resp, st') ->
  status resp = 200 ->
  bookings st' = map (mark_deleted bookingId later) (bookings st).
Proof.
  unfold delete_booking.
  destruct (softDeleteBooking later st bookingId (cancel_actor caller))
    as [[b|m] st1] eqn:Hsoft.
  - apply softDeleteBooking_Ok in Hsoft.
    destruct (negb (is_admin caller));
      [destruct (negb (int4 bookingId));
       [destruct (includes (prisma_message ValueOutOfRange) "not found")
       |destruct (getBookingById st bookingId) as [booking|];
        [destruct (negb (userId booking =? User.id caller));
         [|destruct (startTime booking <=? now)]|]]|];
      intros Heq; inversion Heq; subst; simpl; intros Hst;
      try discriminate; exact Hsoft.
  - destruct (includes m "not found");
      (destruct (negb (is_admin caller));
       [destruct (negb (int4 bookingId));
        [destruct (includes (prisma_message ValueOutOfRange) "not found")
        |destruct (getBookingById st bookingId) as [booking|];
         [destruct (negb (userId booking =? User.id caller));
          [|destruct (startTime booking <=? now)]|]]|]);
      intros Heq; inversion Heq; subst; simpl; intros Hst; discriminate.
Qed.

Lemma delete_booking_200_in_range (now later : Date) (st st' : Store) (caller : User.t)
      (bookingId : Z) (resp : Response) :
  delete_booking now later st caller bookingId = (resp, st') ->
  status resp = 200 ->
  int4 bookingId = true.
Proof.
  intros Hrun Hok. destruct (int4 bookingId) eqn:Hk; [reflexivity|].
  rewrite (delete_booking_out_of_range now later st caller bookingId Hk) in Hrun.
  destruct (includes (prisma_message ValueOutOfRange) "not found");
    inversion Hrun; subst; discriminate.
Qed.

Lemma set_deletedAt_copy (r : Booking) (d : Date) :
  cancelled_copy r (set_deletedAt r (Some d)) d.
Proof. unfold cancelled_copy. simpl. repeat split. Qed.

(** What the update leaves in the table, for a row [r] that is stored under
    a key. *)
Lemma mark_deleted_rows (rows : list Booking) (r : Booking) (d : Date) :
  NoDup (map id rows) ->
  In r rows ->
  deletedAt r = None ->
  In (set_deletedAt r (Some d)) (map (mark_deleted (id r) d) rows)
  /\ (forall b, In b (map (mark_deleted (id r) d) rows) -> id b = id r ->
                b = set_deletedAt r (Some d))
  /\ (forall b, In b rows -> id b <> id r -> In b (map (mark_deleted (id r) d) rows))
  /\ ~ In r (map (mark_deleted (id r) d) rows).
Proof.
  intros Hnd Hin Hact.
  assert (Hsame : forall b, In b (map (mark_deleted (id r) d) rows) -> id b = id r ->
                            b = set_deletedAt r (Some d)).
  { intros b Hb Hid. apply in_map_iff in Hb. destruct Hb as [c [Hc Hcin]]. subst b.
    rewrite mark_deleted_id in Hid.
    rewrite (keyed_unique rows c r Hnd Hcin Hin Hid).
    unfold mark_deleted. now rewrite Z.eqb_refl. }
  split; [|split; [exact Hsame|split]].
  - apply in_map_iff. exists r. split; [|exact Hin].
    unfold mark_deleted. now rewrite Z.eqb_refl.
  - intros b Hb Hid. apply in_map_iff. exists b. split; [|exact Hb].
    unfold mark_deleted. apply Z.eqb_neq in Hid. now rewrite Hid.
  - intros Hr. specialize (Hsame r Hr eq_refl).
    rewrite Hsame in Hact. simpl in Hact. discriminate.
Qed.

(** C5: for an active booking that has started, the cancel route refuses its
    owner (not an admin) with status 400 and leaves the store as it is, the
    booking still stored and active; and it lets an admin cancel it: status
    200, and in the store the route returns the row under that id is the
    booking with its [deletedAt] set to the time of the cancellation, every
    other column and every other row as before. *)
Theorem delete_booking_started (now later : Date) (st : Store) (r : Booking)
        (owner administrator : User.t) :
  wf_store st ->
  In r (bookings st) ->
  int4 (id r) = true ->
  deletedAt r = None ->
  startTime r <= now ->
  (is_admin owner = false ->
   User.id owner = userId r ->
   delete_booking now later st owner (id r)
   = (mkResponse 400 (Message "Cannot cancel past or ongoing bookings"), st)
   /\ In r (bookings (snd (delete_booking now later st owner (id r))))
   /\ getBookingById (snd (delete_booking now later st owner (id r))) (id r) = Some r)
  /\ (is_admin administrator = true ->
      delete_booking now later st administrator (id r)
      = (mkResponse 200 (CancelledJson "Booking cancelled successfully"
                                       (set_deletedAt r (Some later))),
         set_bookings st (map (mark_deleted (id r) later) (bookings st)))
      /\ In (set_deletedAt r (Some later))
            (map (mark_deleted (id r) later) (bookings st))
      /\ status (fst (delete_booking now later st administrator (id r))) = 200
      /\ (exists r',
             payload (fst (delete_booking now later st administrator (id r)))
             = CancelledJson "Booking cancelled successfully" r'
             /\ cancelled_copy r r' later
             /\ In r' (bookings (snd (delete_booking now later st administrator (id r))))
             /\ (forall b,
                    In b (bookings (snd (delete_booking now later st administrator (id r)))) ->
                    id b = id r -> b = r'))
      /\ (forall b,
             In b (bookings (snd (delete_booking now later st administrator (id r)))) ->
             id b = id r -> deletedAt b = Some later)
      /\ ~ In r (bookings (snd (delete_booking now later st administrator (id r))))
      /\ (forall b, In b (bookings st) -> id b <> id r ->
                    In b (bookings (snd (delete_booking now later st administrator (id r)))))
      /\ getBookingById (snd (delete_booking now later st administrator (id r))) (id r)
         = None).
Proof.
  intros Hwf Hin Hidr Hact Hstarted.
  assert (Hget : getBookingById st (id r) = Some r).
  { unfold getBookingById.
    rewrite (find_keyed (bookings st) r _ (proj1 Hwf) Hin).
    - now rewrite Z.eqb_refl, Hact.
    - intros b Hb. apply andb_true_iff in Hb. now apply Z.eqb_eq. }
  split.
  - intros Hrole Hown.
    assert (Hrun : delete_booking now later st owner (id r)
                   = (mkResponse 400 (Message "Cannot cancel past or ongoing bookings"), st)).
    { unfold delete_booking. rewrite Hrole, Hidr, Hget. simpl.
      rewrite Hown, Z.eqb_refl. simpl.
      now rewrite (proj2 (Z.leb_le _ _) Hstarted). }
    rewrite Hrun. simpl. auto.
  - intros Hrole.
    assert (Hrun : delete_booking now later st administrator (id r)
                   = (mkResponse 200 (CancelledJson "Booking cancelled successfully"
                                                    (set_deletedAt r (Some later))),
                      set_bookings st (map (mark_deleted (id r) later) (bookings st)))).
    { unfold delete_booking, cancel_actor. rewrite Hrole. simpl.
      now rewrite (softDeleteBooking_found later st r 0 Hwf Hin Hact Hidr eq_refl). }
    destruct (mark_deleted_rows (bookings st) r later (proj1 Hwf) Hin Hact)
      as (Hnew & Honly & Hothers & Hgone).
    rewrite Hrun. simpl.
    split; [reflexivity|]. split; [exact Hnew|]. split; [reflexivity|].
    split; [|split; [|split; [exact Hgone | split; [exact Hothers|]]]].
    + exists (set_deletedAt r (Some later)).
      split; [reflexivity|]. split; [apply set_deletedAt_copy|]. split; trivial.
    + intros b Hb Hid. now rewrite (Honly b Hb Hid).
    + apply getBookingById_not_found. simpl.
      intros b Hb Hid. rewrite (Honly b Hb Hid). simpl. discriminate.
Qed.

(** C6, as the code has it: for an id that fits the Int column, cancelling a
    booking that is absent or already cancelled is answered with 404, by the
    service's "not found" error, and leaves the store as it is; so a
    cancellation repeated after a successful one is answered 404.  For an id
    that does not fit the column the lookup raises: the answer is not a
    success, it is 500 (the error's text does not say "not found"), and the
    store is as it was. *)
Theorem delete_booking_gone (now later : Date) (st : Store) (caller : User.t)
        (bookingId : Z) :
  (int4 bookingId = true ->
   (forall b, In b (bookings st) -> id b = bookingId -> deletedAt b <> None) ->
   (forall u, int4 u = true ->
              softDeleteBooking later st bookingId u
              = (Throw "Booking not found or already cancelled", st))
   /\ status (fst (delete_booking now later st caller bookingId)) = 404
   /\ snd (delete_booking now later st caller bookingId) = st)
  /\ (forall resp st',
         delete_booking now later st caller bookingId = (resp, st') ->
         status resp = 200 ->
         forall now' later' caller',
           status (fst (delete_booking now' later' st' caller' bookingId)) = 404
           /\ snd (delete_booking now' later' st' caller' bookingId) = st')
  /\ (int4 bookingId = false ->
      (forall u, softDeleteBooking later st bookingId u
                 = (Throw (prisma_message ValueOutOfRange), st))
      /\ snd (delete_booking now later st caller bookingId) = st
      /\ status (fst (delete_booking now later st caller bookingId)) <> 200
      /\ (includes (prisma_message ValueOutOfRange) "not found" = false ->
          fst (delete_booking now later st caller bookingId)
          = mkResponse 500 (Message "Error cancelling booking"))).
Proof.
  split; [|split].
  - intros Hk Hgone. split.
    + intros u Hu. now apply softDeleteBooking_not_found.
    + now apply delete_booking_not_found.
  - intros resp st' Hrun Hok now' later' caller'.
    apply delete_booking_not_found.
    + exact (delete_booking_200_in_range now later st st' caller bookingId resp Hrun Hok).
    + rewrite (delete_booking_200 now later st st' caller bookingId resp Hrun Hok).
      intros b. apply mark_deleted_gone.
  - intros Hk. split.
    + intros u. apply softDeleteBooking_out_of_range. now rewrite Hk.
    + rewrite (delete_booking_out_of_range now later st caller bookingId Hk). simpl.
      split; [reflexivity|].
      destruct (includes (prisma_message ValueOutOfRange) "not found"); simpl;
        (split; [discriminate|]); [discriminate | reflexivity].
Qed.



(** *** Listing *)

Lemma insert_by_startTime_perm (b : Booking) (l : list Booking) :
  Permutation (insert_by_startTime b l) (b :: l).
Proof.
  induction l as [|c l IH]; simpl.
  - apply Permutation_refl.
  - destruct (startTime b <=? startTime c).
    + apply Permutation_refl.
    + eapply perm_trans; [apply perm_skip, IH | apply perm_swap].
Qed.

Lemma order_by_startTime_perm (l : list Booking) :
  Permutation (order_by_startTime l) l.
Proof.
  induction l as [|b l IH]; simpl.
  - apply perm_nil.
  - eapply perm_trans; [apply insert_by_startTime_perm | now apply perm_skip].
Qed.

Lemma insert_by_startTime_HdRel (a b : Booking) (l : list Booking) :
  start_le a b -> HdRel start_le a l -> HdRel start_le a (insert_by_startTime b l).
Proof.
  intros Hab Hal. destruct l as [|c l]; simpl.
  - now constructor.
  - destruct (startTime b <=? startTime c); constructor; trivial.
    now inversion Hal.
Qed.

Lemma insert_by_startTime_sorted (b : Booking) (l : list Booking) :
  Sorted start_le l -> Sorted start_le (insert_by_startTime b l).
Proof.
  induction l as [|c l IH]; simpl; intros Hs.
  - repeat constructor.
  - destruct (startTime b <=? startTime c) eqn:Hle.
    + constructor; [exact Hs|]. constructor. now apply Z.leb_le.
    + apply Sorted_inv in Hs. destruct Hs as [Hs Hhd].
      constructor; [now apply IH|].
      apply insert_by_startTime_HdRel; trivial.
      apply Z.leb_gt in Hle. unfold start_le. lia.
Qed.

Lemma order_by_startTime_sorted (l : list Booking) :
  StronglySorted start_le (order_by_startTime l).
Proof.
  apply Sorted_StronglySorted.
  - intros a b c. unfold start_le. lia.
  - induction l as [|b l IH]; simpl.
    + constructor.
    + now apply insert_by_startTime_sorted.
Qed.

(** A user id of 0 is read as no user at all. *)
Remark getActiveBookings_zero (st : Store) :
  getActiveBookings st (Some 0) = getActiveBookings st None.
Proof. reflexivity. Qed.

(** C8: the listing holds exactly the bookings whose [deletedAt] is null,
    all of them for an admin and the caller's own otherwise, in ascending
    order of [startTime].  A caller who is not an admin has an id other than
    0, as the keys issued by the database are. *)
Theorem getActiveBookings_listing (st : Store) (caller : User.t) :
  is_admin caller = true \/ User.id caller <> 0 ->
  exists l,
    get_bookings st caller = mkResponse 200 (BookingsJson l)
    /\ l = (if is_admin caller then getActiveBookings st None
            else getActiveBookings st (Some (User.id caller)))
    /\ StronglySorted start_le l
    /\ Permutation l
         (filter (fun b => is_null (deletedAt b)
                           && (is_admin caller || (userId b =? User.id caller)))
                 (bookings st)).
Proof.
  intros Hcaller. eexists. split; [reflexivity|]. split; [reflexivity|].
  unfold getActiveBookings.
  destruct (is_admin caller); split;
    try apply order_by_startTime_sorted;
    (eapply perm_trans; [apply order_by_startTime_perm|]).
  - apply Permutation_refl.
  - destruct Hcaller as [Hadm | Hid]; [discriminate|].
    unfold truthy. apply Z.eqb_neq in Hid. rewrite Hid. simpl.
    apply Permutation_refl.
Qed.

(** *** Cancelled bookings in the conflict checks *)

Lemma filter_filter_implied {A : Type} (f g : A -> bool) (l : list A) :
  (forall x, f x = true -> g x = true) ->
  filter f (filter g l) = filter f l.
Proof.
  intros Himp. induction l as [|x l IH]; simpl; [reflexivity|].
  destruct (g x) eqn:Hg; simpl.
  - now rewrite IH.
  - destruct (f x) eqn:Hf; [|exact IH].
    apply Himp in Hf. congruence.
Qed.

(** The creation query does not see cancelled bookings. *)
Lemma overlappingBookings_remove_cancelled (st : Store) (data : NewBooking.t) :
  overlappingBookings (remove_cancelled st) data = overlappingBookings st data.
Proof.
  unfold overlappingBookings, remove_cancelled. simpl.
  apply filter_filter_implied. intros b Hb.
  rewrite !andb_true_iff in Hb. tauto.
Qed.

(** Neither does [checkRoomAvailability]. *)
Lemma checkRoomAvailability_remove_cancelled
      (st : Store) (room : Z) (s e : Date) (x : option Z) :
  checkRoomAvailability (remove_cancelled st) room s e x
  = checkRoomAvailability st room s e x.
Proof.
  unfold checkRoomAvailability, remove_cancelled. simpl.
  rewrite filter_filter_implied; [reflexivity|].
  intros b Hb. unfold availability_where in Hb.
  rewrite !andb_true_iff in Hb. tauto.
Qed.

(** C3, at the failing input: a room whose only booking is cancelled is
    free for [checkRoomAvailability] and for the creation query, yet
    [GET /rooms/available] leaves it out; without the cancelled row the
    route lists it. *)
Theorem get_rooms_available_cancelled :
  let room := Room.mk 1 "A" 4 None 1 in
  let st := mkStore [User.mk 1 "user"] [room]
                    [mkBooking 1 1 1 10 20 None (Some 5) 0] 2 in
  get_rooms_available st (Some 10) (Some 20) = mkResponse 200 (RoomsJson [])
  /\ get_rooms_available (remove_cancelled st) (Some 10) (Some 20)
     = mkResponse 200 (RoomsJson [room])
  /\ checkRoomAvailability st 1 10 20 None = true
  /\ overlappingBookings st (NewBooking.mk 1 1 10 20 None) = [].
Proof. repeat split. Qed.

(** *** Validation of a request *)

(** C4, as the code has it: the create route answers 400 only when
    [room_id], [start_time] or [end_time] is missing.  An interval with
    [start >= end] is not refused by the route or the service: when no
    active booking of the room is selected by the overlap query (and the
    constraints of the table hold) the booking is inserted and the answer
    is 201.  The check of the interval is in the booking form, which shows
    an error and sends nothing when [end <= start]. *)
Theorem post_bookings_validation (now : Date) (st : Store) (currentUser : User.t)
        (room : Z) (s e : Date) (note : option string) :
  (forall body,
      truthy (Body.room_id body) = false
      \/ Body.start_time body = None
      \/ Body.end_time body = None ->
      post_bookings now st currentUser body
      = (mkResponse 400 (Message "room_id, start_time, and end_time are required"), st))
  /\ (let data := NewBooking.mk (User.id currentUser) room s e note in
      e <= s ->
      room <> 0 ->
      (forall b, ~ active_conflict st data b) ->
      (forall b, In b (bookings st) -> ~ duplicate_of data b) ->
      foreign_keys_hold st data = true ->
      exists b st',
        post_bookings now st currentUser
                      (Body.mk (Some room) None (Some s) (Some e) note)
        = (mkResponse 201 (BookingJson b), st')
        /\ bookings st' = bookings st ++ [b]
        /\ created_from data b)
  /\ (e <= s ->
      forall browser_now,
      exists m,
        handleSubmit browser_now now st currentUser room s e note = (FormError m, st)).
Proof.
  split; [|split].
  - intros body. apply post_bookings_missing.
  - intros data Hes Hroom Hfree Hnodup Hfk.
    destruct (createBookingSafe_inserts now st data Hfree Hnodup Hfk)
      as (b & st' & Hrun & Hrows & _ & Hb).
    exists b, st'. rewrite (post_bookings_own now st currentUser room s e note Hroom).
    fold data. rewrite Hrun. simpl. auto.
  - intros Hes browser_now. unfold handleSubmit.
    destruct (s <=? browser_now); [eexists; reflexivity|].
    rewrite (proj2 (Z.leb_le _ _) Hes). eexists; reflexivity.
Qed.

(** ** Further properties of the routes *)

(** *** What the routes keep of table [bookings] *)

Lemma ForallOrdPairs_snoc {A : Type} (R : A -> A -> Prop) (l : list A) (x : A) :
  ForallOrdPairs R l -> Forall (fun a => R a x) l -> ForallOrdPairs R (l ++ [x]).
Proof.
  induction 1 as [|a l Ha Hl IH]; simpl; intros Hx.
  - repeat constructor.
  - apply Forall_cons_iff in Hx. destruct Hx as [Hax Hx].
    constructor; [|now apply IH].
    apply Forall_app. split; [exact Ha | now constructor].
Qed.

Lemma ForallOrdPairs_filter {A : Type} (R : A -> A -> Prop) (f : A -> bool)
      (l : list A) :
  ForallOrdPairs R l -> ForallOrdPairs R (filter f l).
Proof.
  induction 1 as [|a l Ha Hl IH]; simpl; [constructor|].
  destruct (f a); [|exact IH].
  constructor; [|exact IH].
  rewrite Forall_forall in *. intros x Hx. apply Ha.
  apply filter_In in Hx. tauto.
Qed.

Lemma ForallOrdPairs_map {A : Type} (R : A -> A -> Prop) (g : A -> A) (l : list A) :
  (forall a b, R a b -> R (g a) (g b)) ->
  ForallOrdPairs R l -> ForallOrdPairs R (map g l).
Proof.
  intros Hg. induction 1 as [|a l Ha Hl IH]; simpl; constructor; trivial.
  rewrite Forall_forall in *. intros x Hx.
  apply in_map_iff in Hx. destruct Hx as [y [Hy Hin]]. subst x.
  apply Hg. now apply Ha.
Qed.

Lemma StronglySorted_snoc {A : Type} (R : A -> A -> Prop) (l : list A) (x : A) :
  StronglySorted R l -> Forall (fun a => R a x) l -> StronglySorted R (l ++ [x]).
Proof.
  induction 1 as [|a l Hl IH Ha]; simpl; intros Hx.
  - repeat constructor.
  - apply Forall_cons_iff in Hx. destruct Hx as [Hax Hx].
    constructor; [now apply IH|].
    apply Forall_app. split; [exact Ha | now constructor].
Qed.

Lemma StronglySorted_filter {A : Type} (R : A -> A -> Prop) (f : A -> bool)
      (l : list A) :
  StronglySorted R l -> StronglySorted R (filter f l).
Proof.
  induction 1 as [|a l Hl IH Ha]; simpl; [constructor|].
  destruct (f a); [|exact IH].
  constructor; [exact IH|].
  rewrite Forall_forall in *. intros x Hx. apply Ha.
  apply filter_In in Hx. tauto.
Qed.

Lemma StronglySorted_map {A : Type} (R : A -> A -> Prop) (g : A -> A) (l : list A) :
  (forall a b, R a b -> R (g a) (g b)) ->
  StronglySorted R l -> StronglySorted R (map g l).
Proof.
  intros Hg. induction 1 as [|a l Hl IH Ha]; simpl; constructor; trivial.
  rewrite Forall_forall in *. intros x Hx.
  apply in_map_iff in Hx. destruct Hx as [y [Hy Hin]]. subst x.
  apply Hg. now apply Ha.
Qed.

Lemma id_lt_NoDup (rows : list Booking) :
  StronglySorted id_lt rows -> NoDup (map id rows).
Proof.
  induction 1 as [|a l Hl IH Ha]; simpl; constructor; trivial.
  intros Hin. apply in_map_iff in Hin. destruct Hin as [b [Hid Hb]].
  rewrite Forall_forall in Ha. specialize (Ha b Hb). unfold id_lt in Ha. lia.
Qed.

Lemma table_inv_wf (st : Store) : table_inv st -> wf_store st.
Proof.
  intros (Hpos & Hlt & Hsorted & _). unfold wf_store.
  split; [now apply id_lt_NoDup|]. split; [exact Hpos|].
  eapply Forall_impl; [|exact Hlt]. simpl. intros; lia.
Qed.

Lemma clear_of_mark_deleted (k : Z) (d : Date) (b c : Booking) :
  clear_of b c -> clear_of (mark_deleted k d b) (mark_deleted k d c).
Proof.
  unfold clear_of, mark_deleted.
  destruct (id b =? k), (id c =? k); simpl; intros H Hroom Hb Hc;
    try discriminate; now apply H.
Qed.

Lemma table_inv_mark_deleted (st : Store) (k : Z) (d : Date) :
  table_inv st -> table_inv (set_bookings st (map (mark_deleted k d) (bookings st))).
Proof.
  intros (Hpos & Hlt & Hsorted & Hfree). unfold table_inv. simpl.
  split; [exact Hpos|]. split; [|split].
  - rewrite Forall_forall in *. intros c Hc.
    apply in_map_iff in Hc. destruct Hc as [c' [Hc' Hin]]. subst c.
    rewrite mark_deleted_id. now apply Hlt.
  - apply StronglySorted_map; [|exact Hsorted].
    intros a b. unfold id_lt. now rewrite !mark_deleted_id.
  - apply ForallOrdPairs_map; [|exact Hfree].
    intros a b. apply clear_of_mark_deleted.
Qed.

Lemma table_inv_filter (st : Store) (f : Booking -> bool) :
  table_inv st -> table_inv (set_bookings st (filter f (bookings st))).
Proof.
  intros (Hpos & Hlt & Hsorted & Hfree). unfold table_inv. simpl.
  split; [exact Hpos|]. split; [|split].
  - rewrite Forall_forall in *. intros c Hc. apply filter_In in Hc. now apply Hlt.
  - now apply StronglySorted_filter.
  - now apply ForallOrdPairs_filter.
Qed.

Lemma table_inv_set_rooms (st : Store) (rs : list Room.t) :
  table_inv st -> table_inv (set_rooms st rs).
Proof. intros H. exact H. Qed.

Lemma createBookingSafe_table_inv (now : Date) (st st' : Store) (data : NewBooking.t)
      (r : result Booking) :
  table_inv st -> createBookingSafe now st data = (r, st') -> table_inv st'.
Proof.
  intros Hinv Hrun.
  destruct r as [b|m].
  - assert (Hfree : forall c, ~ active_conflict st data c).
    { apply overlappingBookings_nil. unfold createBookingSafe in Hrun.
      destruct (overlappingBookings st data); [reflexivity | discriminate]. }
    rewrite (createBookingSafe_free now st data Hfree) in Hrun.
    apply booking_create_Ok in Hrun.
    destruct Hrun as (Hrows & _ & (_ & Hroom & Hs & He & _ & Hdel) & Hid & Hseq).
    destruct Hinv as (Hpos & Hlt & Hsorted & Hclear).
    unfold table_inv. rewrite Hrows, Hseq.
    split; [lia|]. split; [|split].
    + apply Forall_app. split.
      * eapply Forall_impl; [|exact Hlt]. simpl. intros; lia.
      * constructor; [lia | constructor].
    + apply StronglySorted_snoc; [exact Hsorted|].
      eapply Forall_impl; [|exact Hlt]. unfold id_lt. simpl. intros; lia.
    + apply ForallOrdPairs_snoc; [exact Hclear|].
      apply Forall_forall. intros c Hc Hrc Hactive _.
      apply not_true_is_false. intros Hov.
      apply (Hfree c). unfold active_conflict.
      rewrite <- Hs, <- He, <- Hroom. auto.
  - destruct Hinv as (Hpos & Hlt & Hsorted & Hclear).
    unfold createBookingSafe in Hrun.
    destruct (0 <? List.length (overlappingBookings st data))%nat.
    + inversion Hrun; subst. repeat split; trivial.
    + unfold booking_create in Hrun.
      destruct (unique_booking_violated (bookings st) data);
        [|destruct (foreign_keys_hold st data)]; simpl in Hrun;
        inversion Hrun; subst; unfold table_inv; simpl;
        (split; [lia|]); (split; [|split; trivial]);
        (eapply Forall_impl; [|exact Hlt]); simpl; intros; lia.
Qed.

Lemma softDeleteBooking_table_inv (now : Date) (st st' : Store) (bookingId u : Z)
      (r : result Booking) :
  table_inv st -> softDeleteBooking now st bookingId u = (r, st') -> table_inv st'.
Proof.
  intros Hinv. unfold softDeleteBooking, booking_update.
  destruct (negb (int4 bookingId && int4 u));
    [intros Heq; inversion Heq; subst; exact Hinv|].
  set (found := if u =? 0 then _ else _). clearbody found.
  destruct found as [b|]; [destruct (find _ (bookings st)) as [b'|]|];
    intros Heq; inversion Heq; subst; clear Heq; trivial.
  now apply table_inv_mark_deleted.
Qed.

(** A request to [POST /bookings] either stops at one of its two checks, or
    runs [createBookingSafe] once, for the caller or, when the caller is an
    admin, for whom the body names. *)
Lemma post_bookings_cases (now : Date) (st : Store) (currentUser : User.t)
      (body : Body.t) :
  (snd (post_bookings now st currentUser body) = st
   /\ (status (fst (post_bookings now st currentUser body)) = 400
       \/ status (fst (post_bookings now st currentUser body)) = 403))
  \/ exists data,
      post_bookings now st currentUser body
      = (post_bookings_reply (fst (createBookingSafe now st data)),
         snd (createBookingSafe now st data))
      /\ Body.room_id body = Some (NewBooking.roomId data)
      /\ Body.start_time body = Some (NewBooking.startTime data)
      /\ Body.end_time body = Some (NewBooking.endTime data)
      /\ NewBooking.roomId data <> 0
      /\ (NewBooking.userId data = User.id currentUser \/ is_admin currentUser = true).
Proof.
  unfold post_bookings.
  destruct (Body.room_id body) as [room|]; [|left; split; [reflexivity | now left]].
  destruct (Body.start_time body) as [s|]; [|left; split; [reflexivity | now left]].
  destruct (Body.end_time body) as [e|]; [|left; split; [reflexivity | now left]].
  destruct (negb (truthy (Some room))) eqn:Hroom;
    [left; split; [reflexivity | now left]|].
  destruct (truthy (Body.user_id body) && _ && negb (is_admin currentUser)) eqn:Hgate;
    [left; split; [reflexivity | now right]|].
  right. exists (NewBooking.mk (bookingUserId body currentUser) room s e
                               (Body.description body)).
  split; [now destruct (createBookingSafe now st _)|].
  simpl. repeat split.
  - unfold truthy in Hroom. apply negb_false_iff, negb_true_iff in Hroom.
    now apply Z.eqb_neq.
  - unfold bookingUserId in *.
    destruct (Body.user_id body) as [u|]; [|now left].
    destruct (truthy (Some u)); [|now left]. simpl in Hgate.
    destruct (u =? User.id currentUser) eqn:Hu.
    + left. now apply Z.eqb_eq.
    + right. simpl in Hgate. now apply negb_false_iff in Hgate.
Qed.

(** A request to [DELETE /bookings/:id] either stops before the service, or
    is the service's [softDeleteBooking], run once. *)
Lemma delete_booking_cases (now later : Date) (st : Store) (user : User.t)
      (bookingId : Z) :
  (snd (delete_booking now later st user bookingId) = st
   /\ status (fst (delete_booking now later st user bookingId)) <> 200)
  \/ (snd (delete_booking now later st user bookingId)
      = snd (softDeleteBooking later st bookingId (cancel_actor user))
      /\ (status (fst (delete_booking now later st user bookingId)) = 200 <->
          is_Ok (fst (softDeleteBooking later st bookingId (cancel_actor user))) = true)
      /\ (is_admin user = false ->
          exists booking,
            getBookingById st bookingId = Some booking
            /\ userId booking = User.id user
            /\ now < startTime booking)).
Proof.
  unfold delete_booking.
  assert (Hcancel :
            forall b, is_admin user = true \/
                      (getBookingById st bookingId = Some b
                       /\ userId b = User.id user /\ now < startTime b) ->
            let r := match softDeleteBooking later st bookingId (cancel_actor user) with
                     | (Ok cancelledBooking, st') =>
                         (mkResponse 200 (CancelledJson "Booking cancelled successfully"
                                                        cancelledBooking), st')
                     | (Throw m, st') =>
                         if includes m "not found" then
                           (mkResponse 404 (Message "Booking not found or already cancelled"),
                            st')
                         else (mkResponse 500 (Message "Error cancelling booking"), st')
                     end in
            snd r = snd (softDeleteBooking later st bookingId (cancel_actor user))
            /\ (status (fst r) = 200 <->
                is_Ok (fst (softDeleteBooking later st bookingId (cancel_actor user))) = true)
            /\ (is_admin user = false ->
                exists booking,
                  getBookingById st bookingId = Some booking
                  /\ userId booking = User.id user
                  /\ now < startTime booking)).
  { intros b Hb.
    destruct (softDeleteBooking later st bookingId (cancel_actor user)) as [[c|m] st'];
      simpl.
    - split; [reflexivity|]. split; [tauto|].
      intros Hrole. destruct Hb as [Hadm | Hb]; [congruence | now exists b].
    - destruct (includes m "not found"); simpl;
        (split; [reflexivity|]); (split; [split; discriminate|]);
        intros Hrole; (destruct Hb as [Hadm | Hb]; [congruence | now exists b]). }
  destruct (is_admin user) eqn:Hrole; simpl.
  - right. apply (Hcancel (mkBooking 0 0 0 0 0 None None 0)). now left.
  - destruct (negb (int4 bookingId));
      [left; destruct (includes (prisma_message ValueOutOfRange) "not found");
       split; [reflexivity | discriminate | reflexivity | discriminate]|].
    destruct (getBookingById st bookingId) as [booking|] eqn:Hget;
      [|left; split; [reflexivity | discriminate]].
    destruct (userId booking =? User.id user) eqn:Hown; simpl;
      [|left; split; [reflexivity | discriminate]].
    destruct (startTime booking <=? now) eqn:Hstart;
      [left; split; [reflexivity | discriminate]|].
    right. apply (Hcancel booking). right.
    apply Z.eqb_eq in Hown. apply Z.leb_gt in Hstart. auto.
Qed.

Lemma handle_table_inv (st : Store) (rq : Request) :
  table_inv st -> table_inv (snd (handle st rq)).
Proof.
  intros Hinv. destruct rq as [now currentUser body | now later user bookingId]; simpl.
  - destruct (post_bookings_cases now st currentUser body) as [[Hst _] | [data [Hrun _]]].
    + now rewrite Hst.
    + rewrite Hrun. simpl.
      destruct (createBookingSafe now st data) as [r st'] eqn:Hc.
      exact (createBookingSafe_table_inv now st st' data r Hinv Hc).
  - destruct (delete_booking_cases now later st user bookingId) as [[Hst _] | [Hst _]].
    + now rewrite Hst.
    + rewrite Hst.
      destruct (softDeleteBooking later st bookingId (cancel_actor user))
        as [r st'] eqn:Hs.
      exact (softDeleteBooking_table_inv later st st' bookingId _ r Hinv Hs).
Qed.

Lemma room_delete_table_inv (st st' : Store) (room : Z) (r : result Room.t) :
  table_inv st -> room_delete st room = (r, st') -> table_inv st'.
Proof.
  intros Hinv. unfold room_delete.
  destruct (find _ (rooms st)) as [r0|]; [|intros Heq; inversion Heq; now subst].
  destruct room_onDelete.
  - intros Heq. inversion Heq. apply table_inv_set_rooms.
    now apply table_inv_filter.
  - destruct (existsb _ (bookings st)); intros Heq; inversion Heq; subst; trivial.
Qed.

Lemma delete_room_table_inv (st : Store) (user : User.t) (room : Z) :
  table_inv st -> table_inv (snd (delete_room st user room)).
Proof.
  intros Hinv. unfold delete_room.
  destruct (find _ (rooms st)) as [r|]; [|exact Hinv].
  destruct (negb (Room.ownerId r =? User.id user) && negb (is_admin user)); [exact Hinv|].
  destruct (is_admin user).
  - destruct (room_delete (booking_deleteMany st room) room) as [[r'|m] st'] eqn:Hdel;
      [|exact Hinv].
    simpl. apply (room_delete_table_inv _ st' room (Ok r')) in Hdel; trivial.
    unfold booking_deleteMany. now apply table_inv_filter.
  - destruct (0 <? List.length _)%nat; [exact Hinv|].
    destruct (room_delete st room) as [[r'|m] st'] eqn:Hdel; [|exact Hinv].
    simpl. now apply (room_delete_table_inv st st' room (Ok r')).
Qed.

Lemma put_room_bookings (st : Store) (user : User.t) (room : Z) (body : RoomBody.t) :
  bookings (snd (put_room st user room body)) = bookings st
  /\ booking_seq (snd (put_room st user room body)) = booking_seq st
  /\ users (snd (put_room st user room body)) = users st.
Proof.
  unfold put_room.
  destruct (find _ (rooms st)) as [r|]; [|repeat split].
  destruct (negb (Room.ownerId r =? User.id user) && negb (is_admin user)); repeat split.
Qed.

Lemma perform_table_inv (st : Store) (op : Operation) :
  table_inv st -> table_inv (perform st op).
Proof.
  intros Hinv. destruct op as [rq | user room body | user room | us rs]; simpl.
  - now apply handle_table_inv.
  - destruct (put_room_bookings st user room body) as (Hrows & Hseq & _).
    unfold table_inv. rewrite Hrows, Hseq. exact Hinv.
  - now apply delete_room_table_inv.
  - exact Hinv.
Qed.

Lemma produced_table_inv (st : Store) : produced st -> table_inv st.
Proof.
  induction 1 as [us rs | st op Hprod IH].
  - unfold table_inv. simpl. repeat split; try lia; constructor.
  - now apply perform_table_inv.
Qed.

Lemma reachable_produced (st : Store) : reachable st -> produced st.
Proof.
  induction 1 as [us rs | st rq Hreach IH].
  - constructor.
  - exact (produced_step st (OnBookings rq) IH).
Qed.

(** X1: when requests are served one at a time, two different active
    bookings of one room whose intervals have [start < end] never overlap as
    half-open intervals, in any store the requests produce.  The guarantee
    holds for serial runs only: when two calls of [createBookingSafe] run
    their queries before either inserts and both find the slot free, both
    bookings are stored and active, and they overlap whenever the two
    requested intervals on one room do. *)
Theorem no_overlap_serial_only (st : Store) (b c : Booking) (now1 now2 : Date)
        (data1 data2 : NewBooking.t) :
  (produced st ->
   In b (bookings st) ->
   In c (bookings st) ->
   b <> c ->
   roomId b = roomId c ->
   deletedAt b = None ->
   deletedAt c = None ->
   startTime b < endTime b ->
   startTime c < endTime c ->
   ~ half_open_conflict b (startTime c) (endTime c))
  /\ createBookingSafe_after_query now1 st data1 (overlappingBookings st data1)
     = createBookingSafe now1 st data1
  /\ (overlappingBookings st data1 = [] ->
      overlappingBookings st data2 = [] ->
      unique_booking_violated (bookings st) data1 = false ->
      unique_booking_violated (bookings st) data2 = false ->
      (NewBooking.userId data1 = NewBooking.userId data2 ->
       NewBooking.roomId data1 = NewBooking.roomId data2 ->
       NewBooking.startTime data1 = NewBooking.startTime data2 ->
       NewBooking.endTime data1 = NewBooking.endTime data2 -> False) ->
      foreign_keys_hold st data1 = true ->
      foreign_keys_hold st data2 = true ->
      exists b1 b2 st2,
        createBookingSafe_interleaved now1 now2 st data1 data2 = (Ok b1, Ok b2, st2)
        /\ bookings st2 = bookings st ++ [b1; b2]
        /\ created_from data1 b1
        /\ created_from data2 b2
        /\ id b1 <> id b2
        /\ (NewBooking.roomId data1 = NewBooking.roomId data2 ->
            NewBooking.startTime data1 < NewBooking.endTime data2 ->
            NewBooking.startTime data2 < NewBooking.endTime data1 ->
            roomId b1 = roomId b2
            /\ half_open_conflict b1 (startTime b2) (endTime b2))).
Proof.
  split; [|split].
  - intros Hprod Hb Hc Hne Hroom Hab Hac Hvb Hvc [H1 H2].
    destruct (produced_table_inv st Hprod) as (_ & _ & _ & Hfree).
    destruct (ForallOrdPairs_In Hfree b c Hb Hc) as [Heq | [Hbc | Hcb]].
    + exact (Hne Heq).
    + specialize (Hbc Hroom Hab Hac).
      apply not_true_iff_false in Hbc. apply Hbc. apply overlap_sql_spec. lia.
    + specialize (Hcb (eq_sym Hroom) Hac Hab).
      apply not_true_iff_false in Hcb. apply Hcb. apply overlap_sql_spec. lia.
  - reflexivity.
  - intros Hq1 Hq2 Hu1 Hu2 Hdiff Hfk1 Hfk2.
    unfold createBookingSafe_interleaved, createBookingSafe_after_query.
    rewrite Hq1, Hq2. simpl. unfold booking_create at 1.
    rewrite Hu1, Hfk1. simpl.
    unfold booking_create. simpl.
    assert (Hu : unique_booking_violated
                   (bookings st
                    ++ [mkBooking (booking_seq st)
                                  (NewBooking.userId data1) (NewBooking.roomId data1)
                                  (NewBooking.startTime data1) (NewBooking.endTime data1)
                                  (NewBooking.description data1) None now1]) data2
                 = false).
    { unfold unique_booking_violated in *. rewrite existsb_app, Hu2. simpl.
      rewrite orb_false_r. apply not_true_is_false. intros Hsame.
      rewrite !andb_true_iff, !Z.eqb_eq in Hsame.
      destruct Hsame as [[[Ha Hb'] Hc'] Hd]. auto. }
    rewrite Hu.
    assert (Hfk : foreign_keys_hold
                    (set_bookings (set_booking_seq st (booking_seq st + 1))
                       (bookings st
                        ++ [mkBooking (booking_seq st)
                                      (NewBooking.userId data1) (NewBooking.roomId data1)
                                      (NewBooking.startTime data1) (NewBooking.endTime data1)
                                      (NewBooking.description data1) None now1])) data2
                  = true) by exact Hfk2.
    rewrite Hfk. simpl.
    eexists _, _, _. split; [reflexivity|]. simpl.
    split; [now rewrite <- app_assoc|].
    split; [repeat split|]. split; [repeat split|].
    split; [lia|].
    intros Hroom Hs He. split; [exact Hroom|]. unfold half_open_conflict. simpl. lia.
Qed.

(** X2: in every store the requests produce, the rows of table [bookings]
    are in strictly increasing order of [id], every id is positive and below
    the next value of the sequence: ids are unique and a new booking never
    takes the id of a stored one. *)
Theorem produced_ids_ascending (st : Store) :
  produced st ->
  StronglySorted id_lt (bookings st)
  /\ NoDup (map id (bookings st))
  /\ Forall (fun b => 0 < id b < booking_seq st) (bookings st).
Proof.
  intros Hprod. split; [|split].
  - now destruct (produced_table_inv st Hprod) as (_ & _ & Hsorted & _).
  - apply id_lt_NoDup. now destruct (produced_table_inv st Hprod) as (_ & _ & Hsorted & _).
  - now destruct (produced_table_inv st Hprod) as (_ & Hlt & _ & _).
Qed.

(** *** The availability query against creation and cancellation *)



Lemma softDeleteBooking_Throw (now : Date) (st st' : Store) (bookingId u : Z)
      (m : string) :
  softDeleteBooking now st bookingId u = (Throw m, st') -> st' = st.
Proof.
  unfold softDeleteBooking, booking_update.
  destruct (negb (int4 bookingId && int4 u)); [intros Heq; now inversion Heq|].
  destruct (if u =? 0 then _ else _);
    [destruct (find _ (bookings st))|]; intros Heq; now inversion Heq.
Qed.

Lemma softDeleteBooking_Ok_found (now : Date) (st st' : Store) (bookingId u : Z)
      (b : Booking) :
  softDeleteBooking now st bookingId u = (Ok b, st') ->
  exists r,
    In r (bookings st) /\ id r = bookingId /\ deletedAt r = None
    /\ (u = 0 \/ userId r = u).
Proof.
  unfold softDeleteBooking.
  destruct (negb (int4 bookingId && int4 u)); [discriminate|].
  destruct (u =? 0) eqn:Hu.
  - destruct (find _ (bookings st)) as [r|] eqn:Hfind; [|discriminate].
    intros _. apply find_some in Hfind. destruct Hfind as [Hin Hr].
    apply andb_true_iff in Hr. destruct Hr as [Hid Hnull].
    exists r. apply Z.eqb_eq in Hid, Hu.
    repeat split; trivial; [now destruct (deletedAt r) | now left].
  - destruct (find _ (bookings st)) as [r|] eqn:Hfind; [|discriminate].
    intros _. apply find_some in Hfind. destruct Hfind as [Hin Hr].
    rewrite !andb_true_iff in Hr. destruct Hr as [[Hid Hown] Hnull].
    exists r. apply Z.eqb_eq in Hid, Hown.
    repeat split; trivial; [now destruct (deletedAt r) | now right].
Qed.

Lemma delete_booking_200_found (now later : Date) (st st' : Store) (user : User.t)
      (bookingId : Z) (resp : Response) :
  delete_booking now later st user bookingId = (resp, st') ->
  status resp = 200 ->
  exists r, In r (bookings st) /\ id r = bookingId /\ deletedAt r = None.
Proof.
  intros Hrun Hok.
  destruct (delete_booking_cases now later st user bookingId)
    as [[_ Hno] | (_ & Hiff & _)].
  - rewrite Hrun in Hno. now elim Hno.
  - rewrite Hrun in Hiff. simpl in Hiff. apply Hiff in Hok.
    destruct (softDeleteBooking later st bookingId (cancel_actor user))
      as [[b|m] st1] eqn:Hsoft; [|discriminate].
    destruct (softDeleteBooking_Ok_found later st st1 bookingId _ b Hsoft)
      as (r & Hin & Hid & Hact & _).
    now exists r.
Qed.

Lemma availability_where_mark_deleted (k : Z) (d : Date) (room : Z) (s e : Date)
      (b : Booking) :
  k <> 0 ->
  availability_where room s e None (mark_deleted k d b)
  = availability_where room s e (Some k) b.
Proof.
  intros Hk. unfold availability_where, mark_deleted, truthy.
  apply Z.eqb_neq in Hk. rewrite Hk. simpl.
  destruct (id b =? k); simpl.
  - now rewrite !andb_false_r.
  - now rewrite !andb_true_r.
Qed.

(** X4: cancelling is excluding.  After a cancellation answered 200, the
    availability of any room and interval is what the store before gave with
    the cancelled id excluded; so a cancellation never makes a free interval
    unavailable. *)
Theorem cancel_then_checkRoomAvailability
        (now later : Date) (st st' : Store) (user : User.t) (bookingId : Z)
        (resp : Response) (room : Z) (s e : Date) :
  produced st ->
  delete_booking now later st user bookingId = (resp, st') ->
  status resp = 200 ->
  checkRoomAvailability st' room s e None
  = checkRoomAvailability st room s e (Some bookingId)
  /\ (checkRoomAvailability st room s e None = true ->
      checkRoomAvailability st' room s e None = true).
Proof.
  intros Hprod Hrun Hok.
  assert (Hk : bookingId <> 0).
  { destruct (delete_booking_200_found now later st st' user bookingId resp Hrun Hok)
      as (r & Hin & Hid & _).
    destruct (produced_table_inv st Hprod) as (_ & Hlt & _).
    rewrite Forall_forall in Hlt. specialize (Hlt r Hin). lia. }
  assert (Heq : checkRoomAvailability st' room s e None
                = checkRoomAvailability st room s e (Some bookingId)).
  { unfold checkRoomAvailability.
    rewrite (delete_booking_200 now later st st' user bookingId resp Hrun Hok).
    assert (Hlen : forall rows,
               List.length (filter (availability_where room s e None)
                                   (map (mark_deleted bookingId later) rows))
               = List.length (filter (availability_where room s e (Some bookingId)) rows)).
    { induction rows as [|c rows IH]; simpl; [reflexivity|].
      rewrite (availability_where_mark_deleted bookingId later room s e c Hk).
      destruct (availability_where room s e (Some bookingId) c); simpl; now rewrite IH. }
    now rewrite Hlen. }
  split; [exact Heq|].
  rewrite Heq. unfold checkRoomAvailability. intros Hfree.
  apply Nat.eqb_eq in Hfree. apply length_zero_iff_nil in Hfree.
  rewrite filter_nil; [reflexivity|].
  intros c Hc. destruct (availability_where room s e (Some bookingId) c) eqn:Hw;
    [|reflexivity].
  assert (Hin : In c (filter (availability_where room s e None) (bookings st))).
  { apply filter_In. split; [exact Hc|].
    unfold availability_where in *. rewrite !andb_true_iff in Hw.
    destruct Hw as [Hw _]. rewrite andb_true_r. now rewrite !andb_true_iff. }
  rewrite Hfree in Hin. destruct Hin.
Qed.

(** *** Who can change what *)

Lemma mark_deleted_other (k : Z) (d : Date) (b : Booking) :
  id b <> k -> mark_deleted k d b = b.
Proof.
  intros Hid. unfold mark_deleted. apply Z.eqb_neq in Hid. now rewrite Hid.
Qed.

(** X5: a caller who is not an admin can cancel only a booking of their
    own that has not started: when the cancel route answers 200 to such a
    caller, every row it changed is an active booking with the requested id,
    owned by the caller and starting after the time of the request; all other
    rows are as before. *)
Theorem delete_booking_own_only
        (now later : Date) (st st' : Store) (user : User.t) (bookingId : Z)
        (resp : Response) :
  wf_store st ->
  is_admin user = false ->
  delete_booking now later st user bookingId = (resp, st') ->
  status resp = 200 ->
  exists r,
    In r (bookings st)
    /\ id r = bookingId
    /\ deletedAt r = None
    /\ userId r = User.id user
    /\ now < startTime r
    /\ bookings st'
       = map (fun c => if id c =? bookingId then set_deletedAt r (Some later) else c)
             (bookings st).
Proof.
  intros (Hnd & _) Hrole Hrun Hok.
  destruct (delete_booking_cases now later st user bookingId)
    as [[_ Hno] | (_ & _ & Hpre)].
  { rewrite Hrun in Hno. now elim Hno. }
  destruct (Hpre Hrole) as (r & Hget & Hown & Hstart).
  unfold getBookingById in Hget. apply find_some in Hget.
  destruct Hget as [Hin Hr]. apply andb_true_iff in Hr. destruct Hr as [Hid Hnull].
  apply Z.eqb_eq in Hid.
  exists r. repeat split; trivial; [now destruct (deletedAt r)|].
  rewrite (delete_booking_200 now later st st' user bookingId resp Hrun Hok).
  apply map_ext_in. intros c Hc. unfold mark_deleted.
  destruct (id c =? bookingId) eqn:Hc_id; [|reflexivity].
  apply Z.eqb_eq in Hc_id.
  now rewrite (keyed_unique (bookings st) c r Hnd Hc Hin) by congruence.
Qed.

(** X6: the routes of bookings.ts keep the history.  After any request to
    [POST /bookings] or [DELETE /bookings/:id], the table is the old rows in
    their order, each one unchanged or with its [deletedAt] set from null,
    followed by at most one new, active row: no row is removed, no column
    but [deletedAt] changes, and a [deletedAt] once set stays as it is. *)
Theorem handle_keeps_history (st : Store) (rq : Request) :
  wf_store st ->
  exists kept added,
    bookings (snd (handle st rq)) = kept ++ added
    /\ Forall2 row_evolves (bookings st) kept
    /\ (List.length added <= 1)%nat
    /\ Forall (fun b => deletedAt b = None /\ id b = booking_seq st) added.
Proof.
  intros Hwf.
  assert (Hrefl : forall rows, Forall2 row_evolves rows rows).
  { induction rows; constructor; trivial. now left. }
  assert (Hsame : forall st', bookings st' = bookings st ->
                              exists kept added,
                                bookings st' = kept ++ added
                                /\ Forall2 row_evolves (bookings st) kept
                                /\ (List.length added <= 1)%nat
                                /\ Forall (fun b => deletedAt b = None
                                                     /\ id b = booking_seq st) added).
  { intros st' Hrows. exists (bookings st), []. rewrite Hrows, app_nil_r.
    repeat split; trivial. simpl. lia. }
  destruct rq as [now currentUser body | now later user bookingId]; simpl.
  - destruct (post_bookings_cases now st currentUser body) as [[Hst _] | [data [Hrun _]]].
    + apply Hsame. now rewrite Hst.
    + rewrite Hrun. simpl.
      destruct (createBookingSafe now st data) as [[b|m] st'] eqn:Hc; simpl.
      * assert (Hfree : forall c, ~ active_conflict st data c).
        { apply overlappingBookings_nil. unfold createBookingSafe in Hc.
          destruct (overlappingBookings st data); [reflexivity | discriminate]. }
        rewrite (createBookingSafe_free now st data Hfree) in Hc.
        apply booking_create_Ok in Hc.
        destruct Hc as (Hrows & _ & (_ & _ & _ & _ & _ & Hdel) & Hid & _).
        exists (bookings st), [b]. repeat split; trivial.
        repeat constructor; trivial.
      * apply Hsame.
        unfold createBookingSafe in Hc.
        destruct (0 <? List.length (overlappingBookings st data))%nat.
        -- now inversion Hc.
        -- now apply booking_create_Throw in Hc.
  - destruct (delete_booking_cases now later st user bookingId)
      as [[Hst _] | (Hst & _ & _)].
    + apply Hsame. now rewrite Hst.
    + rewrite Hst.
      destruct (softDeleteBooking later st bookingId (cancel_actor user))
        as [[b|m] st'] eqn:Hsoft; simpl.
      * destruct (softDeleteBooking_Ok_found later st st' bookingId _ b Hsoft)
          as (r & Hin & Hid & Hact & _).
        rewrite (softDeleteBooking_Ok later st st' bookingId _ b Hsoft).
        exists (map (mark_deleted bookingId later) (bookings st)), [].
        rewrite app_nil_r. repeat split; trivial; [|simpl; lia].
        destruct Hwf as (Hnd & _).
        assert (Hall : forall rows,
                   (forall c, In c rows -> In c (bookings st)) ->
                   Forall2 row_evolves rows (map (mark_deleted bookingId later) rows)).
        { induction rows as [|c rows IH]; simpl; intros Hsub; constructor.
          - destruct (Z.eq_dec (id c) bookingId) as [Hc | Hc].
            + right.
              assert (Hcr : c = r).
              { apply (keyed_unique (bookings st)); trivial; [|congruence].
                apply Hsub. now left. }
              subst c. split; [exact Hact|]. exists later.
              unfold mark_deleted. apply Z.eqb_eq in Hc. now rewrite Hc.
            + left. now apply mark_deleted_other.
          - apply IH. intros c' Hc'. apply Hsub. now right. }
        apply Hall. auto.
      * apply Hsame.
        now rewrite (softDeleteBooking_Throw later st st' bookingId _ m Hsoft).
Qed.

Lemma createBookingSafe_Ok (now : Date) (st st' : Store) (data : NewBooking.t)
      (b : Booking) :
  createBookingSafe now st data = (Ok b, st') ->
  bookings st' = bookings st ++ [b]
  /\ created_from data b
  /\ id b = booking_seq st.
Proof.
  intros Hc.
  assert (Hfree : forall c, ~ active_conflict st data c).
  { apply overlappingBookings_nil. unfold createBookingSafe in Hc.
    destruct (overlappingBookings st data); [reflexivity | discriminate]. }
  rewrite (createBookingSafe_free now st data Hfree) in Hc.
  apply booking_create_Ok in Hc. tauto.
Qed.

(** X7: whenever the create route answers 201, the booking it returns is
    stored, active, for the room and the interval of the body, and belongs
    to the caller unless the caller is an admin; a caller who is not an
    admin and names another user is answered 403 and nothing is stored. *)
Theorem post_bookings_owner
        (now : Date) (st st' : Store) (currentUser : User.t) (body : Body.t)
        (resp : Response) :
  post_bookings now st currentUser body = (resp, st') ->
  (status resp = 201 ->
   exists b,
     payload resp = BookingJson b
     /\ bookings st' = bookings st ++ [b]
     /\ deletedAt b = None
     /\ Body.room_id body = Some (roomId b)
     /\ Body.start_time body = Some (startTime b)
     /\ Body.end_time body = Some (endTime b)
     /\ (userId b = User.id currentUser \/ is_admin currentUser = true))
  /\ (forall u room s e,
         Body.user_id body = Some u -> u <> 0 -> u <> User.id currentUser ->
         is_admin currentUser = false ->
         Body.room_id body = Some room -> room <> 0 ->
         Body.start_time body = Some s -> Body.end_time body = Some e ->
         status resp = 403 /\ st' = st).
Proof.
  intros Hrun. split.
  - intros Hok.
    destruct (post_bookings_cases now st currentUser body)
      as [[_ Hst] | (data & Hpost & Hroom & Hs & He & _ & Hwho)].
    { rewrite Hrun in Hst. simpl in Hst. lia. }
    rewrite Hrun in Hpost.
    destruct (createBookingSafe now st data) as [[b|m] st1] eqn:Hc;
      simpl in Hpost; inversion Hpost; subst; clear Hpost.
    + apply createBookingSafe_Ok in Hc.
      destruct Hc as (Hrows & (Hu & Hr & Hbs & Hbe & _ & Hdel) & _).
      exists b. rewrite Hr, Hbs, Hbe, Hu. repeat split; trivial.
    + simpl in Hok. destruct (includes m "already booked" || includes m "unique_booking");
        simpl in Hok; discriminate.
  - intros u room s e Hu Hu0 Hother Hrole Hroom Hroom0 Hs He.
    unfold post_bookings in Hrun. rewrite Hroom, Hs, He, Hu in Hrun.
    unfold truthy, is_admin in *. rewrite Hrole in Hrun.
    apply Z.eqb_neq in Hu0, Hother, Hroom0. rewrite Hu0, Hother, Hroom0 in Hrun.
    simpl in Hrun. inversion Hrun. split; reflexivity.
Qed.

(** *** What the reading routes show *)

Lemma getActiveBookings_In (st : Store) (u : option Z) (b : Booking) :
  In b (getActiveBookings st u) <->
  In b (bookings st)
  /\ deletedAt b = None
  /\ (truthy u = true -> Some (userId b) = u).
Proof.
  unfold getActiveBookings.
  split.
  - intros Hin.
    apply (Permutation_in _ (order_by_startTime_perm _)) in Hin.
    apply filter_In in Hin. destruct Hin as [Hin Hp].
    apply andb_true_iff in Hp. destruct Hp as [Hnull Hu].
    split; [exact Hin|]. split; [now destruct (deletedAt b)|].
    intros Ht. destruct u as [v|]; [|discriminate].
    rewrite Ht in Hu. apply Z.eqb_eq in Hu. now subst.
  - intros (Hin & Hact & Hu).
    apply (Permutation_in _ (Permutation_sym (order_by_startTime_perm _))).
    apply filter_In. split; [exact Hin|].
    rewrite Hact. simpl. destruct u as [v|]; [|reflexivity].
    destruct (truthy (Some v)) eqn:Ht; [|reflexivity].
    specialize (Hu eq_refl). inversion Hu. apply Z.eqb_refl.
Qed.

(** X8: a booking cancelled with answer 200 is gone from every reading
    route: [getBookingById] finds nothing under its id, [GET /bookings/:id]
    answers 404 to every caller, and every listing is the former listing
    without it. *)
Theorem cancelled_booking_hidden
        (now later : Date) (st st' : Store) (user : User.t) (bookingId : Z)
        (resp : Response) :
  delete_booking now later st user bookingId = (resp, st') ->
  status resp = 200 ->
  getBookingById st' bookingId = None
  /\ (forall caller, get_booking st' caller bookingId
                     = mkResponse 404 (Message "Booking not found"))
  /\ (forall u b,
         In b (getActiveBookings st' u) <->
         In b (getActiveBookings st u) /\ id b <> bookingId).
Proof.
  intros Hrun Hok.
  pose proof (delete_booking_200 now later st st' user bookingId resp Hrun Hok) as Hrows.
  assert (Hgone : getBookingById st' bookingId = None).
  { apply getBookingById_not_found. rewrite Hrows. intros b. apply mark_deleted_gone. }
  split; [exact Hgone|]. split.
  - intros caller. unfold get_booking.
    rewrite (delete_booking_200_in_range now later st st' user bookingId resp Hrun Hok).
    simpl. now rewrite Hgone.
  - intros u b. rewrite !getActiveBookings_In, Hrows. split.
    + intros (Hin & Hact & Hu).
      apply in_map_iff in Hin. destruct Hin as [c [Hc Hin]].
      destruct (Z.eq_dec (id c) bookingId) as [Hid | Hid].
      * exfalso. subst b. unfold mark_deleted in Hact.
        apply Z.eqb_eq in Hid. rewrite Hid in Hact. discriminate.
      * rewrite (mark_deleted_other bookingId later c Hid) in Hc. subst c. tauto.
    + intros ((Hin & Hact & Hu) & Hid). repeat split; trivial.
      apply in_map_iff. exists b. split; [now apply mark_deleted_other | exact Hin].
Qed.

(** X9: a booking that [createBookingSafe] returns can be read back: it is
    what [getBookingById] finds under its id, it is in the listing of all
    active bookings and in its owner's, and every booking listed before is
    still listed. *)
Theorem created_booking_listed
        (now : Date) (st st' : Store) (data : NewBooking.t) (X : Booking) :
  wf_store st ->
  createBookingSafe now st data = (Ok X, st') ->
  getBookingById st' (id X) = Some X
  /\ In X (getActiveBookings st' None)
  /\ In X (getActiveBookings st' (Some (userId X)))
  /\ (forall u b, In b (getActiveBookings st u) -> In b (getActiveBookings st' u)).
Proof.
  intros Hwf Hrun.
  pose proof (createBookingSafe_wf now st st' data (Ok X) Hwf Hrun) as (Hnd' & _).
  apply createBookingSafe_Ok in Hrun.
  destruct Hrun as (Hrows & (_ & _ & _ & _ & _ & Hdel) & _).
  assert (HinX : In X (bookings st')).
  { rewrite Hrows. apply in_or_app. right. now left. }
  split; [|split; [|split]].
  - unfold getBookingById.
    rewrite (find_keyed (bookings st') X _ Hnd' HinX).
    + now rewrite Z.eqb_refl, Hdel.
    + intros b Hb. apply andb_true_iff in Hb. now apply Z.eqb_eq.
  - apply getActiveBookings_In. repeat split; trivial. discriminate.
  - apply getActiveBookings_In. repeat split; trivial.
  - intros u b. rewrite !getActiveBookings_In, Hrows. intros (Hin & Hrest).
    split; [apply in_or_app; now left | exact Hrest].
Qed.

(** X10: what [GET /bookings/:id] answers for a stored booking: 404 when it
    is cancelled, the booking itself to its owner and to an admin, 403 to
    anyone else; for an id that no row carries, 404 when the id fits the Int
    column, and 500 when it does not, the lookup raising. *)
Theorem get_booking_answers (st : Store) (user : User.t) (r : Booking) (absent : Z) :
  wf_store st ->
  In r (bookings st) ->
  int4 (id r) = true ->
  (forall b, In b (bookings st) -> id b <> absent) ->
  get_booking st user (id r)
  = (if is_null (deletedAt r) then
       if is_admin user || (userId r =? User.id user) then mkResponse 200 (BookingJson r)
       else mkResponse 403 (Message "Not authorized")
     else mkResponse 404 (Message "Booking not found"))
  /\ (int4 absent = true ->
      get_booking st user absent = mkResponse 404 (Message "Booking not found"))
  /\ (int4 absent = false ->
      get_booking st user absent = mkResponse 500 (Message "Error fetching booking")).
Proof.
  intros (Hnd & _) Hin Hidr Habsent. split; [|split].
  - unfold get_booking, getBookingById. rewrite Hidr. simpl.
    rewrite (find_keyed (bookings st) r _ Hnd Hin).
    + rewrite Z.eqb_refl. simpl. destruct (is_null (deletedAt r)); [|reflexivity].
      now destruct (is_admin user), (userId r =? User.id user).
    + intros b Hb. apply andb_true_iff in Hb. now apply Z.eqb_eq.
  - intros Hk. unfold get_booking. rewrite Hk. simpl.
    rewrite getBookingById_not_found; [reflexivity|].
    intros b Hb Hid. now elim (Habsent b Hb).
  - intros Hk. unfold get_booking. now rewrite Hk.
Qed.

(** X11: the page of a room shows, out of the caller's listing, bookings
    that are stored, active, on that room and start after the current time,
    in ascending order of start; to a caller who is not an admin (and whose
    id is not 0) it shows only the caller's own. *)
Theorem upcomingBookings_shown (now : Date) (st : Store) (user : User.t) (room : Z) :
  StronglySorted start_le (upcomingBookings now st user room)
  /\ (forall b,
         In b (upcomingBookings now st user room) ->
         In b (bookings st)
         /\ deletedAt b = None
         /\ roomId b = room
         /\ now < startTime b
         /\ (is_admin user = false -> User.id user <> 0 -> userId b = User.id user)).
Proof.
  unfold upcomingBookings, get_bookings. simpl. split.
  - apply StronglySorted_filter.
    destruct (is_admin user); unfold getActiveBookings; apply order_by_startTime_sorted.
  - intros b Hb. apply filter_In in Hb. destruct Hb as [Hin Hp].
    apply andb_true_iff in Hp. destruct Hp as [Hroom Hstart].
    apply Z.eqb_eq in Hroom. apply Z.gtb_lt in Hstart.
    destruct (is_admin user) eqn:Hrole;
      apply getActiveBookings_In in Hin; destruct Hin as (Hin & Hact & Hu);
      repeat split; trivial; try discriminate.
    intros _ Hid. unfold truthy in Hu. apply Z.eqb_neq in Hid. rewrite Hid in Hu.
    specialize (Hu eq_refl). now inversion Hu.
Qed.

(** *** The listing of available rooms *)

Lemma overlap_available_spec (b : Booking) (s e : Date) :
  overlap_available b s e = true <->
  (s <= startTime b <= e)
  \/ (s <= endTime b <= e)
  \/ (startTime b <= s /\ e <= endTime b).
Proof.
  unfold overlap_available.
  rewrite !orb_true_iff, !andb_true_iff.
  rewrite !Z.leb_le, !Z.geb_le.
  tauto.
Qed.

Lemma get_rooms_available_In (st : Store) (s e : Date) (r : Room.t) :
  In r (filter (fun room =>
                  negb (existsb (Z.eqb (Room.id room))
                                (map roomId
                                     (filter (fun b => overlap_available b s e)
                                             (bookings st)))))
               (rooms st)) <->
  In r (rooms st)
  /\ (forall b, In b (bookings st) -> roomId b = Room.id r ->
                overlap_available b s e = false).
Proof.
  rewrite filter_In. split; intros [Hin Hfree]; split; trivial.
  - intros b Hb Hroom. apply not_true_is_false. intros Hov.
    apply negb_true_iff in Hfree.
    assert (Hex : existsb (Z.eqb (Room.id r))
                          (map roomId (filter (fun b => overlap_available b s e)
                                              (bookings st))) = true).
    { apply existsb_exists. exists (roomId b). split; [|now apply Z.eqb_eq].
      apply in_map. apply filter_In. now split. }
    congruence.
  - apply negb_true_iff. apply not_true_is_false. intros Hex.
    apply existsb_exists in Hex. destruct Hex as [k [Hk Heq]].
    apply Z.eqb_eq in Heq. subst k.
    apply in_map_iff in Hk. destruct Hk as [b [Hroom Hb]].
    apply filter_In in Hb. destruct Hb as [Hb Hov].
    rewrite (Hfree b Hb Hroom) in Hov. discriminate.
Qed.


(** X13: [GET /rooms/available] compares inclusively and reads every row.
    A room is left out as soon as one stored booking of it, cancelled or not,
    starts or ends between [start_time] and [end_time], both included: a
    booking that ends exactly at [start_time] hides the room, while
    [checkRoomAvailability] does not count it. *)
Theorem get_rooms_available_inclusive
        (st : Store) (s e : Date) (r : Room.t) (b : Booking) :
  In b (bookings st) ->
  roomId b = Room.id r ->
  s <= e ->
  (s <= startTime b <= e \/ s <= endTime b <= e) ->
  (forall l, get_rooms_available st (Some s) (Some e) = mkResponse 200 (RoomsJson l) ->
             ~ In r l)
  /\ (startTime b < endTime b -> endTime b = s -> s < e ->
      forall x, availability_where (Room.id r) s e x b = false).
Proof.
  intros Hb Hroom Hse Hin. split.
  - intros l Hlist Hr.
    unfold get_rooms_available in Hlist. inversion Hlist as [Hl]. clear Hlist.
    rewrite <- Hl in Hr. apply get_rooms_available_In in Hr.
    destruct Hr as [_ Hfree].
    assert (Hav : overlap_available b s e = true).
    { apply overlap_available_spec. tauto. }
    rewrite (Hfree b Hb Hroom) in Hav. discriminate.
  - intros Hvalid Hend Hlt x. unfold availability_where.
    assert (Hov : overlap_where b s e = false).
    { rewrite overlap_where_sql. apply not_true_is_false. intros Hov.
      apply overlap_sql_spec in Hov. lia. }
    rewrite Hov. now rewrite andb_false_r.
Qed.

(** *** The booking form *)

(** X14: the booking form sends a request only for an interval that starts
    after the current time and ends after it starts; a booking stored
    through the form has [start < end], is active and belongs to the
    caller. *)
Theorem handleSubmit_sends_valid
        (now created : Date) (st st' : Store) (user : User.t) (room : Z)
        (formStart formEnd : Date) (note : option string) (resp : Response) :
  handleSubmit now created st user room formStart formEnd note = (Submitted resp, st') ->
  now < formStart
  /\ formStart < formEnd
  /\ post_bookings created st user
                   (Body.mk (Some room) None (Some formStart) (Some formEnd) note)
     = (resp, st')
  /\ (status resp = 201 ->
      exists b,
        bookings st' = bookings st ++ [b]
        /\ startTime b = formStart /\ endTime b = formEnd
        /\ startTime b < endTime b
        /\ roomId b = room
        /\ userId b = User.id user
        /\ deletedAt b = None).
Proof.
  unfold handleSubmit.
  destruct (formStart <=? now) eqn:Hfuture; [discriminate|].
  destruct (formEnd <=? formStart) eqn:Horder; [discriminate|].
  apply Z.leb_gt in Hfuture, Horder.
  destruct (post_bookings created st user _) as [r st1] eqn:Hpost.
  intros Heq. inversion Heq; subst. clear Heq.
  repeat split; trivial.
  intros Hok.
  destruct (Z.eq_dec room 0) as [Hzero | Hroom].
  { rewrite post_bookings_missing in Hpost.
    - inversion Hpost; subst. discriminate.
    - left. subst room. reflexivity. }
  rewrite (post_bookings_own created st user room formStart formEnd note Hroom) in Hpost.
  destruct (createBookingSafe created st _) as [[b|m] st2] eqn:Hc;
    simpl in Hpost; inversion Hpost; subst; clear Hpost.
  - apply createBookingSafe_Ok in Hc.
    destruct Hc as (Hrows & (Hbu & Hbr & Hbs & Hbe & _ & Hdel) & _).
    simpl in *. exists b. repeat split; trivial. lia.
  - simpl in Hok. destruct (includes m "already booked" || includes m "unique_booking");
      discriminate.
Qed.

(** *** The room routes *)

Lemma find_room_exists (rs : list Room.t) (room : Z) :
  (exists r, In r rs /\ Room.id r = room) ->
  exists r, find (fun r' => Room.id r' =? room) rs = Some r
            /\ In r rs /\ Room.id r = room.
Proof.
  intros [r [Hin Hid]].
  destruct (find (fun r' => Room.id r' =? room) rs) as [r0|] eqn:Hfind.
  - exists r0. split; [reflexivity|]. apply find_some in Hfind.
    destruct Hfind as [Hin0 Hid0]. apply Z.eqb_eq in Hid0. now split.
  - exfalso. apply (find_none _ _ Hfind) in Hin.
    apply Z.eqb_neq in Hin. contradiction.
Qed.

Lemma filter_all {A : Type} (f : A -> bool) (l : list A) :
  (forall x, In x l -> f x = true) -> filter f l = l.
Proof.
  induction l as [|x l IH]; simpl; intros Hall; [reflexivity|].
  rewrite (Hall x (or_introl eq_refl)). f_equal. apply IH.
  intros y Hy. apply Hall. now right.
Qed.

Lemma room_delete_empty (st : Store) (room : Z) (r : Room.t) :
  find (fun r' => Room.id r' =? room) (rooms st) = Some r ->
  (forall b, In b (bookings st) -> roomId b <> room) ->
  room_delete st room
  = (Ok r, set_rooms st (filter (fun r' => negb (Room.id r' =? room)) (rooms st))).
Proof.
  intros Hfind Hnone. unfold room_delete. rewrite Hfind.
  destruct room_onDelete.
  - rewrite filter_all.
    + now destruct st.
    + intros b Hb. apply negb_true_iff. apply Z.eqb_neq. now apply Hnone.
  - replace (existsb (fun b => roomId b =? room) (bookings st)) with false;
      [reflexivity|].
    symmetry. apply not_true_is_false. intros Hex.
    apply existsb_exists in Hex. destruct Hex as [b [Hb Hroom]].
    apply Z.eqb_eq in Hroom. exact (Hnone b Hb Hroom).
Qed.

(** X15: when an admin deletes a room, the answer is 200 with the number
    of all bookings of the room, the room is gone and so is every booking of
    it, the cancelled ones included; bookings of other rooms, users and the
    sequence are as before. *)
Theorem delete_room_by_admin (st : Store) (user : User.t) (room : Z) :
  is_admin user = true ->
  (exists r, In r (rooms st) /\ Room.id r = room) ->
  exists st',
    delete_room st user room
    = (mkRoomResponse 200
         (RoomDeletedWithBookings
            (List.length (filter (fun b => roomId b =? room) (bookings st)))),
       st')
    /\ bookings st' = filter (fun b => negb (roomId b =? room)) (bookings st)
    /\ rooms st' = filter (fun r => negb (Room.id r =? room)) (rooms st)
    /\ users st' = users st
    /\ booking_seq st' = booking_seq st
    /\ (forall b, In b (bookings st') -> roomId b <> room)
    /\ (forall b, In b (bookings st) -> roomId b <> room -> In b (bookings st')).
Proof.
  intros Hrole Hex.
  destruct (find_room_exists (rooms st) room Hex) as (r & Hfind & _).
  unfold delete_room. rewrite Hfind, Hrole. rewrite andb_false_r.
  rewrite (room_delete_empty (booking_deleteMany st room) room r).
  - eexists. split; [reflexivity|]. simpl. repeat split.
    + intros b Hb. apply filter_In in Hb. destruct Hb as [_ Hb].
      apply negb_true_iff in Hb. now apply Z.eqb_neq.
    + intros b Hb Hroom. apply filter_In. split; [exact Hb|].
      apply negb_true_iff. now apply Z.eqb_neq.
  - exact Hfind.
  - simpl. intros b Hb. apply filter_In in Hb. destruct Hb as [_ Hb].
    apply negb_true_iff in Hb. now apply Z.eqb_neq.
Qed.

(** X16: a caller who is not an admin never removes an active booking by
    deleting a room.  The answer is 200 only for a room the caller owns that
    has no active booking; then the room is removed and every active booking
    of the store stays; in every other case the store is unchanged. *)
Theorem delete_room_by_user (st : Store) (user : User.t) (room : Z) :
  is_admin user = false ->
  (forall b, In b (bookings st) -> deletedAt b = None ->
             In b (bookings (snd (delete_room st user room))))
  /\ (room_status (fst (delete_room st user room)) = 200 ->
      (exists r, In r (rooms st) /\ Room.id r = room
                 /\ Room.ownerId r = User.id user)
      /\ (forall b, In b (bookings st) -> roomId b = room -> deletedAt b <> None)
      /\ rooms (snd (delete_room st user room))
         = filter (fun r => negb (Room.id r =? room)) (rooms st))
  /\ (room_status (fst (delete_room st user room)) <> 200 ->
      snd (delete_room st user room) = st).
Proof.
  intros Hrole. unfold delete_room. rewrite Hrole.
  destruct (find _ (rooms st)) as [r|] eqn:Hfind; simpl;
    [|split; [auto | split; [discriminate | reflexivity]]].
  rewrite andb_true_r.
  destruct (Room.ownerId r =? User.id user) eqn:Hown; simpl;
    [|split; [auto | split; [discriminate | reflexivity]]].
  destruct (filter (fun b => is_null (deletedAt b))
                   (filter (fun b => roomId b =? room) (bookings st)))
    as [|a l] eqn:Hactive; simpl;
    [|split; [auto | split; [discriminate | reflexivity]]].
  assert (Hnone : forall b, In b (bookings st) -> roomId b = room -> deletedAt b <> None).
  { intros b Hb Hroom Hact.
    assert (Hin : In b (filter (fun b => is_null (deletedAt b))
                               (filter (fun b => roomId b =? room) (bookings st)))).
    { apply filter_In. split; [|now rewrite Hact].
      apply filter_In. split; [exact Hb | now apply Z.eqb_eq]. }
    rewrite Hactive in Hin. destruct Hin. }
  unfold room_delete. rewrite Hfind.
  destruct room_onDelete; simpl.
  - split; [|split; [|intros Hno; now elim Hno]].
    + intros b Hb Hact. apply filter_In. split; [exact Hb|].
      apply negb_true_iff. apply Z.eqb_neq. intros Hroom.
      exact (Hnone b Hb Hroom Hact).
    + intros _. split; [|split; trivial].
      apply find_some in Hfind. destruct Hfind as [Hin Hid].
      apply Z.eqb_eq in Hid, Hown. now exists r.
  - destruct (existsb (fun b => roomId b =? room) (bookings st)); simpl.
    + split; [auto | split; [discriminate | reflexivity]].
    + split; [auto|]. split; [|intros Hno; now elim Hno].
      intros _. split; [|split; trivial].
      apply find_some in Hfind. destruct Hfind as [Hin Hid].
      apply Z.eqb_eq in Hid, Hown. now exists r.
Qed.

Lemma find_map_update (rs : list Room.t) (room : Z) (body : RoomBody.t) :
  find (fun r => Room.id r =? room)
       (map (fun r' => if Room.id r' =? room then room_update r' body else r') rs)
  = match find (fun r => Room.id r =? room) rs with
    | Some r => Some (room_update r body)
    | None => None
    end.
Proof.
  induction rs as [|r rs IH]; simpl; [reflexivity|].
  destruct (Room.id r =? room) eqn:Hid; simpl.
  - now rewrite Hid.
  - now rewrite Hid, IH.
Qed.

(** X17: [PUT /rooms/:id] changes a room only for its owner or an admin,
    and then only its name, capacity and description: every row keeps its
    id and its owner, the other rooms and the tables [bookings] and [users]
    are untouched, and [GET /rooms/:id] then answers with the room the
    update returned.  Any other answer leaves the store as it was. *)
Theorem put_room_effect (st : Store) (user : User.t) (room : Z) (body : RoomBody.t) :
  bookings (snd (put_room st user room body)) = bookings st
  /\ users (snd (put_room st user room body)) = users st
  /\ map Room.id (rooms (snd (put_room st user room body))) = map Room.id (rooms st)
  /\ map Room.ownerId (rooms (snd (put_room st user room body)))
     = map Room.ownerId (rooms st)
  /\ (forall r, In r (rooms st) -> Room.id r <> room ->
                In r (rooms (snd (put_room st user room body))))
  /\ (room_status (fst (put_room st user room body)) = 200 ->
      exists r,
        In r (rooms st) /\ Room.id r = room
        /\ (Room.ownerId r = User.id user \/ is_admin user = true)
        /\ fst (put_room st user room body)
           = mkRoomResponse 200 (RoomJson (room_update r body))
        /\ get_room (snd (put_room st user room body)) room
           = fst (put_room st user room body))
  /\ (room_status (fst (put_room st user room body)) <> 200 ->
      snd (put_room st user room body) = st).
Proof.
  unfold put_room.
  destruct (find (fun r => Room.id r =? room) (rooms st)) as [r|] eqn:Hfind; simpl;
    [|repeat split; trivial; discriminate].
  destruct (negb (Room.ownerId r =? User.id user) && negb (is_admin user)) eqn:Hgate;
    simpl; [repeat split; trivial; discriminate|].
  split; [reflexivity|]. split; [reflexivity|].
  split; [|split; [|split; [|split]]].
  - rewrite map_map. apply map_ext. intros r'. now destruct (Room.id r' =? room).
  - rewrite map_map. apply map_ext. intros r'. now destruct (Room.id r' =? room).
  - intros r' Hin Hid. apply in_map_iff. exists r'. split; [|exact Hin].
    apply Z.eqb_neq in Hid. now rewrite Hid.
  - intros _. exists r.
    pose proof (find_some _ _ Hfind) as [Hin Hid]. apply Z.eqb_eq in Hid.
    split; [exact Hin|]. split; [exact Hid|]. split; [|split; [reflexivity|]].
    + apply andb_false_iff in Hgate. destruct Hgate as [Hown | Hadm].
      * left. apply negb_false_iff in Hown. now apply Z.eqb_eq.
      * right. now apply negb_false_iff in Hadm.
    + unfold get_room. simpl. now rewrite find_map_update, Hfind.
  - intros Hno. now elim Hno.
Qed.

(** *** The auth routes *)

Lemma user_create_Ok (now : Date) (t t' : Accounts) (username email password role : string)
      (a : Account.t) :
  user_create now t username email password role = (Ok a, t') ->
  a = Account.mk (account_seq t) username email password role now
  /\ accounts t' = accounts t ++ [a]
  /\ account_seq t' = account_seq t + 1
  /\ (forall b, In b (accounts t) ->
                Account.email b <> email /\ Account.username b <> username).
Proof.
  unfold user_create.
  destruct (existsb _ (accounts t)) eqn:Hex; [discriminate|].
  intros Heq. inversion Heq; subst. repeat split.
  - intros Hmail.
    assert (Hyes : existsb (fun a => String.eqb (Account.email a) email
                                     || String.eqb (Account.username a) username)
                           (accounts t) = true).
    { apply existsb_exists. exists b. split; [assumption|].
      apply orb_true_iff. left. now apply String.eqb_eq. }
    congruence.
  - intros Hname.
    assert (Hyes : existsb (fun a => String.eqb (Account.email a) email
                                     || String.eqb (Account.username a) username)
                           (accounts t) = true).
    { apply existsb_exists. exists b. split; [assumption|].
      apply orb_true_iff. right. now apply String.eqb_eq. }
    congruence.
Qed.

Lemma user_create_Throw (now : Date) (t t' : Accounts)
      (username email password role m : string) :
  user_create now t username email password role = (Throw m, t') ->
  accounts t' = accounts t /\ account_seq t' = account_seq t + 1.
Proof.
  unfold user_create.
  destruct (existsb _ (accounts t)); [|discriminate].
  intros Heq. inversion Heq; subst. split; reflexivity.
Qed.

(** What a registration that is answered 201 has done. *)
Lemma register_201 (now : Date) (salt : string) (t t' : Accounts) (body : Credentials.t)
      (resp : AuthResponse) :
  register now salt t body = (resp, t') ->
  auth_status resp = 201 ->
  exists username email password,
    body = Credentials.mk (Some username) (Some email) (Some password)
    /\ username <> "" /\ email <> "" /\ password <> ""
    /\ user_create now t username email (bcrypt_hash password salt)
                   (if (List.length (accounts t) =? 0)%nat then "admin" else "user")
       = (Ok (Account.mk (account_seq t) username email (bcrypt_hash password salt)
                         (if (List.length (accounts t) =? 0)%nat then "admin" else "user")
                         now), t')
    /\ resp = mkAuthResponse 201
                (SetToken (Profile.mk (account_seq t) username email
                             (if (List.length (accounts t) =? 0)%nat
                              then "admin" else "user")))
                (AuthUser "User registered and logged in successfully"
                          (Profile.mk (account_seq t) username email
                             (if (List.length (accounts t) =? 0)%nat
                              then "admin" else "user"))).
Proof.
  unfold register. destruct body as [[u|] [e|] [p|]]; simpl;
    try solve [intros Heq; inversion Heq; subst; discriminate].
  destruct (negb (negb (String.eqb u "")) || negb (negb (String.eqb e ""))
            || negb (negb (String.eqb p ""))) eqn:Hfields;
    [intros Heq; inversion Heq; subst; discriminate|].
  destruct (find _ (accounts t)); [intros Heq; inversion Heq; subst; discriminate|].
  destruct (user_create now t u e (bcrypt_hash p salt) _) as [[a|m] t1] eqn:Hc;
    intros Heq; inversion Heq; subst; [|discriminate].
  intros _.
  pose proof (user_create_Ok now t t' u e _ _ a Hc) as (Ha & _).
  rewrite !negb_involutive in Hfields.
  apply orb_false_iff in Hfields. destruct Hfields as [Hfields Hp].
  apply orb_false_iff in Hfields. destruct Hfields as [Hu He].
  apply String.eqb_neq in Hu, He, Hp.
  exists u, e, p. subst a. repeat split; trivial.
Qed.

Lemma register_not_201 (now : Date) (salt : string) (t t' : Accounts)
      (body : Credentials.t) (resp : AuthResponse) :
  register now salt t body = (resp, t') ->
  auth_status resp <> 201 ->
  accounts t' = accounts t
  /\ (account_seq t' = account_seq t \/ account_seq t' = account_seq t + 1).
Proof.
  unfold register. destruct body as [[u|] [e|] [p|]]; simpl;
    try solve [intros Heq; inversion Heq; subst; auto].
  destruct (negb (negb (String.eqb u "")) || negb (negb (String.eqb e ""))
            || negb (negb (String.eqb p "")));
    [intros Heq; inversion Heq; subst; auto|].
  destruct (find _ (accounts t)); [intros Heq; inversion Heq; subst; auto|].
  destruct (user_create now t u e (bcrypt_hash p salt) _) as [[a|m] t1] eqn:Hc;
    intros Heq; inversion Heq; subst; simpl; intros Hno; [now elim Hno|].
  apply user_create_Throw in Hc. destruct Hc as [Hrows Hseq]. auto.
Qed.

(** X18: the first user to register becomes an admin and every later one a
    plain user.  A registration answered 201 appends one account with the
    given username and email, the hash of the password, and the role
    ["admin"] exactly when the table was empty; no stored account had that
    email or that username; any other answer adds no account. *)
Theorem register_first_is_admin
        (now : Date) (salt : string) (t t' : Accounts) (body : Credentials.t)
        (resp : AuthResponse) :
  register now salt t body = (resp, t') ->
  (auth_status resp = 201 ->
   exists a password,
     accounts t' = accounts t ++ [a]
     /\ Credentials.username body = Some (Account.username a)
     /\ Credentials.email body = Some (Account.email a)
     /\ Credentials.password body = Some password
     /\ Account.password a = bcrypt_hash password salt
     /\ (Account.role a = "admin" <-> accounts t = [])
     /\ (Account.role a = "user" <-> accounts t <> [])
     /\ auth_cookie resp = SetToken (profile_of a)
     /\ (forall b, In b (accounts t) ->
                   Account.email b <> Account.email a
                   /\ Account.username b <> Account.username a))
  /\ (auth_status resp <> 201 -> accounts t' = accounts t).
Proof.
  intros Hrun. split.
  - intros Hok.
    destruct (register_201 now salt t t' body resp Hrun Hok)
      as (u & e & p & Hbody & _ & _ & _ & Hc & Hresp).
    apply user_create_Ok in Hc. destruct Hc as (_ & Hrows & _ & Hfresh).
    eexists. exists p. split; [exact Hrows|]. subst body resp. simpl.
    do 4 (split; [reflexivity|]).
    split; [|split; [|split; [reflexivity | exact Hfresh]]].
    + destruct (accounts t); simpl; split; intros Hr; try reflexivity; discriminate.
    + destruct (accounts t); simpl; split; intros Hr;
        try reflexivity; try discriminate; now elim Hr.
  - intros Hno. now apply (register_not_201 now salt t t' body resp Hrun).
Qed.

Lemma promote_cases (t : Accounts) (requester : User.t) (username : option string) :
  (snd (promote t requester username) = t
   /\ forall name, auth_payload (fst (promote t requester username))
                   <> PromotedUser "Promoted" name)
  \/ exists name target,
      username = Some name
      /\ is_admin requester = true
      /\ In target (accounts t)
      /\ Account.username target = name
      /\ Account.role target <> "admin"
      /\ promote t requester username
         = (mkAuthResponse 200 NoCookie (PromotedUser "Promoted" name),
            mkAccounts
              (map (fun a => if String.eqb (Account.username a) name
                             then set_role a "admin" else a) (accounts t))
              (account_seq t)).
Proof.
  unfold promote.
  destruct (is_admin requester) eqn:Hrole; simpl;
    [|left; split; [reflexivity | discriminate]].
  destruct username as [name|]; [|left; split; [reflexivity | discriminate]].
  destruct (negb (truthy_string (Some name)));
    [left; split; [reflexivity | discriminate]|].
  destruct (find _ (accounts t)) as [target|] eqn:Hfind;
    [|left; split; [reflexivity | discriminate]].
  destruct (String.eqb (Account.role target) "admin") eqn:Hadm;
    [left; split; [reflexivity | discriminate]|].
  right. exists name, target.
  apply find_some in Hfind. destruct Hfind as [Hin Hname].
  apply String.eqb_eq in Hname. apply String.eqb_neq in Hadm.
  repeat split; trivial.
Qed.

Lemma promote_map_fields (name : string) (rows : list Account.t) :
  map Account.id (map (fun a => if String.eqb (Account.username a) name
                                then set_role a "admin" else a) rows)
  = map Account.id rows
  /\ map Account.email (map (fun a => if String.eqb (Account.username a) name
                                      then set_role a "admin" else a) rows)
     = map Account.email rows
  /\ map Account.username (map (fun a => if String.eqb (Account.username a) name
                                         then set_role a "admin" else a) rows)
     = map Account.username rows.
Proof.
  rewrite !map_map. repeat split; apply map_ext; intros a;
    now destruct (String.eqb (Account.username a) name).
Qed.

Lemma NoDup_snoc {A : Type} (l : list A) (x : A) :
  NoDup l -> ~ In x l -> NoDup (l ++ [x]).
Proof.
  intros Hnd Hx. apply (Permutation_NoDup (l := x :: l)).
  - apply Permutation_cons_append.
  - now constructor.
Qed.

Lemma auth_handle_inv (t : Accounts) (rq : AuthRequest) :
  accounts_inv t -> accounts_inv (snd (auth_handle t rq)).
Proof.
  intros (Hpos & Hlt & Hsorted & Hmail & Hname & Hroles & Hfirst).
  destruct rq as [now salt body | requester username]; simpl.
  - destruct (register now salt t body) as [resp t'] eqn:Hrun. simpl.
    destruct (Z.eq_dec (auth_status resp) 201) as [Hok | Hno].
    + destruct (register_201 now salt t t' body resp Hrun Hok)
        as (u & e & p & _ & _ & _ & _ & Hc & _).
      apply user_create_Ok in Hc. destruct Hc as (_ & Hrows & Hseq & Hfresh).
      unfold accounts_inv. rewrite Hrows, Hseq.
      split; [lia|]. split; [|split; [|split; [|split; [|split]]]].
      * apply Forall_app. split.
        -- eapply Forall_impl; [|exact Hlt]. simpl. intros; lia.
        -- constructor; [simpl; lia | constructor].
      * apply StronglySorted_snoc; [exact Hsorted|].
        eapply Forall_impl; [|exact Hlt]. unfold account_id_lt. simpl. intros; lia.
      * rewrite map_app. simpl. apply NoDup_snoc; [exact Hmail|].
        intros Hin. apply in_map_iff in Hin. destruct Hin as [b [Hb Hin]].
        now destruct (Hfresh b Hin).
      * rewrite map_app. simpl. apply NoDup_snoc; [exact Hname|].
        intros Hin. apply in_map_iff in Hin. destruct Hin as [b [Hb Hin]].
        now destruct (Hfresh b Hin).
      * apply Forall_app. split; [exact Hroles|].
        constructor; [|constructor]. simpl.
        destruct (List.length (accounts t) =? 0)%nat; auto.
      * destruct (accounts t); simpl; [reflexivity | exact Hfirst].
    + destruct (register_not_201 now salt t t' body resp Hrun Hno) as [Hrows Hseq].
      unfold accounts_inv. rewrite Hrows.
      split; [lia|]. split; [|repeat split; trivial].
      eapply Forall_impl; [|exact Hlt]. simpl. intros; lia.
  - destruct (promote_cases t requester username)
      as [[Hsame _] | (name & target & _ & _ & _ & _ & _ & Hrun)].
    + rewrite Hsame. repeat split; trivial.
    + rewrite Hrun. unfold accounts_inv. simpl.
      destruct (promote_map_fields name (accounts t)) as (Hids & Hmails & Hnames).
      split; [exact Hpos|]. split; [|split; [|split; [|split; [|split]]]].
      * rewrite Forall_forall in *. intros a Ha.
        apply in_map_iff in Ha. destruct Ha as [b [Hb Hin]]. subst a.
        specialize (Hlt b Hin). now destruct (String.eqb (Account.username b) name).
      * apply StronglySorted_map; [|exact Hsorted].
        intros a b. unfold account_id_lt.
        now destruct (String.eqb (Account.username a) name),
                     (String.eqb (Account.username b) name).
      * now rewrite Hmails.
      * now rewrite Hnames.
      * rewrite Forall_forall in *. intros a Ha.
        apply in_map_iff in Ha. destruct Ha as [b [Hb Hin]]. subst a.
        destruct (String.eqb (Account.username b) name); [now left | now apply Hroles].
      * destruct (accounts t) as [|first rest]; simpl; [exact I|].
        now destruct (String.eqb (Account.username first) name).
Qed.

Lemma registered_inv (t : Accounts) : registered t -> accounts_inv t.
Proof.
  induction 1 as [|t rq Hreg IH].
  - unfold accounts_inv. simpl. repeat split; try lia; constructor.
  - now apply auth_handle_inv.
Qed.

(** X19: in every table of users that registrations and promotions produce
    from an empty one, no two accounts share an email, a username or an id,
    ids are positive and in increasing order, every role is ["admin"] or
    ["user"], and the first account is an admin: once someone has
    registered there is always an admin. *)
Theorem registered_accounts (t : Accounts) :
  registered t ->
  NoDup (map Account.email (accounts t))
  /\ NoDup (map Account.username (accounts t))
  /\ StronglySorted account_id_lt (accounts t)
  /\ Forall (fun a => 0 < Account.id a < account_seq t) (accounts t)
  /\ Forall (fun a => Account.role a = "admin" \/ Account.role a = "user") (accounts t)
  /\ (accounts t <> [] -> exists a, In a (accounts t) /\ Account.role a = "admin").
Proof.
  intros Hreg.
  destruct (registered_inv t Hreg) as (_ & Hlt & Hsorted & Hmail & Hname & Hroles & Hfirst).
  repeat split; trivial.
  destruct (accounts t) as [|first rest]; [intros Hne; now elim Hne|].
  intros _. exists first. split; [now left | exact Hfirst].
Qed.

(** X20: the auth routes keep every account.  After a registration or a
    promotion the table is the old accounts in their order, each one
    unchanged or with its role now ["admin"], followed by at most one new
    account: ids, usernames, emails and password hashes never change, no
    account is removed and no admin loses the role. *)
Theorem auth_handle_keeps_accounts (t : Accounts) (rq : AuthRequest) :
  exists kept added,
    accounts (snd (auth_handle t rq)) = kept ++ added
    /\ Forall2 account_evolves (accounts t) kept
    /\ (List.length added <= 1)%nat
    /\ (forall a, In a (accounts t) -> Account.role a = "admin" ->
                  exists a', In a' kept
                             /\ Account.id a' = Account.id a
                             /\ Account.role a' = "admin").
Proof.
  assert (Hrefl : forall rows, Forall2 account_evolves rows rows).
  { induction rows; constructor; trivial. now left. }
  assert (Hsame : forall t', accounts t' = accounts t ->
                             exists kept added,
                               accounts t' = kept ++ added
                               /\ Forall2 account_evolves (accounts t) kept
                               /\ (List.length added <= 1)%nat
                               /\ (forall a, In a (accounts t) ->
                                             Account.role a = "admin" ->
                                             exists a', In a' kept
                                                        /\ Account.id a' = Account.id a
                                                        /\ Account.role a' = "admin")).
  { intros t' Hrows. exists (accounts t), []. rewrite Hrows, app_nil_r.
    repeat split; trivial; [simpl; lia|].
    intros a Ha Hr. now exists a. }
  destruct rq as [now salt body | requester username]; simpl.
  - destruct (register now salt t body) as [resp t'] eqn:Hrun. simpl.
    destruct (Z.eq_dec (auth_status resp) 201) as [Hok | Hno].
    + destruct (register_201 now salt t t' body resp Hrun Hok)
        as (u & e & p & _ & _ & _ & _ & Hc & _).
      apply user_create_Ok in Hc. destruct Hc as (_ & Hrows & _).
      eexists (accounts t), [_]. split; [exact Hrows|].
      repeat split; trivial. intros a Ha Hr. now exists a.
    + apply Hsame. now apply (register_not_201 now salt t t' body resp Hrun).
  - destruct (promote_cases t requester username)
      as [[Hst _] | (name & target & _ & _ & _ & _ & _ & Hrun)].
    + apply Hsame. now rewrite Hst.
    + rewrite Hrun. simpl.
      eexists _, []. rewrite app_nil_r. split; [reflexivity|].
      split; [|split; [simpl; lia|]].
      * assert (Hall : forall rows,
                   Forall2 account_evolves rows
                           (map (fun a => if String.eqb (Account.username a) name
                                          then set_role a "admin" else a) rows)).
        { induction rows as [|a rows IH]; simpl; constructor; trivial.
          destruct (String.eqb (Account.username a) name); [now right | now left]. }
        apply Hall.
      * intros a Ha Hr.
        exists (if String.eqb (Account.username a) name then set_role a "admin" else a).
        split; [apply in_map_iff; now exists a|].
        now destruct (String.eqb (Account.username a) name).
Qed.

Lemma find_snoc_fresh {A : Type} (f : A -> bool) (l : list A) (x : A) :
  (forall y, In y l -> f y = false) -> f x = true -> find f (l ++ [x]) = Some x.
Proof.
  induction l as [|y l IH]; simpl; intros Hall Hx.
  - now rewrite Hx.
  - rewrite (Hall y (or_introl eq_refl)). apply IH; trivial.
    intros z Hz. apply Hall. now right.
Qed.

Lemma NoDup_map_unique {A B : Type} (f : A -> B) (l : list A) (a b : A) :
  NoDup (map f l) -> In a l -> In b l -> f a = f b -> a = b.
Proof.
  induction l as [|x l IH]; simpl; intros Hnd Ha Hb Heq; [destruct Ha|].
  apply NoDup_cons_iff in Hnd. destruct Hnd as [Hfresh Hnd].
  destruct Ha as [Ha | Ha], Hb as [Hb | Hb].
  - congruence.
  - exfalso. apply Hfresh. subst x. rewrite Heq. now apply in_map.
  - exfalso. apply Hfresh. subst x. rewrite <- Heq. now apply in_map.
  - now apply IH.
Qed.

(** X21: registering then logging in.  If [bcrypt.compare] accepts a
    password against its own hash, then after a registration answered 201 a
    login with the same body is answered 200 with the same user and token,
    and [GET /auth/me] for the id in the token shows that user. *)
Theorem register_then_login
        (now : Date) (salt : string) (t t' : Accounts) (body : Credentials.t)
        (resp : AuthResponse) :
  registered t ->
  (forall password s, bcrypt_compare password (bcrypt_hash password s) = true) ->
  register now salt t body = (resp, t') ->
  auth_status resp = 201 ->
  exists profile,
    resp = mkAuthResponse 201 (SetToken profile)
             (AuthUser "User registered and logged in successfully" profile)
    /\ login t' body = mkAuthResponse 200 (SetToken profile) (AuthUser "Logged in" profile)
    /\ me t' (Profile.id profile) = mkAuthResponse 200 NoCookie (MeUser profile).
Proof.
  intros Hreg Hbcrypt Hrun Hok.
  destruct (register_201 now salt t t' body resp Hrun Hok)
    as (u & e & p & Hbody & Hu & He & Hp & Hc & Hresp).
  apply user_create_Ok in Hc. destruct Hc as (_ & Hrows & _ & Hfresh).
  eexists. split; [exact Hresp|]. subst body. split.
  - unfold login, truthy_string. simpl.
    apply String.eqb_neq in Hu, He, Hp. rewrite Hu, He, Hp. simpl.
    rewrite Hrows, find_snoc_fresh.
    + simpl. now rewrite Hbcrypt.
    + intros b Hb. destruct (Hfresh b Hb) as [Hmail _].
      apply String.eqb_neq in Hmail. rewrite Hmail. apply andb_false_r.
    + simpl. now rewrite !String.eqb_refl.
  - unfold me. simpl. rewrite Hrows, find_snoc_fresh; [reflexivity| |apply Z.eqb_refl].
    intros b Hb. apply Z.eqb_neq.
    destruct (registered_inv t Hreg) as (_ & Hlt & _).
    rewrite Forall_forall in Hlt. specialize (Hlt b Hb). lia.
Qed.

(** X22: a login is answered in one of three ways.  A missing or empty
    field gives 400 "Username, email and password are required"; a username
    and email that match no account, and a password that [bcrypt.compare]
    rejects, both give the same 400 "Invalid credentials" without a cookie;
    200 is given only for a stored account with that username and email
    whose hash accepts the password, and the token carries that account. *)
Theorem login_answers (t : Accounts) (body : Credentials.t) :
  (truthy_string (Credentials.username body) = false
   \/ truthy_string (Credentials.email body) = false
   \/ truthy_string (Credentials.password body) = false ->
   login t body
   = mkAuthResponse 400 NoCookie (AuthMessage "Username, email and password are required"))
  /\ (forall u e p,
         body = Credentials.mk (Some u) (Some e) (Some p) ->
         u <> "" -> e <> "" -> p <> "" ->
         login t body = mkAuthResponse 400 NoCookie (AuthMessage "Invalid credentials")
         \/ exists a,
             In a (accounts t)
             /\ Account.username a = u
             /\ Account.email a = e
             /\ bcrypt_compare p (Account.password a) = true
             /\ login t body
                = mkAuthResponse 200 (SetToken (profile_of a))
                                 (AuthUser "Logged in" (profile_of a))).
Proof.
  split.
  - unfold login. destruct body as [[u|] [e|] [p|]]; simpl; try reflexivity.
    intros [Hu | [He | Hp]].
    + now rewrite Hu.
    + rewrite He. now rewrite orb_true_r.
    + rewrite Hp. now rewrite orb_true_r.
  - intros u e p Hbody Hu He Hp. subst body. unfold login, truthy_string. simpl.
    apply String.eqb_neq in Hu, He, Hp. rewrite Hu, He, Hp. simpl.
    destruct (find _ (accounts t)) as [a|] eqn:Hfind; [|now left].
    destruct (bcrypt_compare p (Account.password a)) eqn:Hcmp; simpl; [|now left].
    right. exists a. apply find_some in Hfind. destruct Hfind as [Hin Hmatch].
    apply andb_true_iff in Hmatch. destruct Hmatch as [Hau Hae].
    apply String.eqb_eq in Hau, Hae. repeat split; trivial.
Qed.

(** X23: only an admin promotes.  [POST /auth/promote] changes the table
    only when the caller's token says ["admin"] and the username is that of
    a stored account that is not yet an admin; then every account with that
    username gets the role ["admin"] and nothing else changes.  A caller
    who is not an admin is answered 403; an account that is already an admin
    gives 200 "Already admin" and no change. *)
Theorem promote_effect (t : Accounts) (requester : User.t) (username : option string) :
  (is_admin requester = false ->
   promote t requester username
   = (mkAuthResponse 403 NoCookie (AuthMessage "Forbidden"), t))
  /\ (snd (promote t requester username) <> t ->
      exists name target,
        username = Some name
        /\ is_admin requester = true
        /\ In target (accounts t)
        /\ Account.username target = name
        /\ Account.role target <> "admin"
        /\ promote t requester username
           = (mkAuthResponse 200 NoCookie (PromotedUser "Promoted" name),
              mkAccounts
                (map (fun a => if String.eqb (Account.username a) name
                               then set_role a "admin" else a) (accounts t))
                (account_seq t)))
  /\ (forall name target,
         is_admin requester = true ->
         username = Some name -> name <> "" ->
         registered t ->
         In target (accounts t) ->
         Account.username target = name ->
         Account.role target = "admin" ->
         promote t requester username
         = (mkAuthResponse 200 NoCookie (AuthMessage "Already admin"), t)).
Proof.
  split; [|split].
  - intros Hrole. unfold promote. now rewrite Hrole.
  - intros Hchanged.
    destruct (promote_cases t requester username) as [[Hsame _] | Hcase].
    + now elim Hchanged.
    + exact Hcase.
  - intros name target Hrole Hname Hne Hreg Hin Htarget Hadm.
    unfold promote. rewrite Hrole, Hname. unfold truthy_string.
    apply String.eqb_neq in Hne. rewrite Hne. simpl.
    destruct (find _ (accounts t)) as [found|] eqn:Hfind.
    + apply find_some in Hfind. destruct Hfind as [Hfin Hfname].
      apply String.eqb_eq in Hfname.
      destruct (registered_inv t Hreg) as (_ & _ & _ & _ & Hnames & _).
      assert (Heq : found = target).
      { apply (NoDup_map_unique Account.username (accounts t)); trivial. congruence. }
      subst found. apply String.eqb_eq in Hadm. now rewrite Hadm.
    + exfalso. apply (find_none _ _ Hfind) in Hin.
      apply String.eqb_neq in Hin. contradiction.
Qed.

End BookingEngine.

(** ** Concrete runs *)

Ltac prove_wf :=
  unfold wf_store; simpl;
  repeat split; repeat constructor; simpl; try lia; intuition discriminate.

Lemma st_active_wf : wf_store st_active.
Proof. prove_wf. Qed.

Lemma st_cancelled_wf : wf_store st_cancelled.
Proof. prove_wf. Qed.

Lemma st_three_wf : wf_store st_three.
Proof. prove_wf. Qed.

Ltac no_conflict := apply overlappingBookings_nil; reflexivity.

Ltac no_duplicate :=
  let b := fresh "b" in
  let Hin := fresh "Hin" in
  let Hd := fresh "Hd" in
  intros b Hin Hd; simpl in Hin;
  repeat (destruct Hin as [Hin | Hin]; [subst b|]); try contradiction;
  unfold duplicate_of in Hd; simpl in Hd; intuition discriminate.

(** Over [[10, 20)] and [[15, 25)] the clauses and the half-open test agree;
    [[10, 20)] and [[20, 30)] do not conflict. *)
Lemma overlap_clauses_half_open_witness :
  (overlap_sql bob_10_20 15 25 = true <-> half_open_conflict bob_10_20 15 25)
  /\ overlap_sql bob_10_20 20 30 = false.
Proof.
  split.
  - apply (overlap_clauses_half_open bob_10_20 15 25); simpl; lia.
  - apply (overlap_clauses_half_open bob_10_20 20 30); simpl; [lia | lia | now left].
Defined.

(** C2 fails as stated: with only a cancelled booking of Bob over
    [[10, 20)] in the store, no active booking conflicts with Bob's new
    request for [[10, 20)], and yet no booking is inserted. *)
Lemma createBookingSafe_cancelled_duplicate :
  overlappingBookings st_cancelled (NewBooking.mk 2 1 10 20 None) = []
  /\ is_Ok (fst (createBookingSafe sample_message 6 st_cancelled
                                   (NewBooking.mk 2 1 10 20 None))) = false
  /\ bookings (snd (createBookingSafe sample_message 6 st_cancelled
                                      (NewBooking.mk 2 1 10 20 None)))
     = bookings st_cancelled.
Proof. repeat split. Qed.

(** The three outcomes of [createBookingSafe], each on a store that meets its
    condition. *)
Lemma createBookingSafe_outcomes_witness :
  createBookingSafe sample_message 6 st_active (NewBooking.mk 3 1 15 25 None)
  = (Throw "Room is already booked for this time period", st_active)
  /\ (exists st',
         createBookingSafe sample_message 6 st_cancelled (NewBooking.mk 2 1 10 20 None)
         = (Throw (sample_message P2002), st')
         /\ bookings st' = bookings st_cancelled
         /\ same_tables_but_bookings st_cancelled st')
  /\ (exists b st',
         createBookingSafe sample_message 6 st_cancelled (NewBooking.mk 3 1 10 20 None)
         = (Ok b, st')
         /\ bookings st' = bookings st_cancelled ++ [b]
         /\ same_tables_but_bookings st_cancelled st'
         /\ created_from (NewBooking.mk 3 1 10 20 None) b).
Proof.
  split; [|split].
  - apply (createBookingSafe_outcomes sample_message 6 st_active
                                      (NewBooking.mk 3 1 15 25 None)).
    exists bob_10_20. unfold active_conflict. simpl. intuition reflexivity.
  - apply (createBookingSafe_outcomes sample_message 6 st_cancelled
                                      (NewBooking.mk 2 1 10 20 None)).
    + no_conflict.
    + exists bob_10_20_cancelled. unfold duplicate_of. simpl. intuition reflexivity.
  - apply (createBookingSafe_outcomes sample_message 6 st_cancelled
                                      (NewBooking.mk 3 1 10 20 None)).
    + no_conflict.
    + no_duplicate.
    + reflexivity.
Defined.

(** C4 fails as stated: a request whose interval ends before it starts, and
    one whose interval is empty, are answered 201 and inserted. *)
Lemma post_bookings_accepts_start_after_end :
  post_bookings sample_message 0 st_free bob
                (Body.mk (Some 1) None (Some 20) (Some 10) None)
  = (mkResponse 201 (BookingJson (mkBooking 1 2 1 20 10 None None 0)),
     mkStore [alice; bob; carol] [room_a] [mkBooking 1 2 1 20 10 None None 0] 2)
  /\ post_bookings sample_message 0 st_free bob
                   (Body.mk (Some 1) None (Some 10) (Some 10) None)
     = (mkResponse 201 (BookingJson (mkBooking 1 2 1 10 10 None None 0)),
        mkStore [alice; bob; carol] [room_a] [mkBooking 1 2 1 10 10 None None 0] 2).
Proof. split; reflexivity. Qed.

Lemma post_bookings_validation_witness :
  post_bookings sample_message 0 st_active bob (Body.mk None None (Some 20) (Some 10) None)
  = (mkResponse 400 (Message "room_id, start_time, and end_time are required"), st_active)
  /\ (exists b st',
         post_bookings sample_message 0 st_active bob
                       (Body.mk (Some 1) None (Some 25) (Some 5) None)
         = (mkResponse 201 (BookingJson b), st')
         /\ bookings st' = bookings st_active ++ [b]
         /\ created_from (NewBooking.mk 2 1 25 5 None) b)
  /\ (exists m,
         handleSubmit sample_message 0 0 st_active bob 1 25 5 None
         = (FormError m, st_active)).
Proof.
  split; [|split].
  - apply (post_bookings_validation sample_message 0 st_active bob 1 25 5 None).
    now left.
  - apply (post_bookings_validation sample_message 0 st_active bob 1 25 5 None).
    + lia.
    + discriminate.
    + no_conflict.
    + no_duplicate.
    + reflexivity.
  - apply (post_bookings_validation sample_message 0 st_active bob 1 25 5 None).
    lia.
Defined.

(** At time 15 Bob's booking over [[10, 20)] has started: Bob is refused and
    the booking stays; the admin cancels it, and the row stored under id 1 is
    then cancelled at 16. *)
Lemma delete_booking_started_witness :
  (delete_booking sample_message 15 16 st_active bob 1
   = (mkResponse 400 (Message "Cannot cancel past or ongoing bookings"), st_active)
   /\ getBookingById (snd (delete_booking sample_message 15 16 st_active bob 1)) 1
      = Some bob_10_20)
  /\ delete_booking sample_message 15 16 st_active alice 1
     = (mkResponse 200 (CancelledJson "Booking cancelled successfully"
                                      (set_deletedAt bob_10_20 (Some 16))),
        set_bookings st_active (map (mark_deleted 1 16) (bookings st_active)))
  /\ (forall b,
         In b (bookings (snd (delete_booking sample_message 15 16 st_active alice 1))) ->
         id b = 1 -> deletedAt b = Some 16)
  /\ getBookingById (snd (delete_booking sample_message 15 16 st_active alice 1)) 1
     = None.
Proof.
  assert (Hwf : wf_store st_active) by prove_wf.
  assert (Hstarted : startTime bob_10_20 <= 15) by (simpl; lia).
  destruct (delete_booking_started sample_message 15 16 st_active bob_10_20 bob alice
              Hwf (or_introl eq_refl) eq_refl eq_refl Hstarted)
    as [Howner Hadmin].
  destruct (Howner eq_refl eq_refl) as (H400 & _ & Hstays).
  destruct (Hadmin eq_refl) as (H200 & _ & _ & _ & Hrow & _ & _ & Hget).
  split; [split; [exact H400 | exact Hstays]|].
  split; [exact H200|]. split; [exact Hrow | exact Hget].
Defined.

Ltac all_gone :=
  let b := fresh "b" in
  let Hin := fresh "Hin" in
  let Hid := fresh "Hid" in
  intros b Hin Hid; simpl in Hin;
  repeat (destruct Hin as [Hin | Hin]; [subst b|]); try contradiction;
  simpl in *; discriminate.

(** No booking has id 2147483648, the first number past the Int column, and
    the cancel route answers 500 for it, not 404, to an admin and to a user. *)
Lemma delete_booking_absent_out_of_range :
  (forall b, In b (bookings st_active) -> id b <> 2147483648)
  /\ delete_booking sample_message 5 6 st_active alice 2147483648
     = (mkResponse 500 (Message "Error cancelling booking"), st_active)
  /\ delete_booking sample_message 5 6 st_active bob 2147483648
     = (mkResponse 500 (Message "Error cancelling booking"), st_active).
Proof.
  split; [|split; reflexivity].
  intros b [Hb | []]. subst b. discriminate.
Qed.

(** Booking 1 is already cancelled and booking 9 does not exist: both cancel
    requests are answered 404; after the admin cancels the active booking 1,
    Bob's request for it is answered 404; a request for 2147483648 is
    answered 500. *)
Lemma delete_booking_gone_witness :
  (status (fst (delete_booking sample_message 5 6 st_cancelled bob 1)) = 404
   /\ snd (delete_booking sample_message 5 6 st_cancelled bob 1) = st_cancelled)
  /\ (status (fst (delete_booking sample_message 5 6 st_cancelled alice 9)) = 404
      /\ snd (delete_booking sample_message 5 6 st_cancelled alice 9) = st_cancelled)
  /\ (status (fst (delete_booking sample_message 7 8
                     (snd (delete_booking sample_message 5 6 st_active alice 1)) bob 1))
      = 404
      /\ snd (delete_booking sample_message 7 8
                (snd (delete_booking sample_message 5 6 st_active alice 1)) bob 1)
         = snd (delete_booking sample_message 5 6 st_active alice 1))
  /\ (fst (delete_booking sample_message 5 6 st_active alice 2147483648)
      = mkResponse 500 (Message "Error cancelling booking")
      /\ snd (delete_booking sample_message 5 6 st_active alice 2147483648) = st_active).
Proof.
  split; [|split; [|split]].
  - apply (proj1 (delete_booking_gone sample_message 5 6 st_cancelled bob 1));
      [reflexivity | all_gone].
  - apply (proj1 (delete_booking_gone sample_message 5 6 st_cancelled alice 9));
      [reflexivity | all_gone].
  - apply (proj1 (proj2 (delete_booking_gone sample_message 5 6 st_active alice 1))
                 (fst (delete_booking sample_message 5 6 st_active alice 1))
                 (snd (delete_booking sample_message 5 6 st_active alice 1)));
      reflexivity.
  - destruct (proj2 (proj2 (delete_booking_gone sample_message 5 6 st_active alice
                                                2147483648)) eq_refl)
      as (_ & Hst & _ & H500).
    split; [exact (H500 eq_refl) | exact Hst].
Defined.

(** Carol books [[10, 20)] next to Bob's cancelled booking. *)
Lemma create_then_checkRoomAvailability_witness :
  checkRoomAvailability
    (snd (createBookingSafe sample_message 6 st_cancelled (NewBooking.mk 3 1 10 20 None)))
    1 10 20 None = false
  /\ checkRoomAvailability
       (snd (createBookingSafe sample_message 6 st_cancelled (NewBooking.mk 3 1 10 20 None)))
       1 10 20 (Some 2) = true.
Proof.
  apply (create_then_checkRoomAvailability
           sample_message 6 st_cancelled
           (snd (createBookingSafe sample_message 6 st_cancelled
                                   (NewBooking.mk 3 1 10 20 None)))
           (NewBooking.mk 3 1 10 20 None)
           (mkBooking 2 3 1 10 20 None None 6)).
  - prove_wf.
  - reflexivity.
Defined.

(** Carol's listing of a store with three active bookings. *)
Lemma getActiveBookings_listing_witness :
  exists l,
    get_bookings st_three carol = mkResponse 200 (BookingsJson l)
    /\ l = (if is_admin carol then getActiveBookings st_three None
            else getActiveBookings st_three (Some (User.id carol)))
    /\ StronglySorted start_le l
    /\ Permutation l
         (filter (fun b => is_null (deletedAt b)
                           && (is_admin carol || (userId b =? User.id carol)))
                 (bookings st_three)).
Proof.
  apply (getActiveBookings_listing st_three carol). right. simpl. discriminate.
Defined.


(** A store whose active booking has id 0: excluding 0 leaves it counted. *)
Lemma checkRoomAvailability_exclude_zero_witness :
  checkRoomAvailability st_id_zero 1 10 20 (Some 0) = false.
Proof.
  apply (proj2 (checkRoomAvailability_exclude_zero st_id_zero 1 10 20)
               (mkBooking 0 2 1 10 20 None None 0));
    [now left | reflexivity | reflexivity | reflexivity | reflexivity].
Defined.

(** ** Concrete runs of the further properties *)

Ltac prove_produced :=
  repeat first [ apply produced_init | apply produced_step ].

(** Bob books room A over [[10, 20)], then Carol over [[20, 30)]: both are
    stored and do not overlap.  Bob's request for [[10, 20)] and Carol's for
    [[15, 25)], run at once on the free room: both are stored and overlap. *)
Lemma no_overlap_serial_only_witness :
  ~ half_open_conflict bob_10_20 (startTime carol_20_30) (endTime carol_20_30)
  /\ exists b1 b2 st2,
      createBookingSafe_interleaved sample_message 0 0 st_free
                                    (NewBooking.mk 2 1 10 20 None)
                                    (NewBooking.mk 3 1 15 25 None)
      = (Ok b1, Ok b2, st2)
      /\ bookings st2 = bookings st_free ++ [b1; b2]
      /\ roomId b1 = roomId b2
      /\ half_open_conflict b1 (startTime b2) (endTime b2).
Proof.
  split.
  - apply (no_overlap_serial_only
             sample_message Restrict
             (perform sample_message Restrict
                (perform sample_message Restrict st_free
                         (OnBookings (PostBooking 0 bob body_bob_10_20)))
                (OnBookings (PostBooking 0 carol body_carol_20_30)))
             bob_10_20 carol_20_30 0 0
             (NewBooking.mk 2 1 10 20 None) (NewBooking.mk 3 1 15 25 None)).
    + unfold st_free. prove_produced.
    + simpl. now left.
    + simpl. right. now left.
    + discriminate.
    + reflexivity.
    + reflexivity.
    + reflexivity.
    + simpl. lia.
    + simpl. lia.
  - assert (Hdiff : NewBooking.userId (NewBooking.mk 2 1 10 20 None)
                      = NewBooking.userId (NewBooking.mk 3 1 15 25 None) ->
                      NewBooking.roomId (NewBooking.mk 2 1 10 20 None)
                      = NewBooking.roomId (NewBooking.mk 3 1 15 25 None) ->
                      NewBooking.startTime (NewBooking.mk 2 1 10 20 None)
                      = NewBooking.startTime (NewBooking.mk 3 1 15 25 None) ->
                      NewBooking.endTime (NewBooking.mk 2 1 10 20 None)
                      = NewBooking.endTime (NewBooking.mk 3 1 15 25 None) -> False)
      by (simpl; intros Hsame; discriminate).
    destruct (proj2 (proj2 (no_overlap_serial_only
                              sample_message Restrict st_free bob_10_20 carol_20_30 0 0
                              (NewBooking.mk 2 1 10 20 None)
                              (NewBooking.mk 3 1 15 25 None)))
                    eq_refl eq_refl eq_refl eq_refl Hdiff eq_refl eq_refl)
      as (b1 & b2 & st2 & Hrun & Hrows & _ & _ & _ & Hov).
    exists b1, b2, st2. split; [exact Hrun|]. split; [exact Hrows|].
    apply Hov; [reflexivity | simpl; lia | simpl; lia].
Defined.

Lemma produced_ids_ascending_witness :
  StronglySorted id_lt [bob_10_20; carol_20_30]
  /\ NoDup (map id [bob_10_20; carol_20_30])
  /\ Forall (fun b => 0 < id b < 3) [bob_10_20; carol_20_30].
Proof.
  apply (produced_ids_ascending
           sample_message Restrict
           (perform sample_message Restrict
              (perform sample_message Restrict st_free
                       (OnBookings (PostBooking 0 bob body_bob_10_20)))
              (OnBookings (PostBooking 0 carol body_carol_20_30)))).
  unfold st_free. prove_produced.
Defined.


(** The admin cancels Bob's booking: room A is then free over [[10, 20)]. *)
Lemma cancel_then_checkRoomAvailability_witness :
  checkRoomAvailability (snd (delete_booking sample_message 5 6 st_active alice 1))
                        1 10 20 None
  = checkRoomAvailability st_active 1 10 20 (Some 1).
Proof.
  assert (Hprod : produced sample_message Restrict st_active).
  { change st_active
      with (perform sample_message Restrict st_free
                    (OnBookings (PostBooking 0 bob body_bob_10_20))).
    unfold st_free. prove_produced. }
  exact (proj1 (cancel_then_checkRoomAvailability
                  sample_message Restrict 5 6 st_active
                  (snd (delete_booking sample_message 5 6 st_active alice 1))
                  alice 1
                  (fst (delete_booking sample_message 5 6 st_active alice 1))
                  1 10 20 Hprod eq_refl eq_refl)).
Defined.

(** Bob cancels his own booking before it starts. *)
Lemma delete_booking_own_only_witness :
  exists r,
    In r (bookings st_active)
    /\ id r = 1
    /\ deletedAt r = None
    /\ userId r = User.id bob
    /\ 5 < startTime r
    /\ bookings (snd (delete_booking sample_message 5 6 st_active bob 1))
       = map (fun c => if id c =? 1 then set_deletedAt r (Some 6) else c)
             (bookings st_active).
Proof.
  apply (delete_booking_own_only
           sample_message 5 6 st_active
           (snd (delete_booking sample_message 5 6 st_active bob 1))
           bob 1
           (fst (delete_booking sample_message 5 6 st_active bob 1)));
    [prove_wf | reflexivity | reflexivity | reflexivity].
Defined.

Lemma handle_keeps_history_witness :
  exists kept added,
    bookings (snd (handle sample_message st_active (DeleteBooking 5 6 bob 1)))
    = kept ++ added
    /\ Forall2 row_evolves (bookings st_active) kept
    /\ (List.length added <= 1)%nat
    /\ Forall (fun b => deletedAt b = None /\ id b = booking_seq st_active) added.
Proof.
  apply (handle_keeps_history sample_message st_active (DeleteBooking 5 6 bob 1)).
  prove_wf.
Defined.

(** Bob books for himself and is answered 201; naming Carol he is answered
    403. *)
Lemma post_bookings_owner_witness :
  (exists b,
      payload (fst (post_bookings sample_message 0 st_free bob body_bob_10_20))
      = BookingJson b
      /\ bookings (snd (post_bookings sample_message 0 st_free bob body_bob_10_20))
         = bookings st_free ++ [b]
      /\ deletedAt b = None
      /\ Body.room_id body_bob_10_20 = Some (roomId b)
      /\ Body.start_time body_bob_10_20 = Some (startTime b)
      /\ Body.end_time body_bob_10_20 = Some (endTime b)
      /\ (userId b = User.id bob \/ is_admin bob = true))
  /\ (status (fst (post_bookings sample_message 0 st_free bob
                                 (Body.mk (Some 1) (Some 3) (Some 10) (Some 20) None)))
      = 403
      /\ snd (post_bookings sample_message 0 st_free bob
                            (Body.mk (Some 1) (Some 3) (Some 10) (Some 20) None))
         = st_free).
Proof.
  split.
  - apply (post_bookings_owner
             sample_message 0 st_free
             (snd (post_bookings sample_message 0 st_free bob body_bob_10_20))
             bob body_bob_10_20
             (fst (post_bookings sample_message 0 st_free bob body_bob_10_20)));
      reflexivity.
  - apply (proj2 (post_bookings_owner
                    sample_message 0 st_free
                    (snd (post_bookings sample_message 0 st_free bob
                            (Body.mk (Some 1) (Some 3) (Some 10) (Some 20) None)))
                    bob (Body.mk (Some 1) (Some 3) (Some 10) (Some 20) None)
                    (fst (post_bookings sample_message 0 st_free bob
                            (Body.mk (Some 1) (Some 3) (Some 10) (Some 20) None)))
                    eq_refl)
                 3 1 10 20);
      try reflexivity; discriminate.
Defined.

Lemma cancelled_booking_hidden_witness :
  getBookingById (snd (delete_booking sample_message 5 6 st_active bob 1)) 1 = None
  /\ (forall caller,
         get_booking (snd (delete_booking sample_message 5 6 st_active bob 1)) caller 1
         = mkResponse 404 (Message "Booking not found"))
  /\ (forall u b,
         In b (getActiveBookings
                 (snd (delete_booking sample_message 5 6 st_active bob 1)) u) <->
         In b (getActiveBookings st_active u) /\ id b <> 1).
Proof.
  apply (cancelled_booking_hidden
           sample_message 5 6 st_active
           (snd (delete_booking sample_message 5 6 st_active bob 1))
           bob 1
           (fst (delete_booking sample_message 5 6 st_active bob 1)));
    reflexivity.
Defined.

(** Carol's new booking is read back and listed. *)
Lemma created_booking_listed_witness :
  getBookingById (snd (createBookingSafe sample_message 0 st_active
                                         (NewBooking.mk 3 1 20 30 None))) 2
  = Some carol_20_30
  /\ In carol_20_30
        (getActiveBookings (snd (createBookingSafe sample_message 0 st_active
                                                   (NewBooking.mk 3 1 20 30 None)))
                           (Some 3)).
Proof.
  pose proof (created_booking_listed
                sample_message 0 st_active
                (snd (createBookingSafe sample_message 0 st_active
                                        (NewBooking.mk 3 1 20 30 None)))
                (NewBooking.mk 3 1 20 30 None) carol_20_30
                ltac:(prove_wf) eq_refl) as (Hget & _ & Hown & _).
  split; [exact Hget | exact Hown].
Defined.

(** Bob's booking is shown to Bob and refused to Carol; nothing has id 9,
    nor id 2147483648, which the Int column cannot hold. *)
Lemma get_booking_answers_witness :
  get_booking st_active bob 1 = mkResponse 200 (BookingJson bob_10_20)
  /\ get_booking st_active bob 9 = mkResponse 404 (Message "Booking not found")
  /\ get_booking st_active carol 1 = mkResponse 403 (Message "Not authorized")
  /\ get_booking st_active bob 2147483648
     = mkResponse 500 (Message "Error fetching booking").
Proof.
  assert (Hwf : wf_store st_active) by prove_wf.
  assert (Hnine : forall b, In b (bookings st_active) -> id b <> 9).
  { intros b [Hb | []]. subst b. discriminate. }
  assert (Hbig : forall b, In b (bookings st_active) -> id b <> 2147483648).
  { intros b [Hb | []]. subst b. discriminate. }
  destruct (get_booking_answers st_active bob bob_10_20 9
              Hwf (or_introl eq_refl) eq_refl Hnine) as (Hbob & Habsent & _).
  destruct (get_booking_answers st_active carol bob_10_20 9
              Hwf (or_introl eq_refl) eq_refl Hnine) as (Hcarol & _ & _).
  destruct (get_booking_answers st_active bob bob_10_20 2147483648
              Hwf (or_introl eq_refl) eq_refl Hbig) as (_ & _ & Hout).
  split; [exact Hbob|]. split; [exact (Habsent eq_refl)|].
  split; [exact Hcarol | exact (Hout eq_refl)].
Defined.

(** At time 5 the page of room A shows Carol her booking over [[30, 40)]. *)
Lemma upcomingBookings_shown_witness :
  In carol_30_40 (bookings st_three)
  /\ deletedAt carol_30_40 = None
  /\ roomId carol_30_40 = 1
  /\ 5 < startTime carol_30_40
  /\ (is_admin carol = false -> User.id carol <> 0 -> userId carol_30_40 = User.id carol).
Proof.
  apply (proj2 (upcomingBookings_shown 5 st_three carol 1) carol_30_40).
  simpl. now left.
Defined.


(** Bob's booking ends at 20: room A is not listed for [[20, 30]], though the
    availability query does not count the booking. *)
Lemma get_rooms_available_inclusive_witness :
  (forall l, get_rooms_available st_active (Some 20) (Some 30)
             = mkResponse 200 (RoomsJson l) ->
             ~ In room_a l)
  /\ (forall x, availability_where (Room.id room_a) 20 30 x bob_10_20 = false).
Proof.
  pose proof (get_rooms_available_inclusive
                st_active 20 30 room_a bob_10_20
                (or_introl eq_refl) eq_refl ltac:(lia)
                ltac:(right; simpl; lia)) as [Hlist Htouch].
  split; [exact Hlist|].
  apply Htouch; simpl; lia.
Defined.

(** At time 0 Bob submits [[10, 20)] for room A. *)
Lemma handleSubmit_sends_valid_witness :
  0 < 10
  /\ 10 < 20
  /\ post_bookings sample_message 1 st_free bob
                   (Body.mk (Some 1) None (Some 10) (Some 20) None)
     = (fst (post_bookings sample_message 1 st_free bob body_bob_10_20),
        snd (post_bookings sample_message 1 st_free bob body_bob_10_20))
  /\ (status (fst (post_bookings sample_message 1 st_free bob body_bob_10_20)) = 201 ->
      exists b,
        bookings (snd (post_bookings sample_message 1 st_free bob body_bob_10_20))
        = bookings st_free ++ [b]
        /\ startTime b = 10 /\ endTime b = 20
        /\ startTime b < endTime b
        /\ roomId b = 1
        /\ userId b = User.id bob
        /\ deletedAt b = None).
Proof.
  apply (handleSubmit_sends_valid
           sample_message 0 1 st_free
           (snd (post_bookings sample_message 1 st_free bob body_bob_10_20))
           bob 1 10 20 None
           (fst (post_bookings sample_message 1 st_free bob body_bob_10_20))).
  reflexivity.
Defined.

(** The admin deletes room A together with its cancelled booking. *)
Lemma delete_room_by_admin_witness :
  exists st',
    delete_room sample_message Restrict st_rooms alice 1
    = (mkRoomResponse 200
         (RoomDeletedWithBookings
            (List.length (filter (fun b => roomId b =? 1) (bookings st_rooms)))),
       st')
    /\ bookings st' = filter (fun b => negb (roomId b =? 1)) (bookings st_rooms)
    /\ rooms st' = filter (fun r => negb (Room.id r =? 1)) (rooms st_rooms)
    /\ users st' = users st_rooms
    /\ booking_seq st' = booking_seq st_rooms
    /\ (forall b, In b (bookings st') -> roomId b <> 1)
    /\ (forall b, In b (bookings st_rooms) -> roomId b <> 1 -> In b (bookings st')).
Proof.
  apply (delete_room_by_admin sample_message Restrict st_rooms alice 1).
  - reflexivity.
  - exists room_a. split; [now left | reflexivity].
Defined.

(** Bob deletes his room B, which has no booking. *)
Lemma delete_room_by_user_witness :
  (exists r, In r (rooms st_rooms) /\ Room.id r = 2 /\ Room.ownerId r = User.id bob)
  /\ (forall b, In b (bookings st_rooms) -> roomId b = 2 -> deletedAt b <> None)
  /\ rooms (snd (delete_room sample_message Restrict st_rooms bob 2))
     = filter (fun r => negb (Room.id r =? 2)) (rooms st_rooms).
Proof.
  apply (delete_room_by_user sample_message Restrict st_rooms bob 2); reflexivity.
Defined.

(** Bob renames his room B. *)
Lemma put_room_effect_witness :
  exists r,
    In r (rooms st_rooms) /\ Room.id r = 2
    /\ (Room.ownerId r = User.id bob \/ is_admin bob = true)
    /\ fst (put_room st_rooms bob 2 (RoomBody.mk (Some "C") None None))
       = mkRoomResponse 200 (RoomJson (room_update r (RoomBody.mk (Some "C") None None)))
    /\ get_room (snd (put_room st_rooms bob 2 (RoomBody.mk (Some "C") None None))) 2
       = fst (put_room st_rooms bob 2 (RoomBody.mk (Some "C") None None)).
Proof.
  apply (put_room_effect st_rooms bob 2 (RoomBody.mk (Some "C") None None)).
  reflexivity.
Defined.

(** Ann registers first and is an admin; Ben registers second and is not. *)
Lemma register_first_is_admin_witness :
  (exists a password,
      accounts (snd (register sample_message sample_hash 0 "s" no_accounts ann))
      = accounts no_accounts ++ [a]
      /\ Credentials.username ann = Some (Account.username a)
      /\ Credentials.email ann = Some (Account.email a)
      /\ Credentials.password ann = Some password
      /\ Account.password a = sample_hash password "s"
      /\ (Account.role a = "admin" <-> accounts no_accounts = [])
      /\ (Account.role a = "user" <-> accounts no_accounts <> [])
      /\ auth_cookie (fst (register sample_message sample_hash 0 "s" no_accounts ann))
         = SetToken (profile_of a)
      /\ (forall b, In b (accounts no_accounts) ->
                    Account.email b <> Account.email a
                    /\ Account.username b <> Account.username a))
  /\ accounts (snd (register sample_message sample_hash 0 "s" two_accounts ann))
     = accounts two_accounts.
Proof.
  split.
  - apply (register_first_is_admin
             sample_message sample_hash 0 "s" no_accounts
             (snd (register sample_message sample_hash 0 "s" no_accounts ann)) ann
             (fst (register sample_message sample_hash 0 "s" no_accounts ann)));
      reflexivity.
  - apply (register_first_is_admin
             sample_message sample_hash 0 "s" two_accounts
             (snd (register sample_message sample_hash 0 "s" two_accounts ann)) ann
             (fst (register sample_message sample_hash 0 "s" two_accounts ann)));
      [reflexivity | discriminate].
Defined.

Ltac prove_registered :=
  repeat first [ apply registered_init | apply registered_step ].

Ltac two_accounts_registered :=
  change two_accounts
    with (snd (auth_handle sample_message sample_hash
                 (snd (auth_handle sample_message sample_hash no_accounts
                                   (Register 0 "s" ann)))
                 (Register 0 "s" ben)));
  unfold no_accounts; prove_registered.

Lemma registered_accounts_witness :
  NoDup (map Account.email (accounts two_accounts))
  /\ NoDup (map Account.username (accounts two_accounts))
  /\ StronglySorted account_id_lt (accounts two_accounts)
  /\ Forall (fun a => 0 < Account.id a < account_seq two_accounts) (accounts two_accounts)
  /\ Forall (fun a => Account.role a = "admin" \/ Account.role a = "user")
            (accounts two_accounts)
  /\ (accounts two_accounts <> [] ->
      exists a, In a (accounts two_accounts) /\ Account.role a = "admin").
Proof.
  apply (registered_accounts sample_message sample_hash two_accounts).
  two_accounts_registered.
Defined.

(** Ann, an admin, stays one when Ben is promoted. *)
Lemma auth_handle_keeps_accounts_witness :
  exists kept added,
    accounts (snd (auth_handle sample_message sample_hash two_accounts
                               (Promote alice (Some "ben"))))
    = kept ++ added
    /\ Forall2 account_evolves (accounts two_accounts) kept
    /\ (List.length added <= 1)%nat
    /\ (exists a', In a' kept
                   /\ Account.id a' = Account.id ann_account
                   /\ Account.role a' = "admin").
Proof.
  destruct (auth_handle_keeps_accounts sample_message sample_hash two_accounts
                                       (Promote alice (Some "ben")))
    as (kept & added & Hrows & Hevolve & Hlen & Hadmins).
  exists kept, added. repeat split; trivial.
  apply (Hadmins ann_account); [now left | reflexivity].
Defined.

(** Ben registers after Ann, then logs in. *)
Lemma register_then_login_witness :
  exists profile,
    fst (register sample_message sample_hash 0 "s"
                  (snd (register sample_message sample_hash 0 "s" no_accounts ann)) ben)
    = mkAuthResponse 201 (SetToken profile)
        (AuthUser "User registered and logged in successfully" profile)
    /\ login sample_compare two_accounts ben
       = mkAuthResponse 200 (SetToken profile) (AuthUser "Logged in" profile)
    /\ me two_accounts (Profile.id profile) = mkAuthResponse 200 NoCookie (MeUser profile).
Proof.
  apply (register_then_login
           sample_message sample_hash sample_compare 0 "s"
           (snd (register sample_message sample_hash 0 "s" no_accounts ann))
           two_accounts ben
           (fst (register sample_message sample_hash 0 "s"
                          (snd (register sample_message sample_hash 0 "s" no_accounts ann))
                          ben))).
  - change (snd (register sample_message sample_hash 0 "s" no_accounts ann))
      with (snd (auth_handle sample_message sample_hash no_accounts (Register 0 "s" ann))).
    unfold no_accounts. prove_registered.
  - intros password s. unfold sample_compare, sample_hash. apply String.eqb_refl.
  - reflexivity.
  - reflexivity.
Defined.

(** Ben's login with his password, and with a wrong one. *)
Lemma login_answers_witness :
  login sample_compare two_accounts (Credentials.mk (Some "ben") None (Some "hunter2"))
  = mkAuthResponse 400 NoCookie (AuthMessage "Username, email and password are required")
  /\ (login sample_compare two_accounts ben
      = mkAuthResponse 400 NoCookie (AuthMessage "Invalid credentials")
      \/ exists a,
          In a (accounts two_accounts)
          /\ Account.username a = "ben"
          /\ Account.email a = "ben@example.com"
          /\ sample_compare "hunter2" (Account.password a) = true
          /\ login sample_compare two_accounts ben
             = mkAuthResponse 200 (SetToken (profile_of a))
                              (AuthUser "Logged in" (profile_of a))).
Proof.
  split.
  - apply (login_answers sample_compare two_accounts
                         (Credentials.mk (Some "ben") None (Some "hunter2"))).
    right. now left.
  - apply (proj2 (login_answers sample_compare two_accounts ben)
                 "ben" "ben@example.com" "hunter2");
      [reflexivity | discriminate | discriminate | discriminate].
Defined.

(** Carol may not promote; the admin promotes Ben; Ann is already an admin. *)
Lemma promote_effect_witness :
  promote two_accounts carol (Some "ben")
  = (mkAuthResponse 403 NoCookie (AuthMessage "Forbidden"), two_accounts)
  /\ (exists name target,
         Some "ben" = Some name
         /\ is_admin alice = true
         /\ In target (accounts two_accounts)
         /\ Account.username target = name
         /\ Account.role target <> "admin"
         /\ promote two_accounts alice (Some "ben")
            = (mkAuthResponse 200 NoCookie (PromotedUser "Promoted" name),
               mkAccounts
                 (map (fun a => if String.eqb (Account.username a) name
                                then set_role a "admin" else a) (accounts two_accounts))
                 (account_seq two_accounts)))
  /\ promote two_accounts alice (Some "ann")
     = (mkAuthResponse 200 NoCookie (AuthMessage "Already admin"), two_accounts).
Proof.
  split; [|split].
  - apply (promote_effect sample_message sample_hash two_accounts carol (Some "ben")).
    reflexivity.
  - apply (promote_effect sample_message sample_hash two_accounts alice (Some "ben")).
    simpl. intros Heq. inversion Heq.
  - apply (proj2 (proj2 (promote_effect sample_message sample_hash two_accounts alice
                                        (Some "ann")))
                 "ann" ann_account);
      [reflexivity | reflexivity | discriminate | two_accounts_registered
       | now left | reflexivity | reflexivity].
Defined.
